(** * Skin-lesion classification notebook: a shallow embedding

    The notebook [classification.ipynb] is a straight-line script over
    numpy, pandas, scikit-learn, Keras and Pillow.  The script's own lines
    are embedded one by one in the second half of this file; the library
    calls it makes are embedded first, each from the library routine it
    reaches (the routine is named in the doc comment of its model). *)

From Stdlib Require Import String Ascii ZArith QArith Qround Bool Arith Lia.
From Stdlib Require Import OrdersEx Orders Mergesort Sorted Finite List Permutation.
Import ListNotations.

Close Scope Q_scope.

(** ** Python exceptions and fallible computations *)

Inductive exn : Type :=
  | ValueError
  | KeyError
  | IndexError
  | AttributeError
  | FileNotFoundError
  | UnidentifiedImageError
  | ClockExhausted.

Inductive result (A : Type) : Type :=
  | Ok (a : A)
  | Raise (e : exn).

Arguments Ok {A} a.
Arguments Raise {A} e.

Definition bind {A B : Type} (m : result A) (k : A -> result B) : result B :=
  match m with
  | Ok a => k a
  | Raise e => Raise e
  end.

Notation "x <- m ;; k" := (bind m (fun x => k))
  (at level 61, m at next level, right associativity).
Notation "' p <- m ;; k" := (bind m (fun x => match x with p => k end))
  (at level 61, p pattern, m at next level, right associativity).

(** A list comprehension / [Series.map] whose body may raise: the first
    exception aborts the whole statement, nothing is produced. *)
Fixpoint mapM {A B : Type} (f : A -> result B) (l : list A) : result (list B) :=
  match l with
  | [] => Ok []
  | a :: l' => b <- f a ;; bs <- mapM f l' ;; Ok (b :: bs)
  end.

(** ** numpy's Mersenne Twister (legacy [RandomState] bit generator) *)

Module MT19937.

Local Open Scope Z_scope.

Definition RK_STATE_LEN : nat := 624.
Definition N : nat := 624.
Definition M : nat := 397.
Definition MATRIX_A : Z := 0x9908b0df.
Definition UPPER_MASK : Z := 0x80000000.
Definition LOWER_MASK : Z := 0x7fffffff.
Definition MASK32 : Z := 0xffffffff.

Record state : Type := { key : list Z; pos : nat }.

(** [mt19937_seed]: Knuth's linear congruence fills the key, [pos] is
    left at the end of the key so that the first draw regenerates it. *)
Fixpoint seed_fill (n : nat) (p : Z) (seed : Z) : list Z :=
  match n with
  | O => []
  | S n' =>
      seed :: seed_fill n' (p + 1)
                (Z.land (1812433253 * Z.lxor seed (Z.shiftr seed 30) + p + 1) MASK32)
  end.

Definition mt19937_seed (seed : Z) : state :=
  {| key := seed_fill RK_STATE_LEN 0 (Z.land seed MASK32); pos := RK_STATE_LEN |}.

Fixpoint set_nth (i : nat) (v : Z) (l : list Z) : list Z :=
  match l, i with
  | [], _ => []
  | _ :: l', O => v :: l'
  | x :: l', S i' => x :: set_nth i' v l'
  end.

(** One assignment [key[i] = key[j] ^ (y >> 1) ^ (-(y & 1) & MATRIX_A)]
    with [y = (key[i] & UPPER_MASK) | (key[i1] & LOWER_MASK)]. *)
Definition twist_at (i i1 j : nat) (k : list Z) : list Z :=
  let y := Z.lor (Z.land (nth i k 0) UPPER_MASK) (Z.land (nth i1 k 0) LOWER_MASK) in
  set_nth i (Z.lxor (Z.lxor (nth j k 0) (Z.shiftr y 1))
                    (if Z.odd y then MATRIX_A else 0)) k.

(** [mt19937_gen]: the three loops of the in-place regeneration. *)
Definition mt19937_gen (k : list Z) : list Z :=
  let k := fold_left (fun k i => twist_at i (i + 1) (i + M) k) (seq 0 (N - M)) k in
  let k := fold_left (fun k i => twist_at i (i + 1) (i + M - N) k)
                     (seq (N - M) (M - 1)) k in
  twist_at (N - 1) 0 (M - 1) k.

Definition temper (y : Z) : Z :=
  let y := Z.lxor y (Z.shiftr y 11) in
  let y := Z.lxor y (Z.land (Z.shiftl y 7) 0x9d2c5680) in
  let y := Z.lxor y (Z.land (Z.shiftl y 15) 0xefc60000) in
  let y := Z.lxor y (Z.shiftr y 18) in
  Z.land y MASK32.

(** [mt19937_next]: the result is a [uint32_t]. *)
Definition mt19937_next (st : state) : Z * state :=
  let st := if Nat.eqb (pos st) RK_STATE_LEN
            then {| key := mt19937_gen (key st); pos := 0 |} else st in
  (temper (nth (pos st) (key st) 0), {| key := key st; pos := S (pos st) |}).

(** [mt19937_next64]: two 32-bit draws, the first one in the high half. *)
Definition mt19937_next64 (st : state) : Z * state :=
  let (hi, st) := mt19937_next st in
  let (lo, st) := mt19937_next st in
  (Z.lor (Z.shiftl hi 32) lo, st).

(** The next [n] results of a generator [next], oldest first. *)
Fixpoint outputs (next : state -> Z * state) (n : nat) (st : state) : list Z :=
  match n with
  | O => []
  | S n' => let (v, st') := next st in v :: outputs next n' st'
  end.

End MT19937.

(** ** numpy.random: bounded integers and permutations *)

Module NumpyRandom.

Import MT19937.
Local Open Scope Z_scope.

(** Every call of the bit generator ticks a clock.  The rejection loops
    below recurse on it; [CLOCK] ticks are granted to one library call. *)
Definition CLOCK : nat := 8 * 1024.

(** [gen_mask]: smear the highest set bit of [max] to the right. *)
Definition gen_mask (max : Z) : Z :=
  let mask := max in
  let mask := Z.lor mask (Z.shiftr mask 1) in
  let mask := Z.lor mask (Z.shiftr mask 2) in
  let mask := Z.lor mask (Z.shiftr mask 4) in
  let mask := Z.lor mask (Z.shiftr mask 8) in
  let mask := Z.lor mask (Z.shiftr mask 16) in
  let mask := Z.lor mask (Z.shiftr mask 32) in
  mask.

(** [while ((val = (next(state) & mask)) > rng);] *)
Fixpoint bounded_masked (next : state -> Z * state) (clock : nat) (st : state)
         (rng mask : Z) : result (Z * state * nat) :=
  match clock with
  | O => Raise ClockExhausted
  | S clock' =>
      let (v, st') := next st in
      let val := Z.land v mask in
      if rng <? val then bounded_masked next clock' st' rng mask
      else Ok (val, st', clock')
  end.

(** 32-bit draws when the range fits, 64-bit draws otherwise. *)
Definition next_for (rng : Z) : state -> Z * state :=
  if rng <=? 0xffffffff then mt19937_next else mt19937_next64.

(** [random_interval]: a uniform integer in [0, max], [max] included. *)
Definition random_interval (clock : nat) (st : state) (max : Z)
  : result (Z * state * nat) :=
  if max =? 0 then Ok (0, st, clock)
  else bounded_masked (next_for max) clock st max (gen_mask max).

Fixpoint masked_fill (next : state -> Z * state) (cnt clock : nat) (st : state)
         (off rng mask : Z) : result (list Z * state * nat) :=
  match cnt with
  | O => Ok ([], st, clock)
  | S cnt' =>
      '(val, st, clock) <- bounded_masked next clock st rng mask ;;
      '(out, st, clock) <- masked_fill next cnt' clock st off rng mask ;;
      Ok (off + val :: out, st, clock)
  end.

(** [random_bounded_uint64_fill] with [use_masked]: [cnt] integers in
    [off, off + rng].  The two full-range branches of the C routine draw
    without a test; the masked loop with an all-ones mask does the same
    and stands for them. *)
Definition random_bounded_uint64_fill (clock : nat) (st : state) (off rng : Z)
           (cnt : nat) : result (list Z * state * nat) :=
  if rng =? 0 then Ok (repeat off cnt, st, clock)
  else masked_fill (next_for rng) cnt clock st off rng (gen_mask rng).

(** [RandomState.randint(low, high, size)], [high] excluded.  The dtype
    bound on [high] is not modelled: an array length never reaches it. *)
Definition randint (st : state) (low high : Z) (size : nat)
  : result (list Z * state) :=
  if high <=? low then Raise ValueError
  else
    '(out, st, _) <- random_bounded_uint64_fill CLOCK st low (high - 1 - low) size ;;
    Ok (out, st).

(** [buf = data[j]; data[j] = data[i]; data[i] = buf]. *)
Definition swap (i j : nat) (arr : list Z) : list Z :=
  let buf := nth j arr 0 in
  let arr := set_nth j (nth i arr 0) arr in
  set_nth i buf arr.

(** [_shuffle_raw]: [for i in reversed(range(1, n))], swap [i] with a
    uniform [j] in [0, i]. *)
Fixpoint shuffle_raw (i : nat) (clock : nat) (st : state) (arr : list Z)
  : result (list Z * state * nat) :=
  match i with
  | O => Ok (arr, st, clock)
  | S i' =>
      '(j, st, clock) <- random_interval clock st (Z.of_nat i) ;;
      shuffle_raw i' clock st (swap i (Z.to_nat j) arr)
  end.

Definition arange (n : nat) : list Z := map Z.of_nat (seq 0 n).

(** [RandomState.permutation(n)]: shuffle [arange(n)]. *)
Definition permutation (st : state) (n : nat) : result (list Z * state) :=
  '(arr, st, _) <- shuffle_raw (n - 1) CLOCK st (arange n) ;;
  Ok (arr, st).

(** [np.random.RandomState(seed)] for an integer seed. *)
Definition RandomState (seed : Z) : state := mt19937_seed seed.

End NumpyRandom.

Definition values {A S : Type} (r : result (A * S)) : result A :=
  '(a, _) <- r ;; Ok a.

(** ** scikit-learn *)

Module Sklearn.

Import MT19937.

(** [check_random_state]: [None] is numpy's global generator, an integer
    seeds a fresh [RandomState].  The second component tells whether the
    draws advance the global generator. *)
Definition check_random_state (random_state : option Z) (np_random : state)
  : state * bool :=
  match random_state with
  | None => (np_random, true)
  | Some seed => (NumpyRandom.RandomState seed, false)
  end.

(** [_safe_indexing(a, indices)]: positional take; an index past the end
    raises. *)
Definition safe_indexing {A : Type} (a : list A) (indices : list Z)
  : result (list A) :=
  mapM (fun i => match nth_error a (Z.to_nat i) with
                 | Some x => Ok x
                 | None => Raise IndexError
                 end) indices.

(** [resample(a, replace=True, n_samples=..., random_state=...)]:
    [indices = random_state.randint(0, len(a), size=(n_samples,))], then
    the rows at these positions, in the order drawn. *)
Definition resample_indices (len : nat) (n_samples : nat)
           (random_state : option Z) (np_random : state)
  : result (list Z * state) :=
  let (rs, global) := check_random_state random_state np_random in
  '(indices, rs) <- NumpyRandom.randint rs 0 (Z.of_nat len) n_samples ;;
  Ok (indices, if global then rs else np_random).

Definition resample {A : Type} (a : list A) (n_samples : nat)
           (random_state : option Z) (np_random : state)
  : result (list A * state) :=
  '(indices, np_random) <-
     resample_indices (length a) n_samples random_state np_random ;;
  rows <- safe_indexing a indices ;;
  Ok (rows, np_random).

(** *** LabelEncoder *)

(** [sorted(set(values))] for a column of strings. *)
Fixpoint insert_unique (s : string) (l : list string) : list string :=
  match l with
  | [] => [s]
  | x :: l' =>
      match String_as_OT.compare s x with
      | Lt => s :: l
      | Eq => l
      | Gt => x :: insert_unique s l'
      end
  end.

Definition unique (values : list string) : list string :=
  fold_right insert_unique [] values.

Record LabelEncoder : Type := { classes_ : list string }.

Definition fit (y : list string) : LabelEncoder := {| classes_ := unique y |}.

(** The table [{val: i for i, val in enumerate(uniques)}]. *)
Fixpoint index_of (s : string) (l : list string) : option nat :=
  match l with
  | [] => None
  | x :: l' => if String.eqb s x then Some O
               else option_map S (index_of s l')
  end.

Definition transform1 (le : LabelEncoder) (s : string) : result nat :=
  match index_of s (classes_ le) with
  | Some i => Ok i
  | None => Raise ValueError
  end.

Definition transform (le : LabelEncoder) (y : list string) : result (list nat) :=
  mapM (transform1 le) y.

Definition inverse_transform1 (le : LabelEncoder) (i : nat) : result string :=
  match nth_error (classes_ le) i with
  | Some s => Ok s
  | None => Raise ValueError
  end.

Definition inverse_transform (le : LabelEncoder) (y : list nat)
  : result (list string) :=
  mapM (inverse_transform1 le) y.

(** *** train_test_split *)

(** [_validate_shuffle_split] for a float [test_size] and
    [train_size=None]. *)
Definition validate_shuffle_split (n_samples : nat) (test_size : Q)
  : result (nat * nat) :=
  let n_test := Z.to_nat (Qceiling (test_size * inject_Z (Z.of_nat n_samples))) in
  let n_train := (n_samples - n_test)%nat in
  if (n_samples <? n_train + n_test)%nat then Raise ValueError
  else if (n_train =? 0)%nat then Raise ValueError
  else Ok (n_train, n_test).

(** [ShuffleSplit._iter_indices], first split:
    [permutation = rng.permutation(n_samples)],
    [ind_test = permutation[:n_test]],
    [ind_train = permutation[n_test:(n_test + n_train)]]. *)
Definition shuffle_split (n_samples : nat) (test_size : Q)
           (random_state : option Z) (np_random : state)
  : result (list Z * list Z * state) :=
  '(n_train, n_test) <- validate_shuffle_split n_samples test_size ;;
  let (rng, global) := check_random_state random_state np_random in
  '(permutation, rng) <- NumpyRandom.permutation rng n_samples ;;
  let ind_test := firstn n_test permutation in
  let ind_train := firstn n_train (skipn n_test permutation) in
  Ok (ind_train, ind_test, if global then rng else np_random).

(** [train_test_split(X, Y, test_size=..., random_state=...)]: both
    arrays are indexed by the same two index lists. *)
Definition train_test_split {A B : Type} (X : list A) (Y : list B)
           (test_size : Q) (random_state : option Z) (np_random : state)
  : result (list A * list A * list B * list B * state) :=
  if negb (length X =? length Y)%nat then Raise ValueError
  else
    '(ind_train, ind_test, np_random) <-
       shuffle_split (length X) test_size random_state np_random ;;
    x_train <- safe_indexing X ind_train ;;
    x_test <- safe_indexing X ind_test ;;
    y_train <- safe_indexing Y ind_train ;;
    y_test <- safe_indexing Y ind_test ;;
    Ok (x_train, x_test, y_train, y_test, np_random).

(** *** confusion_matrix *)

Fixpoint insert_label (a : nat) (l : list nat) : list nat :=
  match l with
  | [] => [a]
  | x :: l' =>
      match Nat.compare a x with
      | Lt => a :: l
      | Eq => l
      | Gt => x :: insert_label a l'
      end
  end.

(** [unique_labels(y_true, y_pred)]: the sorted union of the labels that
    occur. *)
Definition unique_labels (y_true y_pred : list nat) : list nat :=
  fold_right insert_label [] (y_true ++ y_pred).

Definition count_pairs (a b : nat) (pairs : list (nat * nat)) : Z :=
  Z.of_nat (length (filter (fun tp => (fst tp =? a)%nat && (snd tp =? b)%nat) pairs)).

(** [confusion_matrix(y_true, y_pred)]: entry (r, c) counts the samples
    whose true label is the r-th and whose predicted label is the c-th of
    [unique_labels]. *)
Definition confusion_matrix (y_true y_pred : list nat) : result (list (list Z)) :=
  if negb (length y_true =? length y_pred)%nat then Raise ValueError
  else
    let labels := unique_labels y_true y_pred in
    Ok (map (fun a => map (fun b => count_pairs a b (combine y_true y_pred)) labels)
            labels).

End Sklearn.

(** ** numpy arrays *)

Module Numpy.

(** An n-dimensional array: its shape and its elements in row-major
    order. *)
Record ndarray (A : Type) : Type := { shape : list nat; flat : list A }.

Arguments shape {A} _.
Arguments flat {A} _.

Definition shape_eqb (s t : list nat) : bool :=
  if list_eq_dec Nat.eq_dec s t then true else false.

(** [np.asarray(list_of_arrays)]: the arrays are stacked along a new
    first axis; arrays of different shapes do not stack. *)
Definition stack {A : Type} (l : list (ndarray A)) : result (list (ndarray A)) :=
  match l with
  | [] => Ok []
  | a :: _ =>
      if forallb (fun b => shape_eqb (shape b) (shape a)) l then Ok l
      else Raise ValueError
  end.

(** [a / 255.] on an array of unsigned bytes, over the rationals. *)
Definition true_divide_255 (a : ndarray Byte.byte) : ndarray Q :=
  {| shape := shape a;
     flat := map (fun b => Qmake (Z.of_N (Byte.to_N b)) 255) (flat a) |}.

(** [np.expand_dims(a, axis=0)]: a batch holding the one array. *)
Definition expand_dims {A : Type} (a : ndarray A) : list (ndarray A) := [a].

Fixpoint argmax_from (best : Q) (besti i : nat) (l : list Q) : nat :=
  match l with
  | [] => besti
  | x :: l' =>
      if Qle_bool x best then argmax_from best besti (S i) l'
      else argmax_from x i (S i) l'
  end.

(** [np.argmax] of one row: the first position of the largest entry
    (rows are never empty here; numpy raises on an empty row). *)
Definition argmax (row : list Q) : nat :=
  match row with
  | [] => O
  | x :: l => argmax_from x 0 1 l
  end.

(** [a / b] of two integer arrays, elementwise: 0/0 and x/0 are not
    numbers. *)
Definition true_divide (a b : Z) : option Q :=
  if (b =? 0)%Z then None else Some (Qmake a (Z.to_pos b)).

End Numpy.

(** ** Keras *)

Module Keras.

Import Numpy.

Definition one_hot (num_classes y : nat) : list Q :=
  map (fun j => if (j =? y)%nat then 1%Q else 0%Q) (seq 0 num_classes).

(** [to_categorical(x, num_classes)]: a row of zeros per label with a
    one written at the label's position. *)
Definition to_categorical (x : list nat) (num_classes : nat)
  : result (list (list Q)) :=
  mapM (fun y => if (y <? num_classes)%nat then Ok (one_hot num_classes y)
                 else Raise IndexError) x.

(** A [Sequential] model whose first layer declares [input_shape] and
    whose last layer is [Dense(units)]: the forward pass maps one input
    tensor to [units] scores. *)
Record Sequential (input_shape : list nat) (units : nat) : Type :=
  { forward : ndarray Q -> list Q;
    forward_units : forall x, length (forward x) = units }.

Arguments forward {input_shape units} _ _.
Arguments forward_units {input_shape units} _ _.

(** [model.predict(batch)]: one row of scores per input; an input of
    another shape is refused. *)
Definition predict {input_shape units} (model : Sequential input_shape units)
           (batch : list (ndarray Q)) : result (list (list Q)) :=
  if forallb (fun x => shape_eqb (shape x) input_shape) batch
  then Ok (map (forward model) batch)
  else Raise ValueError.

End Keras.

(** ** Pillow *)

Module PIL.

Import Numpy.

(** The modes a JPEG file decodes to. *)
Inductive mode : Type := L | RGB | CMYK.

Definition bands (m : mode) : nat :=
  match m with L => 1 | RGB => 3 | CMYK => 4 end.

(** A decoded image: [im_data x y b] is band [b] of the pixel in column
    [x] of row [y]. *)
Record Image : Type :=
  { im_mode : mode;
    im_size : nat * nat;
    im_data : nat -> nat -> nat -> Byte.byte }.

Inductive content : Type :=
  | Picture (im : Image)
  | Other.

(** A directory tree: the files' paths in the order a scan lists them. *)
Definition filesystem : Type := list (string * content).

Fixpoint read (fs : filesystem) (p : string) : option content :=
  match fs with
  | [] => None
  | (q, c) :: fs' => if String.eqb p q then Some c else read fs' p
  end.

(** [Image.open(fp)]: [None] is neither a path nor a file object. *)
Definition open (fs : filesystem) (fp : option string) : result Image :=
  match fp with
  | None => Raise AttributeError
  | Some p =>
      match read fs p with
      | None => Raise FileNotFoundError
      | Some Other => Raise UnidentifiedImageError
      | Some (Picture im) => Ok im
      end
  end.

(** Saturation of a resampled value to an unsigned byte. *)
Definition clip8 (v : Z) : Byte.byte :=
  match Byte.of_N (Z.to_N (Z.max 0 (Z.min 255 v))) with
  | Some b => b
  | None => Byte.x00
  end.

Definition size_eqb (s t : nat * nat) : bool :=
  (fst s =? fst t)%nat && (snd s =? snd t)%nat.

(** [im.resize(size)]: an image of the requested size in the same mode;
    an image that already has the size is copied.  [kernel] is the
    resampling filter's weighted sum before saturation. *)
Definition resize (kernel : Image -> nat * nat -> nat -> nat -> nat -> Z)
           (im : Image) (size : nat * nat) : Image :=
  if size_eqb (im_size im) size then im
  else {| im_mode := im_mode im;
          im_size := size;
          im_data := fun x y b => clip8 (kernel im size x y b) |}.

(** [np.asarray(im)]: rows, then columns, then bands; a one-band image
    has no band axis. *)
Definition asarray (im : Image) : ndarray Byte.byte :=
  let (w, h) := im_size im in
  {| shape := match im_mode im with
              | L => [h; w]
              | m => [h; w; bands m]
              end;
     flat := flat_map (fun y =>
               flat_map (fun x =>
                 map (fun b => im_data im x y b) (seq 0 (bands (im_mode im))))
                 (seq 0 w)) (seq 0 h) |}.

End PIL.

(** ** os.path and glob *)

Module Os.

Local Open Scope string_scope.

(** [s.rfind(c)]: the last position of [c], if any. *)
Fixpoint rfind (c : ascii) (s : string) : option nat :=
  match s with
  | EmptyString => None
  | String a s' =>
      match rfind c s' with
      | Some i => Some (S i)
      | None => if Ascii.eqb a c then Some O else None
      end
  end.

Definition drop (n : nat) (s : string) : string :=
  substring n (String.length s - n) s.

(** [os.path.basename(p)]: what follows the last separator. *)
Definition basename (p : string) : string :=
  match rfind "/" p with
  | Some i => drop (S i) p
  | None => p
  end.

Fixpoint all_dots (s : string) : bool :=
  match s with
  | EmptyString => true
  | String a s' => Ascii.eqb a "." && all_dots s'
  end.

(** [os.path.splitext(p)]: split at the last dot of the last component,
    unless only dots precede it there. *)
Definition splitext (p : string) : string * string :=
  match rfind "." p with
  | None => (p, "")
  | Some dotIndex =>
      let filenameIndex := match rfind "/" p with Some i => S i | None => O end in
      if (filenameIndex <=? dotIndex)%nat
         && negb (all_dots (substring filenameIndex (dotIndex - filenameIndex) p))
      then (substring 0 dotIndex p, drop dotIndex p)
      else (p, "")
  end.

(** The components of a path. *)
Fixpoint split_sep (s : string) : list string :=
  match s with
  | EmptyString => [EmptyString]
  | String a s' =>
      if Ascii.eqb a "/" then EmptyString :: split_sep s'
      else match split_sep s' with
           | [] => [String a EmptyString]
           | hd :: tl => String a hd :: tl
           end
  end.

Definition hidden (name : string) : bool :=
  match name with
  | String a _ => Ascii.eqb a "."
  | EmptyString => false
  end.

Definition endswith (suffix s : string) : bool :=
  (String.length suffix <=? String.length s)%nat
  && String.eqb (drop (String.length s - String.length suffix) s) suffix.

(** [glob(os.path.join('data/HAM10000/', '*', '*.jpg'))] over the files
    of a tree: a star matches one component that does not start with a
    dot. *)
Definition glob_images (paths : list string) : list string :=
  filter (fun p =>
    match split_sep p with
    | [a; b; d; f] =>
        String.eqb a "data" && String.eqb b "HAM10000"
        && negb (String.eqb d "") && negb (hidden d)
        && negb (hidden f) && endswith ".jpg" f
    | _ => false
    end) paths.

(** A Python [dict] with string keys: one binding per key; an assignment
    to a key that is present replaces its value. *)
Definition dict (V : Type) : Type := list (string * V).

Fixpoint setitem {V : Type} (k : string) (v : V) (d : dict V) : dict V :=
  match d with
  | [] => [(k, v)]
  | (k', v') :: d' =>
      if String.eqb k k' then (k, v) :: d' else (k', v') :: setitem k v d'
  end.

Fixpoint get {V : Type} (d : dict V) (k : string) : option V :=
  match d with
  | [] => None
  | (k', v) :: d' => if String.eqb k k' then Some v else get d' k
  end.

End Os.

(** ** The notebook *)

(** A row of [HAM10000_metadata.csv], with the columns the notebook
    reads. *)
Record lesion : Type :=
  { image_id : string;
    dx : string;
    sex : string;
    age : option Q;
    localization : string }.

(** A row of [skin_df]: its index label, the columns read from the file
    and the [label] column of line 31. *)
Record row : Type :=
  { index : nat;
    columns : lesion;
    label : nat }.

Definition SIZE : nat := 32.

(** Line 142. *)
Definition class_names : list string :=
  ["Melanocytic nevi"; "Melanoma"; "Benign keratosis-like lesions";
   "Basal cell carcinoma"; "Actinic keratoses"; "Vascular lesions";
   "Dermatofibroma"]%string.

Section Notebook.

Import MT19937 Numpy.

(** What the run reads: the metadata table, the image tree, Pillow's
    resampling filter, and the model as [model.fit] leaves it. *)
Variable skin_csv : list lesion.
Variable fs : PIL.filesystem.
Variable kernel : PIL.Image -> nat * nat -> nat -> nat -> nat -> Z.
Variable model : Keras.Sequential [SIZE; SIZE; 3%nat] 7.

(** Lines 29-31. *)
Definition le : Sklearn.LabelEncoder := Sklearn.fit (map dx skin_csv).

Definition skin_df : result (list row) :=
  labels <- Sklearn.transform le (map dx skin_csv) ;;
  Ok (map (fun ir => {| index := fst ir; columns := fst (snd ir); label := snd (snd ir) |})
          (combine (seq 0 (length skin_csv)) (combine skin_csv labels))).

(** Lines 55-57. *)
Definition n_samples : nat := 400.

Fixpoint resample_classes (df : list row) (classes : list nat) (np_random : state)
  : result (list (list row) * state) :=
  match classes with
  | [] => Ok ([], np_random)
  | i :: classes' =>
      '(d, np_random) <-
         Sklearn.resample (filter (fun r => (label r =? i)%nat) df) n_samples
                          (Some 42%Z) np_random ;;
      '(ds, np_random) <- resample_classes df classes' np_random ;;
      Ok (d :: ds, np_random)
  end.

Definition df_list (np_random : state) : result (list (list row) * state) :=
  df <- skin_df ;;
  resample_classes df (seq 0 7) np_random.

Definition skin_df_balanced (np_random : state) : result (list row * state) :=
  '(dfs, np_random) <- df_list np_random ;;
  Ok (concat dfs, np_random).

(** Lines 60-62. *)
Definition image_path : Os.dict string :=
  fold_left (fun d x => Os.setitem (fst (Os.splitext (Os.basename x))) x d)
            (Os.glob_images (map fst fs)) [].

Definition path_column (balanced : list row) : list (option string) :=
  map (fun r => Os.get image_path (image_id (columns r))) balanced.

Definition read_image (x : option string) : result (ndarray Byte.byte) :=
  im <- PIL.open fs x ;;
  Ok (PIL.asarray (PIL.resize kernel im (SIZE, SIZE))).

Definition image_column (balanced : list row) : result (list (ndarray Byte.byte)) :=
  mapM read_image (path_column balanced).

(** Lines 74-77. *)
Definition X (images : list (ndarray Byte.byte)) : result (list (ndarray Q)) :=
  a <- stack images ;;
  Ok (map true_divide_255 a).

Definition Y (balanced : list row) : list nat := map label balanced.

Definition Y_cat (balanced : list row) : result (list (list Q)) :=
  Keras.to_categorical (Y balanced) 7.

Definition test_size : Q := Qmake 1 4.

(** Lines 126-131 and 136. *)
Definition y_pred_classes (y_pred : list (list Q)) : list nat := map argmax y_pred.

Definition y_true (y_test : list (list Q)) : list nat := map argmax y_test.

Definition diag (cm : list (list Z)) : list Z :=
  map (fun i => nth i (nth i cm []) 0%Z) (seq 0 (length cm)).

Definition sum_axis1 (cm : list (list Z)) : list Z :=
  map (fun r => fold_right Z.add 0%Z r) cm.

Definition one_minus (x : option Q) : option Q :=
  match x with Some q => Some (1 - q)%Q | None => None end.

Definition incorr_fraction (cm : list (list Z)) : list (option Q) :=
  map (fun ds => one_minus (true_divide (fst ds) (snd ds)))
      (combine (diag cm) (sum_axis1 cm)).

(** Lines 145-157. *)
Definition load_and_preprocess_image (image_path : string)
  : result (list (ndarray Q)) :=
  img <- PIL.open fs (Some image_path) ;;
  let img := PIL.resize kernel img (SIZE, SIZE) in
  let img := true_divide_255 (PIL.asarray img) in
  Ok (expand_dims img).

Definition predict_skin_cancer (img_path : string) : result string :=
  img <- load_and_preprocess_image img_path ;;
  prediction <- Keras.predict model img ;;
  let predicted_class := map argmax prediction in
  match nth_error class_names (nth 0 predicted_class O) with
  | Some name => Ok name
  | None => Raise IndexError
  end.

(** The values the evaluation cells leave behind. *)
Record outputs : Type :=
  { out_x_train : list (ndarray Q);
    out_x_test : list (ndarray Q);
    out_y_train : list (list Q);
    out_y_test : list (list Q);
    out_cm : list (list Z);
    out_incorr_fraction : list (option Q) }.

(** The cells in order, up to line 136 (the plotting statements fail in no
    case treated here and leave no value behind; they are left out). *)
Definition evaluation (np_random : state) : result (outputs * state) :=
  '(balanced, np_random) <- skin_df_balanced np_random ;;
  images <- image_column balanced ;;
  x <- X images ;;
  y_cat <- Y_cat balanced ;;
  '(x_train, x_test, y_train, y_test, np_random) <-
     Sklearn.train_test_split x y_cat test_size (Some 42%Z) np_random ;;
  y_pred <- Keras.predict model x_test ;;
  cm <- Sklearn.confusion_matrix (y_true y_test) (y_pred_classes y_pred) ;;
  Ok ({| out_x_train := x_train; out_x_test := x_test;
         out_y_train := y_train; out_y_test := y_test;
         out_cm := cm; out_incorr_fraction := incorr_fraction cm |}, np_random).

(** The whole run, with the example usage of lines 160-162: the string
    printed at the end. *)
Definition notebook (np_random : state) : result string :=
  '(_, _) <- evaluation np_random ;;
  predict_skin_cancer "data\HAM10000\HAM10000_images_part_2\ISIC_0032917.jpg".

End Notebook.

(** ** Notions used in the statements *)

(** Line 21: [np.random.seed(42)]. *)
Definition np_random_seed : MT19937.state := NumpyRandom.RandomState 42.

(** Bit [k] of a draw is clear; how many draws of a list have it clear. *)
Definition zero_bit (k : Z) (v : Z) : bool := negb (Z.testbit v k).

Definition count_zero (k : Z) (l : list Z) : nat := length (filter (zero_bit k) l).

(** The order in which [sorted] puts strings. *)
Definition slt (a b : string) : Prop := String_as_OT.compare a b = Lt.

(** The rows [resample] draws from [a] when it is given an integer seed. *)
Definition sampled {A : Type} (a : list A) (n : nat) (seed : Z) : result (list A) :=
  '(indices, _) <- NumpyRandom.randint (NumpyRandom.RandomState seed) 0
                                       (Z.of_nat (length a)) n ;;
  Sklearn.safe_indexing a indices.

(** A block of the balanced set: 400 rows of [df], all of class [i]. *)
Definition class_block (df : list row) (i : nat) (d : list row) : Prop :=
  length d = 400 /\ Forall (fun r => In r df /\ label r = i) d.

Definition Qsum (v : list Q) : Q := fold_right Qplus 0%Q v.

Definition count_hot (v : list Q) : nat := length (filter (fun q => Qeq_bool q 1) v).

(** [v] is the one-hot vector of label id [l] among 7 classes. *)
Definition one_hot_of (l : nat) (v : list Q) : Prop :=
  length v = 7
  /\ Qeq (Qsum v) 1
  /\ count_hot v = 1
  /\ nth_error v l = Some 1%Q
  /\ Numpy.argmax v = l.

(** The shape of the array read from an image of mode [m]. *)
Definition tensor_shape (m : PIL.mode) : list nat :=
  match m with
  | PIL.L => [SIZE; SIZE]
  | m => [SIZE; SIZE; PIL.bands m]
  end.

(** Every record's picture is found by the glob and decodes as RGB. *)
Definition images_available (fs : PIL.filesystem) (skin_csv : list lesion) : Prop :=
  forall c, In c skin_csv ->
    exists p im, Os.get (image_path fs) (image_id c) = Some p
                 /\ PIL.read fs p = Some (PIL.Picture im)
                 /\ PIL.im_mode im = PIL.RGB.

(** The rows of [a] at the positions [indices] that exist. *)
Definition take {A : Type} (a : list A) (indices : list Z) : list A :=
  flat_map (fun i => match nth_error a (Z.to_nat i) with
                     | Some x => [x]
                     | None => []
                     end) indices.

(** What [permutation(2800)] returns on a generator seeded with 42, and
    the two index lists [ShuffleSplit] cuts from it. *)
Definition permutation_seed42_2800 : result (list Z) :=
  Eval vm_compute in
    values (NumpyRandom.permutation (NumpyRandom.RandomState 42) 2800).

Definition perm42 : list Z :=
  Eval vm_compute in
    match permutation_seed42_2800 with
    | Ok p => p
    | Raise _ => []
    end.

Definition ind_test42 : list Z := firstn 700 perm42.

Definition ind_train42 : list Z := firstn 2100 (skipn 700 perm42).


(** How many test rows each class has. *)
Definition class_counts42 : list Z := [95; 110; 97; 108; 100; 100; 90]%Z.

(** The confusion matrix over the labels 0 to 6. *)
Definition matrix7 (pairs : list (nat * nat)) : list (list Z) :=
  map (fun a => map (fun b => Sklearn.count_pairs a b pairs) (seq 0 7)) (seq 0 7).

(** Merge sort on integers, to compare a list with [arange]. *)
Module ZLeBool <: TotalLeBool.
Definition t := Z.
Definition leb := Z.leb.
Definition leb_total (a1 a2 : Z) : leb a1 a2 = true \/ leb a2 a1 = true :=
  match Z.le_ge_cases a1 a2 with
  | or_introl H => or_introl (proj2 (Z.leb_le a1 a2) H)
  | or_intror H => or_intror (proj2 (Z.leb_le a2 a1) H)
  end.
End ZLeBool.

Module ZSort := Sort ZLeBool.

(** ** Example inputs *)

Definition lesion_of (id d : string) : lesion :=
  {| image_id := id; dx := d; sex := "male"; age := Some (Qmake 80 1);
     localization := "back" |}.

(** A metadata table with one record per HAM10000 diagnosis code. *)
Definition ham7 : list lesion :=
  [lesion_of "ISIC_0027419" "bkl"; lesion_of "ISIC_0024698" "nv";
   lesion_of "ISIC_0027008" "df"; lesion_of "ISIC_0025964" "mel";
   lesion_of "ISIC_0031197" "vasc"; lesion_of "ISIC_0028155" "bcc";
   lesion_of "ISIC_0029417" "akiec"]%string.

(** The row of [skin_df] for the one [akiec] record of [ham7]. *)
Definition akiec_row : row :=
  {| index := 6; columns := lesion_of "ISIC_0029417" "akiec"; label := 0 |}.

(** The legend of the HAM10000 diagnosis codes (the dataset's documentation;
    the names are those of [class_names]). *)
Definition lesion_type_dict : Os.dict string :=
  [("nv", "Melanocytic nevi"); ("mel", "Melanoma");
   ("bkl", "Benign keratosis-like lesions"); ("bcc", "Basal cell carcinoma");
   ("akiec", "Actinic keratoses"); ("vasc", "Vascular lesions");
   ("df", "Dermatofibroma")]%string.

(** An image of one colour. *)
Definition plain_image (m : PIL.mode) (size : nat * nat) (v : Byte.byte) : PIL.Image :=
  {| PIL.im_mode := m; PIL.im_size := size; PIL.im_data := fun _ _ _ => v |}.

(** A tree holding the same picture for every record of [ham7]. *)
Definition fs7 (im : PIL.Image) : PIL.filesystem :=
  map (fun c => (("data/HAM10000/HAM10000_images_part_1/" ++ image_id c ++ ".jpg")%string,
                 PIL.Picture im)) ham7.

(** Pillow's NEAREST filter: the source pixel under the centre of the
    target pixel. *)
Definition nearest : PIL.Image -> nat * nat -> nat -> nat -> nat -> Z :=
  fun im size x y b =>
    let scale (t from to : nat) : nat :=
      N.to_nat ((2 * N.of_nat t + 1) * N.of_nat from / (2 * N.of_nat to)) in
    Z.of_N (Byte.to_N (PIL.im_data im (scale x (fst (PIL.im_size im)) (fst size))
                                      (scale y (snd (PIL.im_size im)) (snd size)) b)).

(** A model that gives every input the same scores. *)
Definition constant_model (scores : list Q) (H : length scores = 7)
  : Keras.Sequential [SIZE; SIZE; 3] 7 :=
  {| Keras.forward := fun _ => scores; Keras.forward_units := fun _ => H |}.

(** Scores that put class 0 first. *)
Definition class0_model : Keras.Sequential [SIZE; SIZE; 3] 7 :=
  constant_model
    [Qmake 4 5; Qmake 1 10; Qmake 1 20; Qmake 1 100; Qmake 1 100; Qmake 1 100; Qmake 1 50]
    eq_refl.

(** ** The network and its test accuracy *)

Module KerasLayers.

Inductive activation : Type := relu | softmax.

(** The layers of lines 81-99, with the arguments the notebook gives;
    strides and padding are the defaults (stride 1 and no padding for a
    convolution, the pool size as stride for a pooling). *)
Inductive layer : Type :=
  | Conv2D (filters : nat) (kernel_size : nat * nat) (act : activation)
  | MaxPool2D (pool_size : nat * nat)
  | BatchNormalization
  | Flatten
  | Dense (units : nat) (act : activation)
  | Dropout (rate : Q).

(** The shape of one sample after the layer.  A convolution or a pooling
    needs rows, columns and channels, and a window that fits; [Dense]
    works on the last axis. *)
Definition compute_output_shape (l : layer) (s : list nat) : result (list nat) :=
  match l with
  | Conv2D filters (kh, kw) _ =>
      match s with
      | [h; w; _] =>
          if (1 <=? kh) && (1 <=? kw) && (kh <=? h) && (kw <=? w)
          then Ok [h - kh + 1; w - kw + 1; filters]
          else Raise ValueError
      | _ => Raise ValueError
      end
  | MaxPool2D (ph, pw) =>
      match s with
      | [h; w; c] =>
          if (1 <=? ph) && (1 <=? pw) && (ph <=? h) && (pw <=? w)
          then Ok [(h - ph) / ph + 1; (w - pw) / pw + 1; c]
          else Raise ValueError
      | _ => Raise ValueError
      end
  | BatchNormalization => Ok s
  | Flatten => Ok [fold_right Nat.mul 1 s]
  | Dense units _ =>
      match s with
      | [] => Raise ValueError
      | _ => Ok (removelast s ++ [units])
      end
  | Dropout _ => Ok s
  end.

(** The number of weights of the layer on an input of shape [s]: kernel
    and bias of a convolution or a dense layer; scale, offset, moving
    mean and moving variance of a batch normalization. *)
Definition count_params (l : layer) (s : list nat) : Z :=
  let last_axis := Z.of_nat (last s 0) in
  match l with
  | Conv2D filters (kh, kw) _ =>
      (Z.of_nat kh * Z.of_nat kw * last_axis + 1) * Z.of_nat filters
  | BatchNormalization => 4 * last_axis
  | Dense units _ => (last_axis + 1) * Z.of_nat units
  | MaxPool2D _ | Flatten | Dropout _ => 0
  end.

(** [model.summary()]: the output shape and the number of weights of
    each layer, in order. *)
Fixpoint summary (layers : list layer) (input_shape : list nat)
  : result (list (list nat * Z)) :=
  match layers with
  | [] => Ok []
  | l :: layers' =>
      s <- compute_output_shape l input_shape ;;
      rest <- summary layers' s ;;
      Ok ((s, count_params l input_shape) :: rest)
  end.

End KerasLayers.

(** Lines 80-99. *)
Definition model_layers : list KerasLayers.layer :=
  [KerasLayers.Conv2D 64 (3, 3) KerasLayers.relu;
   KerasLayers.Conv2D 64 (3, 3) KerasLayers.relu;
   KerasLayers.MaxPool2D (2, 2);
   KerasLayers.BatchNormalization;
   KerasLayers.Conv2D 128 (3, 3) KerasLayers.relu;
   KerasLayers.Conv2D 128 (3, 3) KerasLayers.relu;
   KerasLayers.MaxPool2D (2, 2);
   KerasLayers.BatchNormalization;
   KerasLayers.Flatten;
   KerasLayers.Dense 256 KerasLayers.relu;
   KerasLayers.Dropout (Qmake 1 2);
   KerasLayers.Dense 128 KerasLayers.relu;
   KerasLayers.Dropout (Qmake 1 2);
   KerasLayers.Dense 7 KerasLayers.softmax].

(** The summary of the model on images of [size] rows and columns. *)
Definition model_summary (size : nat) : result (list (list nat * Z)) :=
  KerasLayers.summary model_layers [size; size; 3].

Module KerasMetrics.

Import Numpy.

(** Lines 109-110.  [model.evaluate(x, y)[1]] for a model compiled with
    [metrics=['acc']] and a categorical loss: the share of the samples
    whose largest score stands where the largest entry of the label row
    stands.  Arrays of different lengths and an empty array are
    refused. *)
Definition evaluate_acc {input_shape units}
           (model : Keras.Sequential input_shape units)
           (x : list (ndarray Q)) (y : list (list Q)) : result Q :=
  if negb (length x =? length y)%nat then Raise ValueError
  else
    y_pred <- Keras.predict model x ;;
    match length x with
    | O => Raise ValueError
    | S _ =>
        Ok (Qmake (Z.of_nat (length (filter (fun tp => argmax (fst tp) =? argmax (snd tp))%nat
                                            (combine y y_pred))))
                  (Pos.of_nat (length x)))
    end.

End KerasMetrics.

(** ** The training history and its plots *)

Module KerasHistory.

Local Open Scope string_scope.

(** [history.history] after [model.fit(..., epochs=epochs)] of a model
    compiled with [metrics]: one list per logged quantity, with one value
    per epoch.  The quantities are the loss and the metrics under the
    names [compile] was given, and, when [validation_data] is passed, the
    same again under the prefix [val_].  [logs name epoch] is the value
    the training gives. *)
Definition history (metrics : list string) (validation_data : bool) (epochs : nat)
           (logs : string -> nat -> Q) : Os.dict (list Q) :=
  let names := "loss" :: metrics in
  let names := if validation_data then (names ++ map (append "val_") names)%list
               else names in
  fold_left (fun d name => Os.setitem name (map (logs name) (seq 0 epochs)) d) names [].

End KerasHistory.

Module Pyplot.

(** What a figure shows: the curves in the order they were plotted and
    the texts. *)
Record figure : Type :=
  { lines : list (list Q);
    title : string;
    ylabel : string;
    xlabel : string;
    legend : list string }.

End Pyplot.

(** Lines 113-120. *)
Definition plot_history (history : Os.dict (list Q)) (metric : string)
  : result Pyplot.figure :=
  match Os.get history metric with
  | None => Raise KeyError
  | Some train =>
      match Os.get history ("val_" ++ metric)%string with
      | None => Raise KeyError
      | Some validation =>
          Ok {| Pyplot.lines := [train; validation];
                Pyplot.title := ("model " ++ metric)%string;
                Pyplot.ylabel := metric;
                Pyplot.xlabel := "epoch"%string;
                Pyplot.legend := ["train"; "validation"]%string |}
      end
  end.

(** Lines 101 and 104-106: the metrics of [compile], the epochs of
    [fit]. *)
Definition metrics : list string := ["acc"]%string.

Definition epochs : nat := 100.

(** ** More notions used in the statements *)

(** The sum of an integer array. *)
Definition Zsum (l : list Z) : Z := fold_right Z.add 0%Z l.

(** The samples whose predicted label is the true one. *)
Definition hits (y_true y_pred : list nat) : nat :=
  length (filter (fun tp => fst tp =? snd tp) (combine y_true y_pred)).

(** How many training rows each class has. *)
Definition train_counts42 : list Z := [305; 290; 303; 292; 300; 300; 310]%Z.

(** The separator of Windows paths. *)
Definition backslash : ascii := ascii_of_nat 92.

(** The number of elements an array of a given shape holds. *)
Definition size_of (shape : list nat) : nat := fold_right Nat.mul 1 shape.

(** ** More example inputs *)

(** A table with three diagnosis codes only. *)
Definition ham3 : list lesion :=
  [lesion_of "ISIC_0024698" "nv"; lesion_of "ISIC_0025964" "mel";
   lesion_of "ISIC_0027419" "bkl"; lesion_of "ISIC_0024310" "nv"]%string.

(** A table with an eighth code. *)
Definition ham8 : list lesion := (ham7 ++ [lesion_of "ISIC_0099999" "scc"])%list.


(** * Properties *)

(** ** The models against known outputs of the libraries *)

Example mt19937_seed42_first_draws :
  MT19937.outputs MT19937.mt19937_next 10 (MT19937.mt19937_seed 42)
  = [1608637542; 3421126067; 4083286876; 787846414; 3143890026;
     3348747335; 2571218620; 2563451924; 670094950; 1914837113]%Z.
Proof. vm_compute. reflexivity. Qed.

Example permutation_seed42_10 :
  values (NumpyRandom.permutation (NumpyRandom.RandomState 42) 10)
  = Ok [8; 1; 5; 0; 7; 2; 9; 4; 3; 6]%Z.
Proof. vm_compute. reflexivity. Qed.

Example permutation_seed0_10 :
  values (NumpyRandom.permutation (NumpyRandom.RandomState 0) 10)
  = Ok [2; 8; 4; 9; 1; 6; 7; 3; 0; 5]%Z.
Proof. vm_compute. reflexivity. Qed.

Example randint_seed42_100 :
  values (NumpyRandom.randint (NumpyRandom.RandomState 42) 0 100 10)
  = Ok [51; 92; 14; 71; 60; 20; 82; 86; 74; 74]%Z.
Proof. vm_compute. reflexivity. Qed.

Example splitext_jpg :
  Os.splitext (Os.basename "data/HAM10000/HAM10000_images_part_1/ISIC_0024306.jpg")
  = ("ISIC_0024306", ".jpg")%string.
Proof. reflexivity. Qed.

Example splitext_leading_dots : Os.splitext "...jpg" = ("...jpg", "")%string.
Proof. reflexivity. Qed.

Example splitext_two_dots : Os.splitext "a.b.jpg" = ("a.b", ".jpg")%string.
Proof. reflexivity. Qed.

Example glob_images_example :
  Os.glob_images ["data/HAM10000/part_1/ISIC_1.jpg"; "data/HAM10000/ISIC_2.jpg";
                  "data/HAM10000/part_1/.ISIC_3.jpg"; "data/HAM10000/part_2/ISIC_4.png";
                  "data/HAM10000/part_2/sub/ISIC_5.jpg"; "data/HAM10000/part_2/ISIC_6.jpg"]%string
  = ["data/HAM10000/part_1/ISIC_1.jpg"; "data/HAM10000/part_2/ISIC_6.jpg"]%string.
Proof. reflexivity. Qed.

(** ** Fallible computations *)

Lemma bind_Ok {A B : Type} (m : result A) (k : A -> result B) (b : B) :
  bind m k = Ok b -> exists a, m = Ok a /\ k a = Ok b.
Proof. destruct m as [a|e]; simpl; [eauto | discriminate]. Qed.

Lemma mapM_map {A B : Type} (f : A -> result B) (g : A -> B) (l : list A) :
  (forall a, In a l -> f a = Ok (g a)) -> mapM f l = Ok (map g l).
Proof.
  induction l as [|a l IH]; intros H; simpl; [reflexivity|].
  rewrite (H a (or_introl eq_refl)); simpl.
  rewrite IH by (intros; apply H; now right). reflexivity.
Qed.

Lemma mapM_Forall2 {A B : Type} (f : A -> result B) (l : list A) (l' : list B) :
  mapM f l = Ok l' -> Forall2 (fun a b => f a = Ok b) l l'.
Proof.
  revert l'; induction l as [|a l IH]; simpl; intros l' H.
  - injection H as <-. constructor.
  - apply bind_Ok in H as (b & Hb & H).
    apply bind_Ok in H as (bs & Hbs & H). injection H as <-.
    constructor; auto.
Qed.

Lemma mapM_Raise {A B : Type} (f : A -> result B) (l : list A) (a : A) (e : exn) :
  In a l -> f a = Raise e -> exists e', mapM f l = Raise e'.
Proof.
  induction l as [|x l IH]; simpl; [tauto|].
  intros [->|Hin] Hf.
  - rewrite Hf. simpl. eauto.
  - destruct (f x); simpl; [|eauto].
    destruct (IH Hin Hf) as (e' & ->). simpl. eauto.
Qed.

Lemma values_Ok {A S : Type} (r : result (A * S)) (a : A) :
  values r = Ok a -> exists s, r = Ok (a, s).
Proof.
  destruct r as [[a' s]|e]; simpl; [|discriminate].
  intros H; injection H as ->. eauto.
Qed.

(** ** The generator never starves the sampler *)

Module RandomFacts.

Import MT19937 NumpyRandom.
Local Open Scope Z_scope.

Section Masked.

Variable next : state -> Z * state.
Variables rng mask k : Z.
Hypothesis mask_nonneg : 0 <= mask.
Hypothesis accept : forall v, zero_bit k v = true -> Z.land v mask <= rng.

Lemma bounded_masked_ok clock st :
  (1 <= count_zero k (outputs next clock st))%nat ->
  exists val st' clock',
    bounded_masked next clock st rng mask = Ok (val, st', clock')
    /\ 0 <= val <= rng
    /\ (count_zero k (outputs next clock st)
        <= S (count_zero k (outputs next clock' st')))%nat.
Proof.
  revert st; induction clock as [|clock IH]; intros st; simpl.
  - unfold count_zero; simpl. lia.
  - destruct (next st) as [v st'].
    unfold count_zero in *. simpl.
    destruct (rng <? Z.land v mask) eqn:E.
    + apply Z.ltb_lt in E.
      destruct (zero_bit k v) eqn:Hz.
      * apply accept in Hz. lia.
      * intros H. apply IH in H. exact H.
    + apply Z.ltb_ge in E. intros _.
      exists (Z.land v mask), st', clock. split; [reflexivity|]. split.
      * split; [|exact E]. apply Z.land_nonneg. now right.
      * destruct (zero_bit k v); simpl; lia.
Qed.

Lemma masked_fill_ok off cnt : forall clock st,
  (cnt <= count_zero k (outputs next clock st))%nat ->
  exists out st' clock',
    masked_fill next cnt clock st off rng mask = Ok (out, st', clock')
    /\ length out = cnt
    /\ Forall (fun x => off <= x <= off + rng) out.
Proof.
  induction cnt as [|cnt IH]; intros clock st H; simpl.
  - exists [], st, clock. repeat split. constructor.
  - destruct (bounded_masked_ok clock st) as (val & st' & clock' & -> & Hval & Hc);
      [lia|]. simpl.
    destruct (IH clock' st') as (out & st'' & clock'' & -> & Hlen & Hall); [lia|].
    simpl. exists (off + val :: out), st'', clock''.
    repeat split; [simpl; now rewrite Hlen|].
    constructor; [lia | exact Hall].
Qed.

End Masked.

Lemma gen_mask_log2 max : 0 < max -> 0 <= gen_mask max /\ Z.log2 (gen_mask max) = Z.log2 max.
Proof.
  intros Hmax. unfold gen_mask.
  assert (step : forall m s, 0 < m -> 0 <= s ->
            0 < Z.lor m (Z.shiftr m s) /\ Z.log2 (Z.lor m (Z.shiftr m s)) = Z.log2 m).
  { intros m s Hm Hs.
    assert (0 <= Z.shiftr m s) by (apply Z.shiftr_nonneg; lia).
    assert (Hl : Z.log2 (Z.lor m (Z.shiftr m s)) = Z.log2 m).
    { rewrite Z.log2_lor by lia. rewrite (Z.log2_shiftr m s) by lia.
      pose proof (Z.log2_nonneg m). lia. }
    split; [|exact Hl].
    assert (0 <= Z.lor m (Z.shiftr m s)) by (apply Z.lor_nonneg; lia).
    destruct (Z.eq_dec (Z.lor m (Z.shiftr m s)) 0) as [E|E]; [|lia].
    apply Z.lor_eq_0_iff in E. lia. }
  destruct (step max 1 Hmax ltac:(lia)) as [H1 L1].
  destruct (step _ 2 H1 ltac:(lia)) as [H2 L2].
  destruct (step _ 4 H2 ltac:(lia)) as [H3 L3].
  destruct (step _ 8 H3 ltac:(lia)) as [H4 L4].
  destruct (step _ 16 H4 ltac:(lia)) as [H5 L5].
  destruct (step _ 32 H5 ltac:(lia)) as [H6 L6].
  cbv zeta. split; [lia | congruence].
Qed.

(** A draw whose bit [log2 rng] is clear passes the rejection test. *)
Lemma accept_zero_bit rng v :
  0 < rng -> zero_bit (Z.log2 rng) v = true -> Z.land v (gen_mask rng) <= rng.
Proof.
  intros Hrng Hz. unfold zero_bit in Hz. apply negb_true_iff in Hz.
  destruct (gen_mask_log2 rng Hrng) as [Hm Hl].
  set (x := Z.land v (gen_mask rng)).
  assert (Hx : 0 <= x) by (apply Z.land_nonneg; now right).
  destruct (Z_le_gt_dec x rng) as [|Hgt]; [assumption|exfalso].
  assert (Hk : Z.log2 rng <= Z.log2 x) by (apply Z.log2_le_mono; lia).
  assert (Hb : Z.testbit x (Z.log2 x) = true) by (apply Z.bit_log2; lia).
  unfold x in Hb at 1. rewrite Z.land_spec in Hb. apply andb_true_iff in Hb as [Hv Hmk].
  destruct (Z.eq_dec (Z.log2 x) (Z.log2 rng)) as [E|E].
  - rewrite E in Hv. congruence.
  - rewrite Z.bits_above_log2 in Hmk; [discriminate | lia | lia].
Qed.

Lemma count_zero_prefix next k a b : forall st,
  (count_zero k (outputs next a st) <= count_zero k (outputs next (a + b) st))%nat.
Proof.
  induction a as [|a IH]; intros st; simpl; [unfold count_zero; simpl; lia|].
  destruct (next st) as [v st']. unfold count_zero in *. simpl.
  specialize (IH st'). destruct (zero_bit k v); simpl; lia.
Qed.

Lemma mt19937_next_high_bits st k :
  32 <= k -> Z.testbit (fst (mt19937_next st)) k = false.
Proof.
  intros Hk. unfold mt19937_next, temper. cbv zeta. cbn [fst].
  change MASK32 with (Z.ones 32).
  rewrite Z.land_ones by lia. apply Z.mod_pow2_bits_high. lia.
Qed.

Lemma mt19937_next64_high_bits st k :
  64 <= k -> Z.testbit (fst (mt19937_next64 st)) k = false.
Proof.
  intros Hk. unfold mt19937_next64.
  pose proof (mt19937_next_high_bits st (k - 32)) as Hhi.
  destruct (mt19937_next st) as [hi st1].
  pose proof (mt19937_next_high_bits st1 k) as Hlo.
  destruct (mt19937_next st1) as [lo st2]. cbn [fst] in *.
  rewrite Z.lor_spec, Z.shiftl_spec by lia.
  rewrite Hhi, Hlo by lia. reflexivity.
Qed.

Lemma count_zero_next64 k n : forall st,
  64 <= k -> count_zero k (outputs mt19937_next64 n st) = n.
Proof.
  induction n as [|n IH]; intros st Hk; [reflexivity|].
  cbn [outputs].
  pose proof (mt19937_next64_high_bits st k Hk) as Hb.
  destruct (mt19937_next64 st) as [v st']. cbn [fst] in Hb.
  unfold count_zero in *. cbn [filter].
  replace (zero_bit k v) with true by (unfold zero_bit; now rewrite Hb).
  cbn [length]. now rewrite IH.
Qed.

(** Among the first 1024 draws after seeding with 42, each bit position
    is clear in at least 400 of them. *)
Lemma seed42_clear_bits32 :
  let outs := outputs mt19937_next 1024 (RandomState 42) in
  forallb (fun k => (400 <=? count_zero (Z.of_nat k) outs)%nat) (seq 0 32) = true.
Proof. vm_compute. reflexivity. Qed.

Lemma seed42_clear_bits64 :
  let outs := outputs mt19937_next64 1024 (RandomState 42) in
  forallb (fun k => (400 <=? count_zero (Z.of_nat k) outs)%nat) (seq 32 32) = true.
Proof. vm_compute. reflexivity. Qed.

Lemma seed42_clear_bits rng :
  0 < rng ->
  (400 <= count_zero (Z.log2 rng) (outputs (next_for rng) CLOCK (RandomState 42)))%nat.
Proof.
  intros Hrng. pose proof (Z.log2_nonneg rng) as Hk.
  change CLOCK with (1024 + 7 * 1024)%nat.
  unfold next_for. destruct (rng <=? 0xffffffff) eqn:E.
  - apply Z.leb_le in E.
    assert (Z.log2 rng <= 31)
      by (change 31 with (Z.log2 0xffffffff); now apply Z.log2_le_mono).
    etransitivity; [|apply count_zero_prefix].
    pose proof seed42_clear_bits32 as T. cbv zeta in T.
    rewrite forallb_forall in T. specialize (T (Z.to_nat (Z.log2 rng))).
    rewrite Z2Nat.id in T by lia. apply Nat.leb_le, T. apply in_seq. lia.
  - apply Z.leb_gt in E.
    assert (32 <= Z.log2 rng)
      by (change 32 with (Z.log2 0x100000000); apply Z.log2_le_mono; lia).
    destruct (Z_lt_le_dec (Z.log2 rng) 64) as [Hlt|Hge].
    + etransitivity; [|apply count_zero_prefix].
      pose proof seed42_clear_bits64 as T. cbv zeta in T.
      rewrite forallb_forall in T. specialize (T (Z.to_nat (Z.log2 rng))).
      rewrite Z2Nat.id in T by lia. apply Nat.leb_le, T. apply in_seq. lia.
    + rewrite count_zero_next64 by lia. lia.
Qed.

(** [randint(0, n, size=400)] on a generator seeded with 42 returns, for
    every [n >= 1], 400 integers of the range [0, n). *)
Lemma randint_seed42 (n : nat) :
  (1 <= n)%nat ->
  exists out st,
    randint (RandomState 42) 0 (Z.of_nat n) 400 = Ok (out, st)
    /\ length out = 400%nat
    /\ Forall (fun x => 0 <= x < Z.of_nat n) out.
Proof.
  intros Hn. unfold randint.
  destruct (Z.of_nat n <=? 0) eqn:E; [apply Z.leb_le in E; lia|clear E].
  unfold random_bounded_uint64_fill.
  destruct (Z.of_nat n - 1 - 0 =? 0) eqn:E.
  - apply Z.eqb_eq in E. simpl.
    exists (repeat 0 400), (RandomState 42). split; [reflexivity|].
    split; [apply repeat_length|].
    apply Forall_forall. intros x Hx. apply repeat_spec in Hx. lia.
  - apply Z.eqb_neq in E.
    set (rng := Z.of_nat n - 1 - 0) in *.
    assert (Hrng : 0 < rng) by (unfold rng; lia).
    destruct (masked_fill_ok (next_for rng) rng (gen_mask rng) (Z.log2 rng)
                (proj1 (gen_mask_log2 rng Hrng)) (fun v => accept_zero_bit rng v Hrng)
                0 400 CLOCK (RandomState 42) (seed42_clear_bits rng Hrng))
      as (out & st & clock & -> & Hlen & Hall).
    simpl. exists out, st. repeat split; [exact Hlen|].
    eapply Forall_impl; [|exact Hall]. unfold rng. simpl. lia.
Qed.

End RandomFacts.

(** ** The label encoder *)

Module LabelEncoderFacts.

Import Sklearn.

Lemma slt_trans a b c : slt a b -> slt b c -> slt a c.
Proof. apply String_as_OT.lt_strorder. Qed.

Lemma slt_irrefl a : ~ slt a a.
Proof. apply String_as_OT.lt_strorder. Qed.

Lemma compare_Eq a b : String_as_OT.compare a b = Eq -> a = b.
Proof. destruct (String_as_OT.compare_spec a b); congruence. Qed.

Lemma compare_Gt a b : String_as_OT.compare a b = Gt -> slt b a.
Proof. destruct (String_as_OT.compare_spec a b); congruence. Qed.

Lemma insert_unique_In s l x : In x (insert_unique s l) <-> x = s \/ In x l.
Proof.
  induction l as [|y l IH]; simpl.
  - intuition.
  - destruct (String_as_OT.compare s y) eqn:E; simpl.
    + apply compare_Eq in E. subst. intuition.
    + intuition.
    + rewrite IH. intuition.
Qed.

Lemma unique_In l x : In x (unique l) <-> In x l.
Proof.
  induction l as [|y l IH]; simpl; [tauto|].
  rewrite insert_unique_In, IH. intuition.
Qed.

Lemma insert_unique_sorted s l :
  StronglySorted slt l -> StronglySorted slt (insert_unique s l).
Proof.
  induction 1 as [|y l Hs IH Hy]; simpl.
  - repeat constructor.
  - destruct (String_as_OT.compare s y) eqn:E.
    + now constructor.
    + constructor; [now constructor|].
      constructor; [exact E|].
      eapply Forall_impl; [|exact Hy]. intros z Hz. now apply slt_trans with y.
    + constructor; [exact IH|].
      rewrite Forall_forall in *. intros z Hz.
      apply insert_unique_In in Hz as [->|Hz]; [now apply compare_Gt | auto].
Qed.

Lemma unique_sorted l : StronglySorted slt (unique l).
Proof.
  induction l; simpl; [constructor | now apply insert_unique_sorted].
Qed.

Lemma sorted_NoDup l : StronglySorted slt l -> NoDup l.
Proof.
  induction 1 as [|y l Hs IH Hy]; constructor; auto.
  intros Hin. rewrite Forall_forall in Hy. exact (slt_irrefl _ (Hy _ Hin)).
Qed.

Lemma index_of_In s l : In s l -> exists i, index_of s l = Some i.
Proof.
  induction l as [|x l IH]; simpl; [tauto|].
  intros H. destruct (String.eqb s x) eqn:E; [eauto|].
  destruct H as [->|H]; [now rewrite String.eqb_refl in E|].
  destruct (IH H) as (i & ->). simpl. eauto.
Qed.

Lemma index_of_nth s l i : index_of s l = Some i -> nth_error l i = Some s.
Proof.
  revert i; induction l as [|x l IH]; simpl; intros i; [discriminate|].
  destruct (String.eqb s x) eqn:E.
  - apply String.eqb_eq in E. intros H; injection H as <-. now subst.
  - destruct (index_of s l); simpl; [|discriminate].
    intros H; injection H as <-. simpl. now apply IH.
Qed.

Lemma nth_index_of l i s :
  NoDup l -> nth_error l i = Some s -> index_of s l = Some i.
Proof.
  intros Hnd; revert i; induction Hnd as [|x l Hx Hnd IH]; intros i.
  - destruct i; discriminate.
  - destruct i as [|i]; simpl.
    + intros H; injection H as ->. now rewrite String.eqb_refl.
    + intros H. destruct (String.eqb s x) eqn:E.
      * apply String.eqb_eq in E. subst. apply nth_error_In in H. contradiction.
      * now rewrite (IH _ H).
Qed.

Lemma transform_inverse cs l :
  (forall t, In t l -> exists i, index_of t cs = Some i) ->
  exists labels, transform {| classes_ := cs |} l = Ok labels
                 /\ inverse_transform {| classes_ := cs |} labels = Ok l.
Proof.
  induction l as [|t l IH]; intros H.
  - exists []. split; reflexivity.
  - destruct (H t (or_introl eq_refl)) as (i & Hi).
    destruct IH as (labels & H1 & H2); [intros; apply H; now right|].
    exists (i :: labels). unfold transform, inverse_transform in *. simpl.
    unfold transform1 at 1. unfold inverse_transform1 at 1. simpl.
    rewrite Hi, (index_of_nth _ _ _ Hi). simpl. rewrite H1, H2. split; reflexivity.
Qed.

End LabelEncoderFacts.

(** C4.  Every diagnosis string of the metadata table is encoded to an
    integer below the number of classes and decoded back to itself; no
    other string has that code, every integer below the number of classes
    is the code of a string of the table, and the whole [dx] column
    survives [transform] followed by [inverse_transform]. *)
Theorem label_encoder_roundtrip (skin_csv : list lesion) (s : string)
  (Hs : In s (map dx skin_csv)) :
  let number_of_classes := length (Sklearn.classes_ (le skin_csv)) in
  (exists i, Sklearn.transform1 (le skin_csv) s = Ok i
             /\ i < number_of_classes
             /\ Sklearn.inverse_transform1 (le skin_csv) i = Ok s
             /\ forall s', Sklearn.transform1 (le skin_csv) s' = Ok i -> s' = s)
  /\ (forall j, j < number_of_classes ->
        exists s', In s' (map dx skin_csv)
                   /\ Sklearn.inverse_transform1 (le skin_csv) j = Ok s'
                   /\ Sklearn.transform1 (le skin_csv) s' = Ok j)
  /\ (exists labels, Sklearn.transform (le skin_csv) (map dx skin_csv) = Ok labels
                     /\ Sklearn.inverse_transform (le skin_csv) labels
                        = Ok (map dx skin_csv)).
Proof.
  intros n. subst n. unfold le, Sklearn.transform1, Sklearn.inverse_transform1.
  cbn [Sklearn.classes_ Sklearn.fit].
  set (cs := Sklearn.unique (map dx skin_csv)).
  assert (Hnd : NoDup cs)
    by apply LabelEncoderFacts.sorted_NoDup, LabelEncoderFacts.unique_sorted.
  assert (Henc : forall t, In t (map dx skin_csv) ->
            exists i, Sklearn.index_of t cs = Some i /\ nth_error cs i = Some t).
  { intros t Ht. apply LabelEncoderFacts.unique_In in Ht.
    destruct (LabelEncoderFacts.index_of_In _ _ Ht) as (i & Hi).
    exists i. split; [exact Hi | now apply LabelEncoderFacts.index_of_nth]. }
  split; [|split].
  - destruct (Henc s Hs) as (i & Hi & Hn).
    exists i. rewrite Hi, Hn. repeat split.
    + apply nth_error_Some. congruence.
    + intros s'. destruct (Sklearn.index_of s' cs) as [i'|] eqn:E; [|discriminate].
      intros H; injection H as ->.
      apply LabelEncoderFacts.index_of_nth in E. congruence.
  - intros j Hj. destruct (nth_error cs j) as [s'|] eqn:E.
    + exists s'. repeat split.
      * apply LabelEncoderFacts.unique_In. eapply nth_error_In; eauto.
      * now rewrite (LabelEncoderFacts.nth_index_of _ _ _ Hnd E).
    + apply nth_error_None in E. lia.
  - apply LabelEncoderFacts.transform_inverse. intros t Ht.
    destruct (Henc t Ht) as (i & Hi & _). eauto.
Qed.

(** ** Lists *)

Lemma map_fst_combine {A B : Type} (l : list A) : forall l' : list B,
  length l = length l' -> map fst (combine l l') = l.
Proof.
  induction l as [|a l IH]; intros [|b l']; simpl; try discriminate; auto.
  intros H. f_equal. apply IH. lia.
Qed.

Lemma map_snd_combine {A B : Type} (l : list A) : forall l' : list B,
  length l = length l' -> map snd (combine l l') = l'.
Proof.
  induction l as [|a l IH]; intros [|b l']; simpl; try discriminate; auto.
  intros H. f_equal. apply IH. lia.
Qed.

Lemma Forall2_map_combine {A B C : Type} (P : C -> B -> Prop) (f : A -> C)
      (l : list A) : forall (l' : list B) a b,
  Forall2 P (map f l) l' -> In (a, b) (combine l l') -> P (f a) b.
Proof.
  induction l as [|x l IH]; intros l' a b H Hin; simpl in *.
  - contradiction.
  - inversion H; subst. destruct Hin as [Hin|Hin]; [now injection Hin as <- <- | eauto].
Qed.

(** ** The class balancer *)

Module BalancerFacts.

Import MT19937 NumpyRandom Sklearn.

Lemma masked_fill_length next off rng mask cnt : forall clock st out st' clock',
  masked_fill next cnt clock st off rng mask = Ok (out, st', clock') ->
  length out = cnt.
Proof.
  induction cnt as [|cnt IH]; simpl; intros clock st out st' clock' H.
  - now injection H as <- _ _.
  - apply bind_Ok in H as ([[val st1] clock1] & _ & H).
    apply bind_Ok in H as ([[out1 st2] clock2] & H1 & H).
    injection H as <- _ _. simpl. f_equal. eauto.
Qed.

Lemma randint_length st low high size out st' :
  randint st low high size = Ok (out, st') -> length out = size.
Proof.
  unfold randint. destruct (high <=? low)%Z; [discriminate|].
  intros H. apply bind_Ok in H as ([[out1 st1] clock1] & H1 & H).
  injection H as <- _. unfold random_bounded_uint64_fill in H1.
  destruct (high - 1 - low =? 0)%Z.
  - injection H1 as <- _ _. apply repeat_length.
  - eapply masked_fill_length; eauto.
Qed.

Lemma safe_indexing_spec {A : Type} (a : list A) (indices : list Z) (rows : list A) :
  safe_indexing a indices = Ok rows ->
  Forall2 (fun i r => nth_error a (Z.to_nat i) = Some r) indices rows.
Proof.
  intros H. apply mapM_Forall2 in H.
  eapply Forall2_impl; [|exact H]. simpl. intros i r Hi.
  destruct (nth_error a (Z.to_nat i)); [now injection Hi as -> | discriminate].
Qed.

Lemma safe_indexing_total {A : Type} (a : list A) (indices : list Z) :
  Forall (fun i => (0 <= i < Z.of_nat (length a))%Z) indices ->
  exists rows, safe_indexing a indices = Ok rows.
Proof.
  induction 1 as [|i l Hi Hl (rows & IH)]; unfold safe_indexing in *; simpl.
  - eauto.
  - destruct (nth_error a (Z.to_nat i)) as [x|] eqn:E.
    + simpl. rewrite IH. simpl. eauto.
    + apply nth_error_None in E. lia.
Qed.

(** What a successful [resample] returns: as many rows as asked for, each
    one a row of the input. *)
Lemma resample_inv {A : Type} (a : list A) n random_state np_random rows np_random' :
  resample a n random_state np_random = Ok (rows, np_random') ->
  length rows = n /\ Forall (fun r => In r a) rows.
Proof.
  unfold resample, resample_indices. intros H.
  apply bind_Ok in H as ([indices g] & H1 & H).
  apply bind_Ok in H as (rows' & H2 & H). injection H as <- _.
  destruct (check_random_state random_state np_random) as [rs global].
  apply bind_Ok in H1 as ([ind rs'] & H1 & H3). injection H3 as <- _.
  apply randint_length in H1. apply safe_indexing_spec in H2.
  split.
  - rewrite <- (Forall2_length H2). exact H1.
  - clear H1. induction H2; constructor; eauto using nth_error_In.
Qed.

(** With [random_state=42] a non-empty input is always resampled, and
    numpy's global generator is left as it was. *)
Lemma resample_seed42 {A : Type} (a : list A) np_random :
  a <> [] -> exists rows, resample a 400 (Some 42%Z) np_random = Ok (rows, np_random).
Proof.
  intros Ha. unfold resample, resample_indices, check_random_state.
  destruct (RandomFacts.randint_seed42 (length a)) as (out & st & -> & _ & Hall).
  { destruct a; [congruence | simpl; lia]. }
  simpl. destruct (safe_indexing_total a out Hall) as (rows & ->). simpl. eauto.
Qed.

Lemma resample_classes_inv df classes : forall np_random dfs np_random',
  resample_classes df classes np_random = Ok (dfs, np_random') ->
  Forall2 (class_block df) classes dfs.
Proof.
  induction classes as [|i classes IH]; simpl; intros g dfs g' H.
  - injection H as <- _. constructor.
  - apply bind_Ok in H as ([d g1] & H1 & H).
    apply bind_Ok in H as ([ds g2] & H2 & H). injection H as <- _.
    constructor; [|eauto].
    apply resample_inv in H1 as [Hlen Hall]. split; [exact Hlen|].
    eapply Forall_impl; [|exact Hall]. simpl. intros r Hr.
    apply filter_In in Hr as [Hr Hl]. apply Nat.eqb_eq in Hl. auto.
Qed.

Lemma resample_classes_total df classes np_random :
  (forall i, In i classes -> exists r, In r df /\ label r = i) ->
  exists dfs, resample_classes df classes np_random = Ok (dfs, np_random).
Proof.
  induction classes as [|i classes IH]; simpl; intros H; [eauto|].
  destruct (H i (or_introl eq_refl)) as (r & Hr & Hl).
  destruct (resample_seed42 (filter (fun r => label r =? i) df) np_random)
    as (d & Hd).
  { intros E. assert (Hin : In r (filter (fun r => label r =? i) df))
      by (apply filter_In; split; [exact Hr | now apply Nat.eqb_eq]).
    rewrite E in Hin. contradiction. }
  unfold n_samples. rewrite Hd. simpl.
  destruct IH as (ds & ->); [intros; apply H; now right|]. simpl. eauto.
Qed.

(** The rows of [skin_df]: the rows of the file in order, numbered from
    0, each with the code of its diagnosis. *)
Lemma skin_df_total skin_csv :
  exists df, skin_df skin_csv = Ok df
             /\ map columns df = skin_csv
             /\ map index df = seq 0 (length skin_csv)
             /\ Forall (fun r => transform1 (le skin_csv) (dx (columns r))
                                 = Ok (label r)) df.
Proof.
  unfold skin_df.
  destruct (LabelEncoderFacts.transform_inverse (classes_ (le skin_csv)) (map dx skin_csv))
    as (labels & Ht & _).
  { intros t Ht. apply LabelEncoderFacts.index_of_In.
    now apply LabelEncoderFacts.unique_In. }
  change {| classes_ := classes_ (le skin_csv) |} with (le skin_csv) in Ht.
  rewrite Ht. simpl. eexists. split; [reflexivity|].
  apply mapM_Forall2 in Ht.
  assert (Hlen : length labels = length skin_csv)
    by (apply Forall2_length in Ht; now rewrite length_map in Ht).
  rewrite !map_map. simpl.
  assert (Hc : length (combine skin_csv labels) = length skin_csv)
    by (rewrite length_combine; lia).
  split; [|split].
  - change (fun x : nat * (lesion * nat) => fst (snd x))
      with (fun x : nat * (lesion * nat) => fst ((fun y => snd y) x)).
    rewrite <- (map_map snd fst).
    rewrite map_snd_combine by (rewrite length_seq; lia).
    apply map_fst_combine. lia.
  - apply map_fst_combine. rewrite length_seq. lia.
  - apply Forall_map. apply Forall_forall. intros [i [c l]] Hin. simpl.
    apply in_combine_r in Hin.
    exact (Forall2_map_combine _ dx _ _ _ _ Ht Hin).
Qed.

Section Blocks.

Variable df : list row.

Lemma blocks_length n : forall s dfs,
  Forall2 (class_block df) (seq s n) dfs -> length (concat dfs) = n * 400.
Proof.
  induction n as [|n IH]; intros s dfs H; cbn [seq] in H; inversion H; subst;
    [reflexivity|].
  cbn [concat]. rewrite length_app. destruct H2 as [-> _]. rewrite (IH _ _ H4). lia.
Qed.

Lemma block_count i j d :
  class_block df j d ->
  length (filter (fun r => label r =? i) d) = if j =? i then 400 else 0.
Proof.
  intros [Hlen Hall]. rewrite <- Hlen. clear Hlen.
  induction Hall as [|r d [_ Hr] _ IH]; simpl; [now destruct (j =? i)|].
  rewrite Hr. destruct (j =? i); simpl; now rewrite IH.
Qed.

Lemma blocks_count i n : forall s dfs,
  Forall2 (class_block df) (seq s n) dfs ->
  length (filter (fun r => label r =? i) (concat dfs))
  = if (s <=? i) && (i <? s + n) then 400 else 0.
Proof.
  induction n as [|n IH]; intros s dfs H; cbn [seq] in H; inversion H; subst;
    cbn [concat].
  - destruct (s <=? i) eqn:E1, (i <? s + 0) eqn:E2; try reflexivity.
    apply Nat.leb_le in E1. apply Nat.ltb_lt in E2. lia.
  - rewrite filter_app, length_app, (block_count i s) by assumption.
    rewrite (IH _ _ H4).
    destruct (s =? i) eqn:E0, (S s <=? i) eqn:E1, (i <? S s + n) eqn:E2,
             (s <=? i) eqn:E3, (i <? s + S n) eqn:E4; simpl; try reflexivity;
      repeat match goal with
             | H : (_ =? _) = true |- _ => apply Nat.eqb_eq in H
             | H : (_ =? _) = false |- _ => apply Nat.eqb_neq in H
             | H : (_ <=? _) = true |- _ => apply Nat.leb_le in H
             | H : (_ <=? _) = false |- _ => apply Nat.leb_gt in H
             | H : (_ <? _) = true |- _ => apply Nat.ltb_lt in H
             | H : (_ <? _) = false |- _ => apply Nat.ltb_ge in H
             end; lia.
Qed.

Lemma blocks_nth n : forall s dfs p r,
  Forall2 (class_block df) (seq s n) dfs ->
  nth_error (concat dfs) p = Some r ->
  In r df /\ label r = s + p / 400.
Proof.
  induction n as [|n IH]; intros s dfs p r H Hp; cbn [seq] in H; inversion H; subst.
  - destruct p; discriminate.
  - cbn [concat] in Hp. destruct H2 as [Hlen Hall].
    destruct (Nat.lt_ge_cases p 400) as [Hlt|Hge].
    + rewrite nth_error_app1 in Hp by lia.
      apply nth_error_In in Hp. rewrite Forall_forall in Hall.
      destruct (Hall _ Hp) as [Hin ->]. split; [exact Hin|].
      rewrite Nat.div_small by exact Hlt. lia.
    + rewrite nth_error_app2 in Hp by lia. rewrite Hlen in Hp.
      destruct (IH _ _ _ _ H4 Hp) as [Hin ->]. split; [exact Hin|].
      replace p with ((p - 400) + 1 * 400) at 2 by lia.
      rewrite Nat.div_add by lia. lia.
Qed.

End Blocks.

Lemma skin_df_balanced_inv skin_csv np_random balanced np_random' :
  skin_df_balanced skin_csv np_random = Ok (balanced, np_random') ->
  exists df dfs, skin_df skin_csv = Ok df
                 /\ Forall2 (class_block df) (seq 0 7) dfs
                 /\ balanced = concat dfs.
Proof.
  unfold skin_df_balanced, df_list. intros H.
  apply bind_Ok in H as ([dfs g] & H1 & H). injection H as <- _.
  apply bind_Ok in H1 as (df & Hdf & H1).
  exists df, dfs. split; [exact Hdf|]. split; [|reflexivity].
  eapply resample_classes_inv; eauto.
Qed.

Lemma skin_df_balanced_total skin_csv np_random :
  (forall i, i < 7 -> exists c, In c skin_csv
                                /\ transform1 (le skin_csv) (dx c) = Ok i) ->
  exists balanced, skin_df_balanced skin_csv np_random = Ok (balanced, np_random).
Proof.
  intros H. unfold skin_df_balanced, df_list.
  destruct (skin_df_total skin_csv) as (df & -> & Hcols & _ & Hlab). cbn [bind].
  destruct (resample_classes_total df (seq 0 7) np_random) as (dfs & ->).
  - intros i Hi. apply in_seq in Hi.
    destruct (H i) as (c & Hc & Ht); [lia|].
    rewrite <- Hcols in Hc. apply in_map_iff in Hc as (r & <- & Hr).
    exists r. split; [exact Hr|].
    rewrite Forall_forall in Hlab. specialize (Hlab r Hr). congruence.
  - simpl. eauto.
Qed.

End BalancerFacts.

(** C3.  When each of the seven label ids has a record in the metadata
    table, the balancer returns 2800 rows, 400 for each of the seven label
    ids; the rows at positions 400 i to 400 i + 399 are rows of the labelled
    table that carry label id i: each is drawn from that class's original
    records.  Numpy's global generator is left as it was. *)
Theorem class_balancer_counts (skin_csv : list lesion) (np_random : MT19937.state)
  (H : forall i, i < 7 ->
         exists c, In c skin_csv /\ Sklearn.transform1 (le skin_csv) (dx c) = Ok i) :
  exists balanced df,
    skin_df_balanced skin_csv np_random = Ok (balanced, np_random)
    /\ skin_df skin_csv = Ok df
    /\ length balanced = 7 * 400
    /\ (forall i, i < 7 ->
          length (filter (fun r => label r =? i) balanced) = 400)
    /\ (forall p r, nth_error balanced p = Some r ->
          In r (filter (fun r' => label r' =? p / 400) df)).
Proof.
  destruct (BalancerFacts.skin_df_balanced_total skin_csv np_random H) as (balanced & Hb).
  destruct (BalancerFacts.skin_df_balanced_inv _ _ _ _ Hb) as (df & dfs & Hdf & Hblocks & ->).
  exists (concat dfs), df. repeat split; try assumption.
  - exact (BalancerFacts.blocks_length df 7 0 dfs Hblocks).
  - intros i Hi. rewrite (BalancerFacts.blocks_count df i 7 0 dfs Hblocks).
    destruct (0 <=? i) eqn:E1, (i <? 0 + 7) eqn:E2; try reflexivity;
      [apply Nat.ltb_ge in E2 | apply Nat.leb_gt in E1 | apply Nat.leb_gt in E1]; lia.
  - intros p r Hp.
    destruct (BalancerFacts.blocks_nth df 7 0 dfs p r Hblocks Hp) as [Hin Hl].
    apply filter_In. split; [exact Hin|]. apply Nat.eqb_eq. exact Hl.
Qed.

(** ** Seeded sampling does not look at the global generator *)

Module SeedFacts.

Import MT19937 NumpyRandom Sklearn.

Lemma resample_seeded {A : Type} (a : list A) n seed np_random :
  resample a n (Some seed) np_random
  = (rows <- sampled a n seed ;; Ok (rows, np_random)).
Proof.
  unfold resample, resample_indices, sampled, check_random_state.
  destruct (randint (RandomState seed) 0 (Z.of_nat (length a)) n) as [[ind st]|e];
    reflexivity.
Qed.

Lemma resample_classes_seeded df classes : forall np_random,
  resample_classes df classes np_random
  = (dfs <- mapM (fun i => sampled (filter (fun r => label r =? i) df) n_samples 42)
                 classes ;;
     Ok (dfs, np_random)).
Proof.
  induction classes as [|i classes IH]; intros np_random; [reflexivity|].
  cbn [resample_classes mapM]. rewrite resample_seeded.
  destruct (sampled (filter (fun r => label r =? i) df) n_samples 42); [|reflexivity].
  cbn [bind]. rewrite IH.
  destruct (mapM (fun i => sampled (filter (fun r => label r =? i) df) n_samples 42)
                 classes); reflexivity.
Qed.

End SeedFacts.

(** C7.  Balancing the same table under any two states of numpy's global
    generator gives the same outcome: the same lists of sampled rows, class
    by class and concatenated, hence the same sampled-row index labels (or
    the same exception). *)
Theorem class_balancer_deterministic (skin_csv : list lesion)
        (np_random1 np_random2 : MT19937.state) :
  values (df_list skin_csv np_random1) = values (df_list skin_csv np_random2)
  /\ values (skin_df_balanced skin_csv np_random1)
     = values (skin_df_balanced skin_csv np_random2)
  /\ (r <- values (skin_df_balanced skin_csv np_random1) ;; Ok (map index r))
     = (r <- values (skin_df_balanced skin_csv np_random2) ;; Ok (map index r)).
Proof.
  assert (H : values (df_list skin_csv np_random1) = values (df_list skin_csv np_random2)).
  { unfold df_list. destruct (skin_df skin_csv) as [df|e]; [|reflexivity].
    cbn [bind]. rewrite !SeedFacts.resample_classes_seeded.
    destruct (mapM _ (seq 0 7)); reflexivity. }
  assert (H' : values (skin_df_balanced skin_csv np_random1)
               = values (skin_df_balanced skin_csv np_random2)).
  { unfold skin_df_balanced.
    destruct (df_list skin_csv np_random1) as [[d1 g1]|e1],
             (df_list skin_csv np_random2) as [[d2 g2]|e2];
      simpl in *; congruence. }
  split; [exact H|]. split; [exact H'|]. now rewrite H'.
Qed.

(** Without a seed the rows drawn do depend on the global generator. *)
Example resample_unseeded_depends_on_global :
  values (Sklearn.resample [0; 1; 2; 3; 4; 5; 6; 7] 4 None (NumpyRandom.RandomState 42))
  <> values (Sklearn.resample [0; 1; 2; 3; 4; 5; 6; 7] 4 None (NumpyRandom.RandomState 0)).
Proof. vm_compute. discriminate. Qed.

Lemma one_hot_spec l : l < 7 -> one_hot_of l (Keras.one_hot 7 l).
Proof.
  intros H.
  do 7 (destruct l as [|l]; [unfold one_hot_of; repeat split; reflexivity|]).
  lia.
Qed.

Lemma balanced_label_lt skin_csv np_random balanced np_random' :
  skin_df_balanced skin_csv np_random = Ok (balanced, np_random') ->
  Forall (fun r => label r < 7) balanced.
Proof.
  intros H. apply BalancerFacts.skin_df_balanced_inv in H as (df & dfs & _ & Hb & ->).
  apply Forall_forall. intros r Hr. apply In_nth_error in Hr as (p & Hp).
  pose proof (BalancerFacts.blocks_length df 7 0 dfs Hb) as Hlen.
  destruct (BalancerFacts.blocks_nth df 7 0 dfs p r Hb Hp) as [_ ->].
  assert (p < 7 * 400) by (rewrite <- Hlen; apply nth_error_Some; congruence).
  apply Nat.Div0.div_lt_upper_bound. lia.
Qed.

Lemma Y_cat_balanced balanced :
  Forall (fun r => label r < 7) balanced ->
  Y_cat balanced = Ok (map (fun r => Keras.one_hot 7 (label r)) balanced).
Proof.
  intros H. unfold Y_cat, Y, Keras.to_categorical.
  rewrite <- (map_map label (Keras.one_hot 7)).
  apply mapM_map. intros y Hy. apply in_map_iff in Hy as (r & <- & Hr).
  rewrite Forall_forall in H. specialize (H r Hr).
  apply Nat.ltb_lt in H. now rewrite H.
Qed.

(** C6.  Each record of the balanced set gets a label vector of length 7
    whose entries sum to 1, exactly one of which equals 1, at the position
    of the record's label id, which is also the vector's arg-max. *)
Theorem one_hot_labels (skin_csv : list lesion) (np_random np_random' : MT19937.state)
        (balanced : list row)
  (H : skin_df_balanced skin_csv np_random = Ok (balanced, np_random')) :
  exists y_cat, Y_cat balanced = Ok y_cat
                /\ Forall2 (fun r v => one_hot_of (label r) v) balanced y_cat.
Proof.
  apply balanced_label_lt in H.
  exists (map (fun r => Keras.one_hot 7 (label r)) balanced).
  split; [now apply Y_cat_balanced|].
  induction H as [|r l Hr Hl IH]; simpl; constructor; auto using one_hot_spec.
Qed.

(** ** The split of 2800 rows *)

Module SplitFacts.

Import MT19937 NumpyRandom Sklearn.

Lemma permutation_2800 :
  values (permutation (RandomState 42) 2800) = Ok perm42.
Proof. vm_compute. reflexivity. Qed.

Lemma perm42_sorted : ZSort.sort perm42 = arange 2800.
Proof. vm_compute. reflexivity. Qed.

Lemma perm42_Permutation : Permutation perm42 (arange 2800).
Proof. rewrite <- perm42_sorted. apply ZSort.Permuted_sort. Qed.

Lemma perm42_split : perm42 = ind_test42 ++ ind_train42.
Proof. vm_compute. reflexivity. Qed.

Lemma arange_In n i : In i (arange n) <-> (0 <= i < Z.of_nat n)%Z.
Proof.
  unfold arange. rewrite in_map_iff. split.
  - intros (k & <- & Hk). apply in_seq in Hk. lia.
  - intros H. exists (Z.to_nat i). split; [lia | apply in_seq; lia].
Qed.

Lemma arange_NoDup n : NoDup (arange n).
Proof.
  unfold arange. apply Finite.Injective_map_NoDup; [|apply seq_NoDup].
  intros x y. lia.
Qed.

Lemma perm42_range : Forall (fun i => (0 <= i < 2800)%Z) perm42.
Proof.
  apply Forall_forall. intros i Hi.
  apply (Permutation_in _ perm42_Permutation), arange_In in Hi. lia.
Qed.

Lemma perm42_NoDup : NoDup perm42.
Proof.
  apply (Permutation_NoDup (Permutation_sym perm42_Permutation)), arange_NoDup.
Qed.

Lemma safe_indexing_take {A : Type} (a : list A) (indices : list Z) :
  Forall (fun i => (0 <= i < Z.of_nat (length a))%Z) indices ->
  safe_indexing a indices = Ok (take a indices).
Proof.
  unfold safe_indexing, take.
  induction 1 as [|i l Hi Hl IH]; [reflexivity|].
  cbn [mapM flat_map]. destruct (nth_error a (Z.to_nat i)) as [x|] eqn:E.
  - cbn [bind]. rewrite IH. reflexivity.
  - apply nth_error_None in E. lia.
Qed.

Lemma take_map {A B : Type} (f : A -> B) (a : list A) (indices : list Z) :
  take (map f a) indices = map f (take a indices).
Proof.
  unfold take. induction indices as [|i l IH]; [reflexivity|].
  cbn [flat_map]. rewrite map_app, IH, nth_error_map.
  now destruct (nth_error a (Z.to_nat i)).
Qed.

Lemma take_app {A : Type} (a : list A) (l1 l2 : list Z) :
  take a (l1 ++ l2) = take a l1 ++ take a l2.
Proof. unfold take. apply flat_map_app. Qed.

Lemma take_length {A : Type} (a : list A) (indices : list Z) :
  Forall (fun i => (0 <= i < Z.of_nat (length a))%Z) indices ->
  length (take a indices) = length indices.
Proof.
  unfold take. induction 1 as [|i l Hi Hl IH]; [reflexivity|].
  cbn [flat_map]. rewrite length_app, IH.
  destruct (nth_error a (Z.to_nat i)) eqn:E; [reflexivity|].
  apply nth_error_None in E. lia.
Qed.

Lemma take_arange {A : Type} (a : list A) : take a (arange (length a)) = a.
Proof.
  unfold take, arange.
  induction a as [|x a IH] using rev_ind; [reflexivity|].
  rewrite length_app, Nat.add_comm. cbn [length Nat.add].
  rewrite seq_S, map_app, flat_map_app. cbn [map flat_map Nat.add].
  rewrite Nat2Z.id, nth_error_app2, Nat.sub_diag by lia. cbn [nth_error app].
  f_equal. rewrite <- IH at 2.
  rewrite !flat_map_concat_map. f_equal. apply map_ext_in.
  intros i Hi. apply in_map_iff in Hi as (k & <- & Hk). apply in_seq in Hk.
  rewrite Nat2Z.id, nth_error_app1 by lia. reflexivity.
Qed.

Lemma take_Permutation {A : Type} (a : list A) (l1 l2 : list Z) :
  Permutation l1 l2 -> Permutation (take a l1) (take a l2).
Proof.
  unfold take. induction 1; cbn [flat_map].
  - constructor.
  - now apply Permutation_app_head.
  - rewrite !app_assoc. apply Permutation_app_tail, Permutation_app_comm.
  - etransitivity; eauto.
Qed.

Lemma shuffle_split_2800 np_random :
  shuffle_split 2800 test_size (Some 42%Z) np_random
  = Ok (ind_train42, ind_test42, np_random).
Proof.
  unfold shuffle_split.
  replace (validate_shuffle_split 2800 test_size) with (Ok (2100, 700))
    by (vm_compute; reflexivity).
  cbn [bind]. unfold check_random_state.
  destruct (values_Ok _ _ permutation_2800) as (st & ->). reflexivity.
Qed.

Lemma train_test_split_2800 {A B : Type} (X : list A) (Y : list B) np_random :
  length X = 2800 -> length Y = 2800 ->
  train_test_split X Y test_size (Some 42%Z) np_random
  = Ok (take X ind_train42, take X ind_test42,
        take Y ind_train42, take Y ind_test42, np_random).
Proof.
  intros HX HY. unfold train_test_split.
  rewrite HX, HY, Nat.eqb_refl. cbn [negb].
  rewrite shuffle_split_2800. cbn [bind].
  pose proof perm42_range as Hr. rewrite perm42_split in Hr.
  apply Forall_app in Hr as [Hte Htr].
  rewrite !safe_indexing_take by (rewrite ?HX, ?HY; assumption).
  reflexivity.
Qed.

End SplitFacts.

(** C10.  Two arrays of 2800 entries are split, with test fraction 0.25
    and seed 42, into 700 test pairs and 2100 train pairs. *)
Theorem train_test_split_sizes (A B : Type) (X : list A) (Y : list B)
        (np_random : MT19937.state)
  (HX : length X = 2800) (HY : length Y = 2800) :
  exists x_train x_test y_train y_test,
    Sklearn.train_test_split X Y test_size (Some 42%Z) np_random
    = Ok (x_train, x_test, y_train, y_test, np_random)
    /\ length x_test = 700 /\ length y_test = 700
    /\ length x_train = 2100 /\ length y_train = 2100.
Proof.
  rewrite (SplitFacts.train_test_split_2800 X Y np_random HX HY).
  do 4 eexists. split; [reflexivity|].
  pose proof SplitFacts.perm42_range as Hr. rewrite SplitFacts.perm42_split in Hr.
  apply Forall_app in Hr as [Hte Htr].
  assert (Lte : length ind_test42 = 700) by (vm_compute; reflexivity).
  assert (Ltr : length ind_train42 = 2100) by (vm_compute; reflexivity).
  rewrite !SplitFacts.take_length by (rewrite ?HX, ?HY; assumption).
  auto.
Qed.

(** ** The confusion matrix *)

Module ConfusionFacts.

Import Sklearn Numpy.

Lemma insert_label_In a l x : In x (insert_label a l) <-> x = a \/ In x l.
Proof.
  induction l as [|y l IH]; simpl; [intuition|].
  destruct (Nat.compare_spec a y); simpl; [subst; intuition | intuition |].
  rewrite IH. intuition.
Qed.

Lemma insert_label_sorted a l :
  StronglySorted lt l -> StronglySorted lt (insert_label a l).
Proof.
  induction 1 as [|y l Hs IH Hy]; simpl; [repeat constructor|].
  destruct (Nat.compare_spec a y).
  - now constructor.
  - constructor; [now constructor|]. constructor; [assumption|].
    eapply Forall_impl; [|exact Hy]. intros; lia.
  - constructor; [exact IH|]. rewrite Forall_forall in *. intros z Hz.
    apply insert_label_In in Hz as [->|Hz]; auto.
Qed.

Lemma unique_labels_In y_true y_pred x :
  In x (unique_labels y_true y_pred) <-> In x (y_true ++ y_pred).
Proof.
  unfold unique_labels. induction (y_true ++ y_pred) as [|y l IH]; simpl; [tauto|].
  rewrite insert_label_In, IH. intuition.
Qed.

Lemma unique_labels_sorted y_true y_pred :
  StronglySorted lt (unique_labels y_true y_pred).
Proof.
  unfold unique_labels. induction (y_true ++ y_pred); simpl;
    [constructor | now apply insert_label_sorted].
Qed.






Lemma filter_fst_combine a (yt : list nat) : forall yp : list nat,
  length yt = length yp ->
  length (filter (fun tp : nat * nat => fst tp =? a) (combine yt yp))
  = length (filter (fun t => t =? a) yt).
Proof.
  induction yt as [|t yt IH]; intros [|p yp] H; try discriminate; [reflexivity|].
  cbn [combine filter fst]. injection H as H.
  destruct (t =? a); cbn [length]; rewrite IH by exact H; reflexivity.
Qed.



End ConfusionFacts.

(** ** Image loading *)

Module ImageFacts.

Import Numpy PIL.

Lemma resize_mode_size kernel im :
  im_mode (resize kernel im (SIZE, SIZE)) = im_mode im
  /\ im_size (resize kernel im (SIZE, SIZE)) = (SIZE, SIZE).
Proof.
  unfold resize. destruct (size_eqb (im_size im) (SIZE, SIZE)) eqn:E; [|split; reflexivity].
  split; [reflexivity|]. unfold size_eqb in E. apply andb_true_iff in E as [E1 E2].
  apply Nat.eqb_eq in E1, E2. destruct (im_size im); simpl in *. congruence.
Qed.

Lemma asarray_resize_shape kernel im :
  shape (asarray (resize kernel im (SIZE, SIZE))) = tensor_shape (im_mode im).
Proof.
  destruct (resize_mode_size kernel im) as [Hm Hs].
  unfold asarray. rewrite Hs, Hm. cbn [shape]. now destruct (im_mode im).
Qed.

Lemma true_divide_255_range a :
  Forall (fun q => 0 <= q <= 1)%Q (flat (true_divide_255 a)).
Proof.
  unfold true_divide_255. cbn [flat]. apply Forall_map, Forall_forall.
  intros b _. pose proof (Byte.to_N_bounded b) as Hb.
  unfold Qle. cbn [Qnum Qden]. lia.
Qed.

Lemma read_image_inv fs kernel x arr :
  read_image fs kernel x = Ok arr ->
  exists im, PIL.open fs x = Ok im
             /\ arr = asarray (resize kernel im (SIZE, SIZE)).
Proof.
  unfold read_image. intros H. apply bind_Ok in H as (im & Him & H).
  injection H as <-. eauto.
Qed.

Lemma stack_inv {A : Type} (l a : list (ndarray A)) : stack l = Ok a -> a = l.
Proof.
  unfold stack. destruct l as [|x l]; [now intros [= <-]|].
  destruct (forallb _ _); [now intros [= <-] | discriminate].
Qed.

Lemma stack_same_shape {A : Type} (l : list (ndarray A)) s :
  Forall (fun a => shape a = s) l -> stack l = Ok l.
Proof.
  intros H. unfold stack. destruct l as [|x l]; [reflexivity|].
  replace (forallb _ _) with true; [reflexivity|].
  symmetry. apply forallb_forall. intros b Hb. rewrite Forall_forall in H.
  rewrite (H b Hb), (H x (or_introl eq_refl)). unfold shape_eqb.
  now destruct (list_eq_dec Nat.eq_dec s s).
Qed.

End ImageFacts.

(** C5, as the code has it.  Every tensor of [X] comes from an image that
    opened; its shape is (32, 32, bands) for the bands of that image's mode
    -- (32, 32, 3) for an RGB image, (32, 32) for a one-band image -- and
    each of its values lies between 0 and 1. *)
Theorem image_tensor_shape_and_range (fs : PIL.filesystem)
        (kernel : PIL.Image -> nat * nat -> nat -> nat -> nat -> Z)
        (balanced : list row) (images : list (Numpy.ndarray Byte.byte))
        (x : list (Numpy.ndarray Q))
  (Hi : image_column fs kernel balanced = Ok images) (Hx : X images = Ok x) :
  Forall2 (fun r t =>
             exists im,
               PIL.open fs (Os.get (image_path fs) (image_id (columns r))) = Ok im
               /\ Numpy.shape t = tensor_shape (PIL.im_mode im)
               /\ (PIL.im_mode im = PIL.RGB -> Numpy.shape t = [32; 32; 3])
               /\ Forall (fun q => 0 <= q <= 1)%Q (Numpy.flat t))
          balanced x.
Proof.
  unfold X in Hx. apply bind_Ok in Hx as (a & Ha & Hx). injection Hx as <-.
  apply ImageFacts.stack_inv in Ha. subst a.
  unfold image_column, path_column in Hi. apply mapM_Forall2 in Hi.
  revert images Hi. induction balanced as [|r l IH]; intros images Hi;
    inversion Hi as [|? arr ? imgs Hr Hl]; subst; cbn [map]; constructor; [|auto].
  apply ImageFacts.read_image_inv in Hr as (im & Him & ->).
  exists im. split; [exact Him|].
  assert (Hs : Numpy.shape (Numpy.true_divide_255
                 (PIL.asarray (PIL.resize kernel im (SIZE, SIZE))))
               = tensor_shape (PIL.im_mode im))
    by apply ImageFacts.asarray_resize_shape.
  split; [exact Hs|]. split; [|apply ImageFacts.true_divide_255_range].
  intros Hm. rewrite Hs, Hm. reflexivity.
Qed.

(** A picture stored in one band gives a tensor without a band axis. *)
Lemma gray_image_tensor_shape :
  (arr <- read_image (fs7 (plain_image PIL.L (64, 48) Byte.x80)) nearest
            (Os.get (image_path (fs7 (plain_image PIL.L (64, 48) Byte.x80)))
                    "ISIC_0027419") ;;
   Ok (Numpy.shape (Numpy.true_divide_255 arr)))
  = Ok [32; 32].
Proof. vm_compute. reflexivity. Qed.

(** ** Paths *)

Module PathFacts.

Import Os.
Local Open Scope string_scope.

Lemma substring_0_length s : substring 0 (String.length s) s = s.
Proof. induction s as [|a s IH]; cbn; [reflexivity | now rewrite IH]. Qed.

Lemma drop_0 s : drop 0 s = s.
Proof. unfold drop. rewrite Nat.sub_0_r. apply substring_0_length. Qed.

Lemma drop_S n a s : drop (S n) (String a s) = drop n s.
Proof. reflexivity. Qed.

Lemma drop_all s : drop (String.length s) s = "".
Proof. induction s as [|a s IH]; [reflexivity|]. cbn [String.length]. now rewrite drop_S. Qed.

Lemma take_drop n : forall s,
  n <= String.length s -> substring 0 n s ++ drop n s = s.
Proof.
  induction n as [|n IH]; intros s Hn.
  - rewrite drop_0. now destruct s.
  - destruct s as [|a s]; [cbn in Hn; lia|].
    rewrite drop_S. cbn [substring append]. f_equal. apply IH. cbn in Hn. lia.
Qed.

Lemma drop_append s t : drop (String.length s) (s ++ t) = t.
Proof.
  induction s as [|a s IH]; [apply drop_0|]. cbn [String.length append].
  now rewrite drop_S.
Qed.

Lemma substring_append s t : substring 0 (String.length s) (s ++ t) = s.
Proof. induction s as [|a s IH]; cbn; [now destruct t | now rewrite IH]. Qed.

Lemma length_append s t : String.length (s ++ t) = String.length s + String.length t.
Proof. induction s as [|a s IH]; cbn; [reflexivity | now rewrite IH]. Qed.

Lemma append_inj_l s s' t : s ++ t = s' ++ t -> s = s'.
Proof.
  revert s'. induction s as [|a s IH]; intros [|a' s'] H; cbn in H.
  - reflexivity.
  - apply (f_equal String.length) in H. cbn in H. rewrite length_append in H. lia.
  - apply (f_equal String.length) in H. cbn in H. rewrite length_append in H. lia.
  - injection H as -> H. f_equal. now apply IH.
Qed.

Lemma rfind_append c s t i :
  rfind c t = Some i -> rfind c (s ++ t) = Some (String.length s + i).
Proof.
  intros H. induction s as [|a s IH]; [exact H|]. cbn [append rfind String.length].
  now rewrite IH.
Qed.

(** A path without a separator is its own only component ... *)
Lemma split_sep_no_sep s : rfind "/" s = None -> split_sep s = [s].
Proof.
  induction s as [|a s IH]; [reflexivity|]. cbn [rfind split_sep].
  destruct (rfind "/" s); [discriminate|].
  destruct (Ascii.eqb a "/"); [discriminate|]. intros _. now rewrite IH.
Qed.

(** ... and otherwise the base name is the last component. *)
Lemma split_sep_sep s : forall i,
  rfind "/" s = Some i ->
  exists hd tl, split_sep s = hd :: tl /\ tl <> [] /\ last tl "" = drop (S i) s.
Proof.
  induction s as [|a s IH]; intros i; [discriminate|]. cbn [rfind split_sep].
  destruct (rfind "/" s) as [j|] eqn:E.
  - intros [= <-]. destruct (IH j eq_refl) as (hd & tl & -> & Htl & Hlast).
    rewrite drop_S. destruct (Ascii.eqb a "/").
    + exists "", (hd :: tl). repeat split; [discriminate|].
      destruct tl; [congruence | exact Hlast].
    + exists (String a hd), tl. auto.
  - destruct (Ascii.eqb a "/"); [|discriminate]. intros [= <-].
    rewrite (split_sep_no_sep s E), drop_S, drop_0.
    exists "", [s]. repeat split. discriminate.
Qed.

Lemma basename_last s : basename s = last (split_sep s) "".
Proof.
  unfold basename. destruct (rfind "/" s) as [i|] eqn:E.
  - destruct (split_sep_sep s i E) as (hd & tl & -> & Htl & <-).
    destruct tl; [congruence | reflexivity].
  - now rewrite (split_sep_no_sep s E).
Qed.

Lemma split_sep_components s : Forall (fun c => rfind "/" c = None) (split_sep s).
Proof.
  induction s as [|a s IH]; cbn [split_sep]; [repeat constructor|].
  destruct (Ascii.eqb a "/") eqn:E; [constructor; [reflexivity | exact IH]|].
  destruct (split_sep s) as [|hd tl]; [repeat constructor; cbn; now rewrite E|].
  inversion IH as [|? ? Hhd Htl]; subst. constructor; [|exact Htl].
  cbn [rfind]. now rewrite Hhd, E.
Qed.

Lemma all_dots_not_hidden s : hidden s = false -> s <> "" -> all_dots s = false.
Proof.
  destruct s as [|a s]; [congruence|]. cbn [hidden all_dots]. now intros ->.
Qed.

(** The key of a name [stem ++ ".jpg"] that does not start with a dot. *)
Lemma splitext_jpg_name f :
  rfind "/" f = None -> hidden f = false -> endswith ".jpg" f = true ->
  exists stem, f = stem ++ ".jpg" /\ splitext f = (stem, ".jpg").
Proof.
  intros Hsep Hhid Hend. unfold endswith in Hend.
  apply andb_true_iff in Hend as [Hlen Hsuf].
  apply Nat.leb_le in Hlen. apply String.eqb_eq in Hsuf.
  set (n := String.length f - String.length ".jpg") in *.
  assert (Hn : n <= String.length f) by (unfold n; lia).
  pose proof (take_drop n f Hn) as Hf. rewrite Hsuf in Hf.
  set (stem := substring 0 n f) in *. exists stem. split; [now symmetry|].
  assert (Hstem : String.length stem = n).
  { apply (f_equal String.length) in Hf. rewrite length_append in Hf.
    cbn [String.length] in *. unfold n. lia. }
  unfold splitext. rewrite <- Hf at 1.
  rewrite (rfind_append "." stem ".jpg" 0 eq_refl), Hsep, Nat.add_0_r, Nat.sub_0_r.
  cbn [Nat.leb andb]. rewrite <- Hf at 1. rewrite substring_append.
  rewrite all_dots_not_hidden.
  - cbn [negb]. rewrite <- Hf. now rewrite substring_append, drop_append.
  - rewrite <- Hf in Hhid. destruct stem; [discriminate Hhid | exact Hhid].
  - intros E. rewrite E in Hf. cbn in Hf. rewrite <- Hf in Hhid. discriminate.
Qed.

(** The dictionary key of a globbed path [.../<name>.jpg] is [<name>]. *)
Lemma glob_images_key paths x :
  In x (glob_images paths) ->
  basename x = fst (splitext (basename x)) ++ ".jpg".
Proof.
  unfold glob_images. intros H. apply filter_In in H as [_ H].
  rewrite basename_last. pose proof (split_sep_components x) as Hc.
  destruct (split_sep x) as [|a [|b [|d [|f [|? ?]]]]]; try discriminate.
  cbn [last]. rewrite !andb_true_iff in H. destruct H as [[_ Hhid] Hend].
  apply negb_true_iff in Hhid.
  inversion Hc as [|? ? _ Hc1]; inversion Hc1 as [|? ? _ Hc2];
    inversion Hc2 as [|? ? _ Hc3]; inversion Hc3 as [|? ? Hf _]; subst.
  destruct (splitext_jpg_name f Hf Hhid Hend) as (stem & Hstem & ->).
  exact Hstem.
Qed.

End PathFacts.

(** ** The path dictionary *)

Module DictFacts.

Import Os.

Lemma get_setitem {V : Type} (d : dict V) k v k' :
  get (setitem k v d) k' = if String.eqb k' k then Some v else get d k'.
Proof.
  induction d as [|[k0 v0] d IH]; cbn [setitem get]; [reflexivity|].
  destruct (String.eqb k k0) eqn:E; cbn [get].
  - apply String.eqb_eq in E. subst k0. now destruct (String.eqb k' k).
  - rewrite IH. destruct (String.eqb k' k) eqn:E'; [|reflexivity].
    apply String.eqb_eq in E'. subst k'. now rewrite E.
Qed.

Lemma get_comprehension_None {V : Type} (key : V -> string) (l : list V) k :
  forall d, get d k = None ->
  (forall x, In x l -> key x <> k) ->
  get (fold_left (fun d x => setitem (key x) x d) l d) k = None.
Proof.
  induction l as [|x l IH]; intros d Hd H; cbn [fold_left]; [exact Hd|].
  apply IH; [|intros; apply H; now right].
  rewrite get_setitem. destruct (String.eqb k (key x)) eqn:E; [|exact Hd].
  apply String.eqb_eq in E. exfalso. apply (H x (or_introl eq_refl)). congruence.
Qed.

End DictFacts.

(** C9.  When none of the files the glob matches
    ([data/HAM10000/<dir>/<name>.jpg]) is named [<image_id>.jpg] for a row
    of the balanced set, the path looked up for that row is [None], reading
    its image raises, no image column is produced, and the run ends with an
    exception. *)
Theorem missing_image_is_fatal (skin_csv : list lesion) (fs : PIL.filesystem)
        (kernel : PIL.Image -> nat * nat -> nat -> nat -> nat -> Z)
        (model : Keras.Sequential [SIZE; SIZE; 3] 7)
        (np_random np_random' : MT19937.state) (balanced : list row) (r : row)
  (Hb : skin_df_balanced skin_csv np_random = Ok (balanced, np_random'))
  (Hr : In r balanced)
  (Hmiss : forall x, In x (Os.glob_images (map fst fs)) ->
             Os.basename x <> (image_id (columns r) ++ ".jpg")%string) :
  Os.get (image_path fs) (image_id (columns r)) = None
  /\ read_image fs kernel (Os.get (image_path fs) (image_id (columns r)))
     = Raise AttributeError
  /\ (exists e, (b <- values (skin_df_balanced skin_csv np_random) ;;
                 image_column fs kernel b) = Raise e)
  /\ (exists e, evaluation skin_csv fs kernel model np_random = Raise e)
  /\ (exists e, notebook skin_csv fs kernel model np_random = Raise e).
Proof.
  assert (Hget : Os.get (image_path fs) (image_id (columns r)) = None).
  { apply DictFacts.get_comprehension_None; [reflexivity|].
    intros x Hx E. apply (Hmiss x Hx).
    rewrite (PathFacts.glob_images_key _ x Hx) at 1. now rewrite E. }
  assert (Hread : read_image fs kernel (Os.get (image_path fs) (image_id (columns r)))
                  = Raise AttributeError) by (now rewrite Hget).
  assert (Hcol : exists e, image_column fs kernel balanced = Raise e).
  { unfold image_column, path_column.
    apply mapM_Raise with (a := Os.get (image_path fs) (image_id (columns r)))
                          (e := AttributeError); [|exact Hread].
    apply in_map_iff. exists r. split; [reflexivity | exact Hr]. }
  destruct Hcol as (e & He).
  assert (Hev : evaluation skin_csv fs kernel model np_random = Raise e)
    by (unfold evaluation; rewrite Hb; cbn [bind]; rewrite He; reflexivity).
  repeat split; try assumption; exists e.
  - rewrite Hb. cbn [values bind]. exact He.
  - exact Hev.
  - unfold notebook. rewrite Hev. reflexivity.
Qed.

(** ** The evaluation cells *)

Module EvaluationFacts.

Import Numpy Sklearn.

Lemma mapM_total {A B : Type} (f : A -> result B) (P : B -> Prop) (l : list A) :
  (forall a, In a l -> exists b, f a = Ok b /\ P b) ->
  exists l', mapM f l = Ok l' /\ length l' = length l /\ Forall P l'.
Proof.
  induction l as [|a l IH]; intros H; cbn [mapM].
  - exists []. repeat split. constructor.
  - destruct (H a (or_introl eq_refl)) as (b & -> & Hb).
    destruct IH as (l' & -> & Hlen & Hall); [intros; apply H; now right|].
    cbn [bind]. exists (b :: l'). repeat split; [cbn; now rewrite Hlen | now constructor].
Qed.

Lemma image_column_total fs kernel skin_csv (balanced : list row) :
  images_available fs skin_csv ->
  Forall (fun r => In (columns r) skin_csv) balanced ->
  exists images, image_column fs kernel balanced = Ok images
                 /\ length images = length balanced
                 /\ Forall (fun a => shape a = [SIZE; SIZE; 3]) images.
Proof.
  intros Hav Hb. unfold image_column, path_column.
  destruct (mapM_total (read_image fs kernel) (fun a => shape a = [SIZE; SIZE; 3])
              (map (fun r => Os.get (image_path fs) (image_id (columns r))) balanced))
    as (images & Hi & Hlen & Hall).
  - intros x Hx. apply in_map_iff in Hx as (r & <- & Hr).
    rewrite Forall_forall in Hb.
    destruct (Hav _ (Hb r Hr)) as (p & im & -> & Hread & Hmode).
    unfold read_image, PIL.open. rewrite Hread. cbn [bind].
    eexists. split; [reflexivity|].
    rewrite ImageFacts.asarray_resize_shape, Hmode. reflexivity.
  - exists images. rewrite length_map in Hlen. auto.
Qed.

Lemma X_total images :
  Forall (fun a => shape a = [SIZE; SIZE; 3]) images ->
  X images = Ok (map true_divide_255 images).
Proof.
  intros H. unfold X. now rewrite (ImageFacts.stack_same_shape _ _ H).
Qed.

Lemma take_In {A : Type} (a : list A) indices x : In x (take a indices) -> In x a.
Proof.
  unfold take. rewrite in_flat_map. intros (i & _ & Hx).
  destruct (nth_error a (Z.to_nat i)) eqn:E; [|destruct Hx].
  destruct Hx as [<-|[]]. eapply nth_error_In; eauto.
Qed.

Lemma predict_total (model : Keras.Sequential [SIZE; SIZE; 3] 7) batch :
  Forall (fun t => shape t = [SIZE; SIZE; 3]) batch ->
  Keras.predict model batch = Ok (map (Keras.forward model) batch).
Proof.
  intros H. unfold Keras.predict.
  replace (forallb _ batch) with true; [reflexivity|].
  symmetry. apply forallb_forall. intros t Ht. rewrite Forall_forall in H.
  rewrite (H t Ht). reflexivity.
Qed.

Lemma take_labels df dfs indices :
  Forall2 (class_block df) (seq 0 7) dfs ->
  map label (take (concat dfs) indices)
  = flat_map (fun i => match nth_error (concat dfs) (Z.to_nat i) with
                       | Some _ => [Z.to_nat i / 400]
                       | None => []
                       end) indices.
Proof.
  intros Hb. unfold take. induction indices as [|i l IH]; [reflexivity|].
  cbn [flat_map]. rewrite map_app, IH. f_equal.
  destruct (nth_error (concat dfs) (Z.to_nat i)) as [r|] eqn:E; [|reflexivity].
  destruct (BalancerFacts.blocks_nth df 7 0 dfs _ r Hb E) as [_ Hl].
  cbn [map]. rewrite Hl. reflexivity.
Qed.

Lemma take_labels_in_range df dfs indices :
  Forall2 (class_block df) (seq 0 7) dfs ->
  Forall (fun i => (0 <= i < 2800)%Z) indices ->
  map label (take (concat dfs) indices) = map (fun i => Z.to_nat i / 400) indices.
Proof.
  intros Hb Hr. rewrite (take_labels df dfs indices Hb).
  pose proof (BalancerFacts.blocks_length df 7 0 dfs Hb) as Hlen.
  induction Hr as [|i l Hi Hl IH]; [reflexivity|].
  cbn [flat_map map]. rewrite IH.
  destruct (nth_error (concat dfs) (Z.to_nat i)) eqn:E; [reflexivity|].
  apply nth_error_None in E. lia.
Qed.

Lemma argmax_one_hot l : l < 7 -> argmax (Keras.one_hot 7 l) = l.
Proof. intros H. apply (one_hot_spec l H). Qed.




Lemma nth_map_seq {A : Type} (f : nat -> A) d n i :
  i < n -> nth i (map f (seq 0 n)) d = f i.
Proof.
  intros H. rewrite (nth_indep _ d (f 0)) by (rewrite length_map, length_seq; exact H).
  rewrite map_nth, seq_nth by exact H. reflexivity.
Qed.

End EvaluationFacts.

Module MatrixFacts.

Import Numpy Sklearn.


Lemma matrix7_row pairs i :
  i < 7 -> nth i (matrix7 pairs) [] = map (fun b => count_pairs i b pairs) (seq 0 7).
Proof. intros H. unfold matrix7. now rewrite EvaluationFacts.nth_map_seq. Qed.




End MatrixFacts.


(** ** The two partitions *)

(** C2, as the code has it.  The two index lists of the split have no
    position in common and hold every position of the 2800 rows once; the
    partitions are the rows at these positions, so together they hold the
    entries of each array exactly as often as the array does. *)
Theorem split_partitions_positions (A B : Type) (X : list A) (Y : list B)
        (np_random : MT19937.state)
  (HX : length X = 2800) (HY : length Y = 2800) :
  exists ind_train ind_test,
    Sklearn.shuffle_split (length X) test_size (Some 42%Z) np_random
    = Ok (ind_train, ind_test, np_random)
    /\ Sklearn.train_test_split X Y test_size (Some 42%Z) np_random
       = Ok (take X ind_train, take X ind_test,
             take Y ind_train, take Y ind_test, np_random)
    /\ NoDup (ind_train ++ ind_test)
    /\ (forall i, In i ind_train -> ~ In i ind_test)
    /\ (forall p, p < 2800 -> In (Z.of_nat p) (ind_train ++ ind_test))
    /\ Permutation (take X ind_train ++ take X ind_test) X
    /\ Permutation (take Y ind_train ++ take Y ind_test) Y.
Proof.
  exists ind_train42, ind_test42.
  assert (Hp : Permutation (ind_train42 ++ ind_test42) (NumpyRandom.arange 2800)).
  { etransitivity; [apply Permutation_app_comm|].
    rewrite <- SplitFacts.perm42_split. apply SplitFacts.perm42_Permutation. }
  assert (Hnd : NoDup (ind_train42 ++ ind_test42))
    by (apply (Permutation_NoDup (Permutation_sym Hp)), SplitFacts.arange_NoDup).
  split; [rewrite HX; apply SplitFacts.shuffle_split_2800|].
  split; [now apply SplitFacts.train_test_split_2800|].
  split; [exact Hnd|]. split; [|split; [|split]].
  - intros i Htr Hte. apply NoDup_app_remove_l in Hnd as Hnd'.
    clear Hp. induction ind_train42 as [|j l IH]; [destruct Htr|].
    cbn [app] in Hnd. inversion Hnd as [|? ? Hj Hl]; subst.
    destruct Htr as [->|Htr]; [apply Hj, in_or_app; now right | auto].
  - intros p Hlt. apply (Permutation_in _ (Permutation_sym Hp)).
    apply SplitFacts.arange_In. lia.
  - rewrite <- SplitFacts.take_app.
    apply Permutation_trans with (take X (NumpyRandom.arange 2800));
      [now apply SplitFacts.take_Permutation|].
    rewrite <- HX, SplitFacts.take_arange. reflexivity.
  - rewrite <- SplitFacts.take_app.
    apply Permutation_trans with (take Y (NumpyRandom.arange 2800));
      [now apply SplitFacts.take_Permutation|].
    rewrite <- HY, SplitFacts.take_arange. reflexivity.
Qed.

(** ** The example table *)

Module ExampleFacts.

Lemma ham7_classes_ : Sklearn.classes_ (le ham7)
                      = ["akiec"; "bcc"; "bkl"; "df"; "mel"; "nv"; "vasc"]%string.
Proof. reflexivity. Qed.

Lemma ham7_classes i :
  i < 7 -> exists c, In c ham7 /\ Sklearn.transform1 (le ham7) (dx c) = Ok i.
Proof.
  intros Hi.
  destruct i as [|[|[|[|[|[|[|i]]]]]]]; [ exists (nth 6 ham7 (lesion_of "" ""))
    | exists (nth 5 ham7 (lesion_of "" "")) | exists (nth 0 ham7 (lesion_of "" ""))
    | exists (nth 2 ham7 (lesion_of "" "")) | exists (nth 3 ham7 (lesion_of "" ""))
    | exists (nth 1 ham7 (lesion_of "" "")) | exists (nth 4 ham7 (lesion_of "" ""))
    | lia ];
    (split; [cbn; repeat (first [left; reflexivity | right]) | reflexivity]).
Qed.

Lemma ham7_skin_df :
  exists df, skin_df ham7 = Ok df
             /\ forall r, In r df -> label r = 0 -> r = akiec_row.
Proof.
  eexists. split; [vm_compute; reflexivity|].
  intros r Hr Hl. cbn in Hr.
  repeat (destruct Hr as [<-|Hr]; [first [reflexivity | discriminate Hl]|]).
  destruct Hr.
Qed.

Lemma take_class_row df dfs indices i r0 :
  Forall2 (class_block df) (seq 0 7) dfs ->
  In i indices -> (0 <= i < 2800)%Z ->
  (forall r, In r df -> label r = Z.to_nat i / 400 -> r = r0) ->
  In r0 (take (concat dfs) indices).
Proof.
  intros Hb Hi Hr Hu. unfold take. apply in_flat_map. exists i. split; [exact Hi|].
  pose proof (BalancerFacts.blocks_length df 7 0 dfs Hb) as Hlen.
  destruct (nth_error (concat dfs) (Z.to_nat i)) as [r|] eqn:E.
  - destruct (BalancerFacts.blocks_nth df 7 0 dfs _ r Hb E) as [Hin Hl].
    left. apply Hu; [exact Hin | exact Hl].
  - apply nth_error_None in E. lia.
Qed.

Lemma In_existsb (i : Z) (l : list Z) : existsb (Z.eqb i) l = true -> In i l.
Proof.
  intros H. apply existsb_exists in H as (x & Hx & E). apply Z.eqb_eq in E. now subst.
Qed.

End ExampleFacts.

(** A record drawn more than once can land on both sides of the split:
    with one record per class, the [akiec] record is in both partitions. *)
Lemma split_shares_a_record :
  exists balanced,
    skin_df_balanced ham7 np_random_seed = Ok (balanced, np_random_seed)
    /\ Sklearn.train_test_split balanced (Y balanced) test_size (Some 42%Z) np_random_seed
       = Ok (take balanced ind_train42, take balanced ind_test42,
             take (Y balanced) ind_train42, take (Y balanced) ind_test42,
             np_random_seed)
    /\ In akiec_row (take balanced ind_train42)
    /\ In akiec_row (take balanced ind_test42).
Proof.
  destruct (BalancerFacts.skin_df_balanced_total ham7 np_random_seed
              ExampleFacts.ham7_classes) as (balanced & Hb).
  exists balanced. split; [exact Hb|].
  destruct (BalancerFacts.skin_df_balanced_inv _ _ _ _ Hb)
    as (df & dfs & Hdf & Hblocks & ->).
  pose proof (BalancerFacts.blocks_length df 7 0 dfs Hblocks) as Hlen.
  destruct ExampleFacts.ham7_skin_df as (df' & Hdf' & Hu).
  assert (df' = df) by congruence. subst df'.
  split; [|split].
  - apply SplitFacts.train_test_split_2800; [exact Hlen|].
    unfold Y. rewrite length_map. exact Hlen.
  - apply (ExampleFacts.take_class_row df dfs ind_train42 48);
      [exact Hblocks | apply ExampleFacts.In_existsb; vm_compute; reflexivity | lia
      | exact Hu].
  - apply (ExampleFacts.take_class_row df dfs ind_test42 321);
      [exact Hblocks | apply ExampleFacts.In_existsb; vm_compute; reflexivity | lia
      | exact Hu].
Qed.

(** C1.  On the HAM10000 diagnosis codes the label encoder gives id 0 to
    [akiec] (Actinic keratoses) and id 5 to [nv]; for a picture whose
    arg-max class is 0 the inference helper returns "Melanocytic nevi":
    [class_names] is not in the order of the label ids. *)
Theorem class_names_not_in_label_order :
  Sklearn.classes_ (le ham7) = ["akiec"; "bcc"; "bkl"; "df"; "mel"; "nv"; "vasc"]%string
  /\ predict_skin_cancer (fs7 (plain_image PIL.RGB (64, 48) Byte.x80)) nearest class0_model
       "data/HAM10000/HAM10000_images_part_1/ISIC_0029417.jpg"
     = Ok "Melanocytic nevi"%string
  /\ Sklearn.inverse_transform1 (le ham7) 0 = Ok "akiec"%string
  /\ Os.get lesion_type_dict "akiec" = Some "Actinic keratoses"%string
  /\ Sklearn.transform1 (le ham7) "nv" = Ok 5
  /\ map (Os.get lesion_type_dict) (Sklearn.classes_ (le ham7))
     = map Some ["Actinic keratoses"; "Basal cell carcinoma";
                 "Benign keratosis-like lesions"; "Dermatofibroma"; "Melanoma";
                 "Melanocytic nevi"; "Vascular lesions"]%string
  /\ map (Os.get lesion_type_dict) (Sklearn.classes_ (le ham7))
     <> map Some class_names.
Proof. repeat split; try (vm_compute; reflexivity). vm_compute. discriminate. Qed.

(** ** The theorems at the example inputs *)

(** The code [mel] of the example table is encoded and decoded back. *)
Lemma label_encoder_roundtrip_witness :
  In "mel"%string (map dx ham7)
  /\ exists i, Sklearn.transform1 (le ham7) "mel" = Ok i
               /\ i < 7
               /\ Sklearn.inverse_transform1 (le ham7) i = Ok "mel"%string.
Proof.
  assert (H : In "mel"%string (map dx ham7)) by (simpl; tauto).
  split; [exact H|].
  destruct (label_encoder_roundtrip ham7 "mel" H) as ((i & H1 & H2 & H3 & _) & _).
  exists i. exact (conj H1 (conj H2 H3)).
Defined.

(** The example table has a record of each class and is balanced to 2800
    rows, 400 per class. *)
Lemma class_balancer_counts_witness :
  (forall i, i < 7 ->
     exists c, In c ham7 /\ Sklearn.transform1 (le ham7) (dx c) = Ok i)
  /\ exists balanced,
       skin_df_balanced ham7 np_random_seed = Ok (balanced, np_random_seed)
       /\ length balanced = 2800
       /\ forall i, i < 7 -> length (filter (fun r => label r =? i) balanced) = 400.
Proof.
  split; [exact ExampleFacts.ham7_classes|].
  destruct (class_balancer_counts ham7 np_random_seed ExampleFacts.ham7_classes)
    as (balanced & df & Hb & _ & Hlen & Hcount & _).
  exists balanced. exact (conj Hb (conj Hlen Hcount)).
Defined.

(** The balanced example table gets one-hot label vectors. *)
Lemma one_hot_labels_witness :
  exists balanced y_cat,
    skin_df_balanced ham7 np_random_seed = Ok (balanced, np_random_seed)
    /\ Y_cat balanced = Ok y_cat
    /\ Forall2 (fun r v => one_hot_of (label r) v) balanced y_cat.
Proof.
  destruct (BalancerFacts.skin_df_balanced_total ham7 np_random_seed
              ExampleFacts.ham7_classes) as (balanced & Hb).
  destruct (one_hot_labels ham7 np_random_seed np_random_seed balanced Hb)
    as (y_cat & Hy & Hall).
  exists balanced, y_cat. exact (conj Hb (conj Hy Hall)).
Defined.

(** Two arrays of 2800 units are split 2100 to 700. *)
Lemma train_test_split_sizes_witness :
  length (repeat tt 2800) = 2800
  /\ exists x_train x_test y_train y_test,
       Sklearn.train_test_split (repeat tt 2800) (repeat tt 2800) test_size
                                (Some 42%Z) np_random_seed
       = Ok (x_train, x_test, y_train, y_test, np_random_seed)
       /\ length x_test = 700 /\ length y_test = 700
       /\ length x_train = 2100 /\ length y_train = 2100.
Proof.
  split; [apply repeat_length|].
  exact (train_test_split_sizes unit unit (repeat tt 2800) (repeat tt 2800)
           np_random_seed (repeat_length tt 2800) (repeat_length tt 2800)).
Defined.

(** The positions of 2800 units are split without overlap or loss. *)
Lemma split_partitions_positions_witness :
  length (repeat tt 2800) = 2800
  /\ exists ind_train ind_test,
       Sklearn.shuffle_split 2800 test_size (Some 42%Z) np_random_seed
       = Ok (ind_train, ind_test, np_random_seed)
       /\ NoDup (ind_train ++ ind_test)
       /\ forall p, p < 2800 -> In (Z.of_nat p) (ind_train ++ ind_test).
Proof.
  split; [apply repeat_length|].
  destruct (split_partitions_positions unit unit (repeat tt 2800) (repeat tt 2800)
              np_random_seed (repeat_length tt 2800) (repeat_length tt 2800))
    as (ind_train & ind_test & H1 & _ & H2 & _ & H3 & _).
  rewrite repeat_length in H1.
  exists ind_train, ind_test. exact (conj H1 (conj H2 H3)).
Defined.

(** The example tree has an RGB picture for every record. *)
Lemma ham7_images_available :
  images_available (fs7 (plain_image PIL.RGB (64, 48) Byte.x80)) ham7.
Proof.
  intros c Hc. cbn in Hc.
  repeat (destruct Hc as [<-|Hc];
          [eexists; eexists; split; [vm_compute; reflexivity|];
           split; [vm_compute; reflexivity | reflexivity]|]).
  destruct Hc.
Qed.


(** With an empty image tree the run of the example table ends with an
    exception. *)
Lemma missing_image_is_fatal_witness :
  Os.glob_images (map fst (@nil (string * PIL.content))) = []
  /\ exists e, notebook ham7 [] nearest class0_model np_random_seed = Raise e.
Proof.
  split; [reflexivity|].
  destruct (BalancerFacts.skin_df_balanced_total ham7 np_random_seed
              ExampleFacts.ham7_classes) as (balanced & Hb).
  destruct (BalancerFacts.skin_df_balanced_inv _ _ _ _ Hb)
    as (df & dfs & _ & Hblocks & Hbal).
  pose proof (BalancerFacts.blocks_length df 7 0 dfs Hblocks) as Hlen.
  rewrite <- Hbal in Hlen.
  destruct balanced as [|r balanced]; [discriminate Hlen|].
  destruct (missing_image_is_fatal ham7 [] nearest class0_model np_random_seed
              np_random_seed (r :: balanced) r Hb (or_introl eq_refl)
              (fun x (Hx : In x []) => match Hx with end))
    as (_ & _ & _ & _ & Hn).
  exact Hn.
Defined.

Lemma Forall2_Forall_r {A B : Type} (P : A -> B -> Prop) (Q : B -> Prop) l l' :
  (forall a b, P a b -> Q b) -> Forall2 P l l' -> Forall Q l'.
Proof. intros H. induction 1; constructor; eauto. Qed.

(** The tensor read for the [akiec] row of the example has its values
    between 0 and 1. *)
Lemma image_tensor_shape_and_range_witness :
  exists images x,
    image_column (fs7 (plain_image PIL.RGB (64, 48) Byte.x80)) nearest
                 [akiec_row] = Ok images
    /\ X images = Ok x
    /\ Forall (fun t => Forall (fun q => 0 <= q <= 1)%Q (Numpy.flat t)) x.
Proof.
  destruct (EvaluationFacts.image_column_total
              (fs7 (plain_image PIL.RGB (64, 48) Byte.x80)) nearest ham7
              [akiec_row] ham7_images_available)
    as (images & Hi & _ & Hshape).
  { constructor; [|constructor]. cbn. tauto. }
  pose proof (EvaluationFacts.X_total images Hshape) as Hx.
  exists images, (map Numpy.true_divide_255 images).
  split; [exact Hi|]. split; [exact Hx|].
  eapply Forall2_Forall_r;
    [|exact (image_tensor_shape_and_range _ _ _ _ _ Hi Hx)].
  intros r t (im & _ & _ & _ & Hrange). exact Hrange.
Defined.

(** * Further properties of the notebook *)

(** ** More on the label encoder *)

Module LabelOrderFacts.

Import Sklearn.

Lemma sorted_nth_lt (l : list string) : forall i j a b,
  StronglySorted slt l ->
  nth_error l i = Some a -> nth_error l j = Some b -> i < j -> slt a b.
Proof.
  induction l as [|x l IH]; intros i j a b Hs Hi Hj Hlt; [destruct i; discriminate|].
  inversion Hs as [|? ? Hs' Hx]; subst.
  destruct j as [|j]; [lia|]. cbn [nth_error] in Hj.
  destruct i as [|i]; cbn [nth_error] in Hi.
  - injection Hi as ->. rewrite Forall_forall in Hx. apply Hx.
    eapply nth_error_In; eauto.
  - apply (IH i j); auto. lia.
Qed.

Lemma sorted_nth_iff (l : list string) i j a b :
  StronglySorted slt l ->
  nth_error l i = Some a -> nth_error l j = Some b ->
  (i < j <-> slt a b) /\ (i = j <-> a = b).
Proof.
  intros Hs Hi Hj.
  assert (Hirr : forall s, ~ slt s s) by apply LabelEncoderFacts.slt_irrefl.
  destruct (Nat.lt_total i j) as [H|[H|H]].
  - pose proof (sorted_nth_lt l i j a b Hs Hi Hj H) as Hab.
    split; split; intros; try assumption; try lia.
    subst b. destruct (Hirr a Hab).
  - subst j. assert (a = b) by congruence. subst b.
    split; split; intros; try reflexivity; try lia. destruct (Hirr a H).
  - pose proof (sorted_nth_lt l j i b a Hs Hj Hi H) as Hba.
    split; split; intros H'; try lia.
    + destruct (Hirr a (LabelEncoderFacts.slt_trans _ _ _ H' Hba)).
    + subst b. destruct (Hirr a Hba).
Qed.

Lemma transform1_nth le s i :
  transform1 le s = Ok i -> nth_error (classes_ le) i = Some s.
Proof.
  unfold transform1. destruct (index_of s (classes_ le)) as [k|] eqn:E; [|discriminate].
  intros [= <-]. now apply LabelEncoderFacts.index_of_nth.
Qed.

End LabelOrderFacts.

(** X1.  Lines 29-31 never raise; the rows keep their order and are numbered
    from 0; a row's label id is below the number of classes, rows with the
    same code have the same id, and a row with the smaller code (in the
    order of [sorted]) has the smaller id. *)
Theorem label_ids_follow_code_order (skin_csv : list lesion) :
  exists df,
    skin_df skin_csv = Ok df
    /\ map columns df = skin_csv
    /\ map index df = seq 0 (length skin_csv)
    /\ forall r r', In r df -> In r' df ->
         label r < length (Sklearn.classes_ (le skin_csv))
         /\ (label r < label r' <-> slt (dx (columns r)) (dx (columns r')))
         /\ (label r = label r' <-> dx (columns r) = dx (columns r')).
Proof.
  destruct (BalancerFacts.skin_df_total skin_csv) as (df & Hdf & Hc & Hi & Hl).
  exists df. split; [exact Hdf|]. split; [exact Hc|]. split; [exact Hi|].
  intros r r' Hr Hr'. rewrite Forall_forall in Hl.
  pose proof (LabelOrderFacts.transform1_nth _ _ _ (Hl r Hr)) as Hn.
  pose proof (LabelOrderFacts.transform1_nth _ _ _ (Hl r' Hr')) as Hn'.
  split; [apply nth_error_Some; congruence|].
  apply (LabelOrderFacts.sorted_nth_iff (Sklearn.classes_ (le skin_csv)));
    try assumption.
  apply LabelEncoderFacts.unique_sorted.
Qed.

(** ** More on the class balancer *)

Module BalancerEdgeFacts.

Import MT19937 NumpyRandom Sklearn.

Lemma resample_empty {A : Type} n random_state np_random :
  resample (@nil A) n random_state np_random = Raise ValueError.
Proof.
  unfold resample, resample_indices.
  destruct (check_random_state random_state np_random) as [rs global]. reflexivity.
Qed.

Lemma resample_classes_missing df classes np_random i :
  In i classes -> filter (fun r => label r =? i) df = [] ->
  resample_classes df classes np_random = Raise ValueError.
Proof.
  intros Hi He. induction classes as [|i0 classes IH]; [destruct Hi|].
  cbn [resample_classes].
  destruct (filter (fun r => label r =? i0) df) as [|r0 l0] eqn:E0.
  - unfold n_samples. now rewrite resample_empty.
  - destruct (BalancerFacts.resample_seed42 (r0 :: l0) np_random) as (d & Hd);
      [discriminate|].
    unfold n_samples. rewrite Hd. cbn [bind].
    destruct Hi as [->|Hi]; [congruence|]. now rewrite (IH Hi).
Qed.

Lemma no_record_no_row skin_csv df i :
  skin_df skin_csv = Ok df ->
  (forall c, In c skin_csv -> transform1 (le skin_csv) (dx c) <> Ok i) ->
  filter (fun r => label r =? i) df = [].
Proof.
  intros Hdf Hno.
  destruct (BalancerFacts.skin_df_total skin_csv) as (df' & Hdf' & Hc & _ & Hl).
  assert (df' = df) by congruence. subst df'.
  destruct (filter (fun r => label r =? i) df) as [|r l] eqn:E; [reflexivity|exfalso].
  assert (Hr : In r (filter (fun r => label r =? i) df)) by (rewrite E; now left).
  apply filter_In in Hr as [Hr Hi]. apply Nat.eqb_eq in Hi.
  rewrite Forall_forall in Hl. specialize (Hl r Hr). rewrite Hi in Hl.
  apply (Hno (columns r)); [|exact Hl]. rewrite <- Hc. now apply in_map.
Qed.

End BalancerEdgeFacts.

(** X2.  When one of the label ids 0 to 6 has no record -- the table has fewer
    than seven diagnosis codes, or no row at all -- the balancing cell
    raises [ValueError] and the run ends there. *)
Theorem missing_class_is_fatal (skin_csv : list lesion) (fs : PIL.filesystem)
        (kernel : PIL.Image -> nat * nat -> nat -> nat -> nat -> Z)
        (model : Keras.Sequential [SIZE; SIZE; 3] 7) (np_random : MT19937.state)
        (i : nat)
  (Hi : i < 7)
  (Hno : forall c, In c skin_csv -> Sklearn.transform1 (le skin_csv) (dx c) <> Ok i) :
  skin_df_balanced skin_csv np_random = Raise ValueError
  /\ evaluation skin_csv fs kernel model np_random = Raise ValueError
  /\ notebook skin_csv fs kernel model np_random = Raise ValueError.
Proof.
  assert (Hb : skin_df_balanced skin_csv np_random = Raise ValueError).
  { unfold skin_df_balanced, df_list.
    destruct (BalancerFacts.skin_df_total skin_csv) as (df & Hdf & _).
    rewrite Hdf. cbn [bind].
    rewrite (BalancerEdgeFacts.resample_classes_missing df (seq 0 7) np_random i);
      [reflexivity | apply in_seq; lia|].
    now apply (BalancerEdgeFacts.no_record_no_row skin_csv). }
  assert (He : evaluation skin_csv fs kernel model np_random = Raise ValueError)
    by (unfold evaluation; now rewrite Hb).
  split; [exact Hb|]. split; [exact He|]. unfold notebook. now rewrite He.
Qed.

(** The table with three codes has no record of label id 3. *)
Lemma missing_class_is_fatal_witness :
  (forall c, In c ham3 -> Sklearn.transform1 (le ham3) (dx c) <> Ok 3)
  /\ skin_df_balanced ham3 np_random_seed = Raise ValueError
  /\ notebook ham3 (fs7 (plain_image PIL.RGB (64, 48) Byte.x80)) nearest class0_model
              np_random_seed = Raise ValueError.
Proof.
  assert (H : forall c, In c ham3 -> Sklearn.transform1 (le ham3) (dx c) <> Ok 3).
  { intros c Hc. cbn in Hc.
    repeat (destruct Hc as [<-|Hc]; [vm_compute; discriminate|]). destruct Hc. }
  split; [exact H|].
  destruct (missing_class_is_fatal ham3 (fs7 (plain_image PIL.RGB (64, 48) Byte.x80))
              nearest class0_model np_random_seed 3 ltac:(lia) H) as (H1 & _ & H3).
  exact (conj H1 H3).
Defined.

(** Rows can be compared. *)
Lemma lesion_eq_dec (c c' : lesion) : {c = c'} + {c <> c'}.
Proof.
  decide equality; try apply string_dec.
  decide equality. decide equality; [apply Pos.eq_dec | apply Z.eq_dec].
Qed.

Lemma row_eq_dec (r r' : row) : {r = r'} + {r <> r'}.
Proof. decide equality; [apply Nat.eq_dec | apply lesion_eq_dec | apply Nat.eq_dec]. Qed.

Module BalancerMoreFacts.

Import MT19937 NumpyRandom Sklearn.

(** With a code of id 7 or more in the table, every id below 7 has a
    record. *)
Lemma seven_classes_present skin_csv c k :
  In c skin_csv -> transform1 (le skin_csv) (dx c) = Ok k -> 7 <= k ->
  forall j, j < 7 ->
    exists c', In c' skin_csv /\ transform1 (le skin_csv) (dx c') = Ok j.
Proof.
  intros Hc Hk Hge j Hj.
  apply LabelOrderFacts.transform1_nth in Hk.
  assert (Hlen : k < length (classes_ (le skin_csv)))
    by (apply nth_error_Some; congruence).
  destruct (nth_error (classes_ (le skin_csv)) j) as [s|] eqn:E;
    [|apply nth_error_None in E; lia].
  assert (Hs : In s (map dx skin_csv)).
  { apply LabelEncoderFacts.unique_In. eapply nth_error_In. exact E. }
  apply in_map_iff in Hs as (c' & <- & Hc').
  exists c'. split; [exact Hc'|]. unfold transform1.
  rewrite (LabelEncoderFacts.nth_index_of (classes_ (le skin_csv)) j (dx c')
             (LabelEncoderFacts.sorted_NoDup _ (LabelEncoderFacts.unique_sorted _)) E).
  reflexivity.
Qed.

Lemma not_NoDup_positions {A : Type} (eq_dec : forall x y : A, {x = y} + {x <> y})
      (l : list A) :
  ~ NoDup l ->
  exists p q x, p < q /\ nth_error l p = Some x /\ nth_error l q = Some x.
Proof.
  induction l as [|a l IH]; intros H; [destruct H; constructor|].
  destruct (in_dec eq_dec a l) as [Hin|Hnin].
  - apply In_nth_error in Hin as (q & Hq). exists 0, (S q), a.
    split; [lia|]. split; [reflexivity | exact Hq].
  - destruct IH as (p & q & x & Hlt & Hp & Hq).
    + intros Hnd. apply H. now constructor.
    + exists (S p), (S q), x. split; [lia|]. split; assumption.
Qed.

Lemma concat_nth_block df n : forall s dfs i d p,
  Forall2 (class_block df) (seq s n) dfs ->
  nth_error dfs i = Some d -> p < 400 ->
  nth_error (concat dfs) (i * 400 + p) = nth_error d p.
Proof.
  induction n as [|n IH]; intros s dfs i d p H Hd Hp; cbn [seq] in H;
    inversion H as [|? d0 ? dfs' [Hlen _] Hrest]; subst; [destruct i; discriminate|].
  cbn [concat]. destruct i as [|i]; cbn [nth_error] in Hd.
  - injection Hd as ->. rewrite Nat.mul_0_l, Nat.add_0_l.
    apply nth_error_app1. lia.
  - rewrite nth_error_app2 by lia. rewrite Hlen.
    replace (S i * 400 + p - 400) with (i * 400 + p) by lia.
    eapply IH; eauto.
Qed.

Lemma blocks_nth_block df n : forall s dfs i,
  Forall2 (class_block df) (seq s n) dfs -> i < n ->
  exists d, nth_error dfs i = Some d /\ class_block df (s + i) d.
Proof.
  induction n as [|n IH]; intros s dfs i H Hi; [lia|]. cbn [seq] in H.
  inversion H as [|? d0 ? dfs' Hb Hrest]; subst.
  destruct i as [|i].
  - exists d0. rewrite Nat.add_0_r. auto.
  - destruct (IH (S s) dfs' i Hrest) as (d & Hd & Hbl); [lia|].
    exists d. split; [exact Hd|]. now replace (s + S i) with (S s + i) by lia.
Qed.




End BalancerMoreFacts.

(** X3.  With more than seven diagnosis codes the balancing cell still returns
    2800 rows, and no row of a code whose label id is 7 or more is among
    them: the classes beyond the seventh are left out without an error. *)
Theorem classes_beyond_seven_dropped (skin_csv : list lesion)
        (np_random : MT19937.state) (c : lesion) (k : nat)
  (Hc : In c skin_csv)
  (Hk : Sklearn.transform1 (le skin_csv) (dx c) = Ok k)
  (Hge : 7 <= k) :
  exists balanced,
    skin_df_balanced skin_csv np_random = Ok (balanced, np_random)
    /\ length balanced = 7 * 400
    /\ forall r, In r balanced -> dx (columns r) <> dx c.
Proof.
  destruct (BalancerFacts.skin_df_balanced_total skin_csv np_random
              (BalancerMoreFacts.seven_classes_present skin_csv c k Hc Hk Hge))
    as (balanced & Hb).
  exists balanced. split; [exact Hb|].
  pose proof (balanced_label_lt _ _ _ _ Hb) as Hlt.
  destruct (BalancerFacts.skin_df_balanced_inv _ _ _ _ Hb)
    as (df & dfs & Hdf & Hblocks & ->).
  split; [exact (BalancerFacts.blocks_length df 7 0 dfs Hblocks)|].
  intros r Hr E. rewrite Forall_forall in Hlt. specialize (Hlt r Hr).
  destruct (BalancerFacts.skin_df_total skin_csv) as (df' & Hdf' & _ & _ & Hl).
  assert (df' = df) by congruence. subst df'.
  apply In_nth_error in Hr as (p & Hp).
  destruct (BalancerFacts.blocks_nth df 7 0 dfs p r Hblocks Hp) as [Hin _].
  rewrite Forall_forall in Hl. specialize (Hl r Hin). rewrite E in Hl.
  assert (label r = k) by congruence. lia.
Qed.

(** The eighth code of the example is left out. *)
Lemma classes_beyond_seven_dropped_witness :
  Sklearn.transform1 (le ham8) "scc" = Ok 6
  /\ Sklearn.transform1 (le ham8) "vasc" = Ok 7
  /\ exists balanced,
       skin_df_balanced ham8 np_random_seed = Ok (balanced, np_random_seed)
       /\ length balanced = 2800
       /\ forall r, In r balanced -> dx (columns r) <> "vasc"%string.
Proof.
  split; [reflexivity|]. split; [reflexivity|].
  exact (classes_beyond_seven_dropped ham8 np_random_seed
           (lesion_of "ISIC_0031197" "vasc") 7
           ltac:(cbn; tauto) eq_refl (le_n 7)).
Defined.

(** X4.  A class with fewer than 400 records is oversampled: some record of it
    stands at two positions of its block of the balanced set. *)
Theorem small_class_is_repeated (skin_csv : list lesion)
        (np_random np_random' : MT19937.state) (balanced df : list row) (i : nat)
  (Hb : skin_df_balanced skin_csv np_random = Ok (balanced, np_random'))
  (Hdf : skin_df skin_csv = Ok df)
  (Hi : i < 7)
  (Hsmall : length (filter (fun r => label r =? i) df) < 400) :
  exists p q r,
    p < q /\ p / 400 = i /\ q / 400 = i
    /\ nth_error balanced p = Some r /\ nth_error balanced q = Some r.
Proof.
  destruct (BalancerFacts.skin_df_balanced_inv _ _ _ _ Hb)
    as (df' & dfs & Hdf' & Hblocks & ->).
  assert (df' = df) by congruence. subst df'.
  destruct (BalancerMoreFacts.blocks_nth_block df 7 0 dfs i Hblocks Hi)
    as (d & Hd & Hlen & Hall).
  destruct (BalancerMoreFacts.not_NoDup_positions row_eq_dec d)
    as (p & q & r & Hlt & Hp & Hq).
  { intros Hnd.
    assert (Hincl : incl d (filter (fun r => label r =? i) df)).
    { intros r Hr. rewrite Forall_forall in Hall. destruct (Hall r Hr) as [Hin Hl].
      apply filter_In. split; [exact Hin | now apply Nat.eqb_eq]. }
    pose proof (NoDup_incl_length Hnd Hincl). lia. }
  assert (Hq' : q < 400) by (rewrite <- Hlen; apply nth_error_Some; congruence).
  exists (i * 400 + p), (i * 400 + q), r.
  split; [lia|].
  split; [rewrite Nat.add_comm, Nat.div_add by lia; rewrite Nat.div_small; lia|].
  split; [rewrite Nat.add_comm, Nat.div_add by lia; rewrite Nat.div_small; lia|].
  rewrite !(BalancerMoreFacts.concat_nth_block df 7 0 dfs i d) by (assumption || lia).
  auto.
Qed.

(** Each class of the example table has one record, repeated 400 times. *)
Lemma small_class_is_repeated_witness :
  exists balanced df,
    skin_df_balanced ham7 np_random_seed = Ok (balanced, np_random_seed)
    /\ skin_df ham7 = Ok df
    /\ length (filter (fun r => label r =? 2) df) < 400
    /\ exists p q r, p < q /\ p / 400 = 2 /\ q / 400 = 2
                     /\ nth_error balanced p = Some r /\ nth_error balanced q = Some r.
Proof.
  destruct (BalancerFacts.skin_df_balanced_total ham7 np_random_seed
              ExampleFacts.ham7_classes) as (balanced & Hb).
  assert (Hdf : exists df, skin_df ham7 = Ok df
                           /\ length (filter (fun r => label r =? 2) df) < 400).
  { eexists. split; [vm_compute; reflexivity|]. vm_compute. lia. }
  destruct Hdf as (df & Hdf & Hsmall).
  exists balanced, df. split; [exact Hb|]. split; [exact Hdf|]. split; [exact Hsmall|].
  exact (small_class_is_repeated ham7 np_random_seed np_random_seed balanced df 2
           Hb Hdf ltac:(lia) Hsmall).
Defined.



(** ** The image dictionary and the image column *)

Module ImagePathFacts.

Import Os PIL Numpy.
Local Open Scope string_scope.

Lemma find_app {A : Type} (f : A -> bool) (l l' : list A) :
  find f (l ++ l') = match find f l with Some x => Some x | None => find f l' end.
Proof.
  induction l as [|a l IH]; cbn [app find]; [reflexivity|].
  now destruct (f a).
Qed.

(** A dict comprehension keeps, for each key, the last element that has
    it. *)
Lemma get_comprehension {V : Type} (key : V -> string) (l : list V) k :
  forall d,
    get (fold_left (fun d x => setitem (key x) x d) l d) k
    = match find (fun x => String.eqb k (key x)) (rev l) with
      | Some x => Some x
      | None => get d k
      end.
Proof.
  induction l as [|x l IH]; intros d; cbn [fold_left rev find]; [reflexivity|].
  rewrite IH, find_app. destruct (find _ (rev l)); [reflexivity|].
  cbn [find]. rewrite DictFacts.get_setitem.
  now destruct (String.eqb k (key x)).
Qed.

Lemma image_path_find fs k :
  get (image_path fs) k
  = find (fun x => String.eqb k (fst (splitext (basename x))))
         (rev (glob_images (map fst fs))).
Proof.
  unfold image_path. rewrite get_comprehension.
  now destruct (find _ _).
Qed.

Lemma glob_images_stem paths x k :
  In x (glob_images paths) ->
  (fst (splitext (basename x)) = k <-> basename x = k ++ ".jpg").
Proof.
  intros H. pose proof (PathFacts.glob_images_key paths x H) as E. split.
  - intros <-. exact E.
  - intros E'. rewrite E' in E at 1. symmetry. eapply PathFacts.append_inj_l; eauto.
Qed.


Lemma read_not_In fs p : (forall q, In q (map fst fs) -> q <> p) -> read fs p = None.
Proof.
  induction fs as [|[q c] fs IH]; cbn [map fst In read]; intros H; [reflexivity|].
  destruct (String.eqb p q) eqn:E.
  - apply String.eqb_eq in E. exfalso. apply (H q); auto.
  - apply IH. intros; apply H; auto.
Qed.

Lemma image_path_In fs k p :
  get (image_path fs) k = Some p ->
  In p (glob_images (map fst fs)) /\ basename p = k ++ ".jpg".
Proof.
  rewrite image_path_find. intros H. apply find_some in H as [Hin E].
  apply in_rev in Hin. split; [exact Hin|].
  apply String.eqb_eq in E. now apply (glob_images_stem _ _ _ Hin).
Qed.










End ImagePathFacts.

(** X6.  The dictionary of line 60 maps an image id to a file the glob matched
    whose name is the id followed by [.jpg]; an id has an entry as soon
    as such a file exists; and when several folders hold a file of that
    name, the one the glob lists last is kept. *)
Theorem image_path_lookup (fs : PIL.filesystem) (k : string) :
  (forall p, Os.get (image_path fs) k = Some p ->
     In p (Os.glob_images (map fst fs)) /\ Os.basename p = (k ++ ".jpg")%string)
  /\ (forall x, In x (Os.glob_images (map fst fs)) ->
        Os.basename x = (k ++ ".jpg")%string ->
        exists p, Os.get (image_path fs) k = Some p)
  /\ (forall l1 x l2, Os.glob_images (map fst fs) = l1 ++ x :: l2 ->
        Os.basename x = (k ++ ".jpg")%string ->
        (forall y, In y l2 -> Os.basename y <> (k ++ ".jpg")%string) ->
        Os.get (image_path fs) k = Some x).
Proof.
  split; [intros p; apply ImagePathFacts.image_path_In|]. split.
  - intros x Hx E. rewrite ImagePathFacts.image_path_find.
    destruct (find _ _) as [p|] eqn:F; [eauto|]. exfalso.
    assert (Hf := find_none _ _ F x (proj1 (in_rev _ _) Hx)). cbn beta in Hf.
    rewrite (proj2 (ImagePathFacts.glob_images_stem _ _ k Hx) E), String.eqb_refl in Hf.
    discriminate.
  - intros l1 x l2 Hl E Hl2. rewrite ImagePathFacts.image_path_find.
    assert (Hin : forall y, In y (l1 ++ x :: l2) -> In y (Os.glob_images (map fst fs)))
      by (intros y; now rewrite Hl).
    rewrite Hl, rev_app_distr. cbn [rev]. rewrite <- app_assoc.
    rewrite ImagePathFacts.find_app.
    destruct (find _ (rev l2)) as [y|] eqn:F.
    + apply find_some in F as [Hy Ey]. apply in_rev in Hy. exfalso.
      apply (Hl2 y Hy). apply String.eqb_eq in Ey.
      apply (ImagePathFacts.glob_images_stem (map fst fs)); [|now symmetry].
      apply Hin, in_or_app. right. now right.
    + cbn [app find].
      replace (String.eqb k _) with true; [reflexivity|].
      symmetry. apply String.eqb_eq. symmetry.
      apply (ImagePathFacts.glob_images_stem (map fst fs)); [|exact E].
      apply Hin, in_or_app. right. now left.
Qed.

(** Two folders hold a file of the same name: the later one is kept. *)
Example image_path_last_folder_wins :
  Os.get (image_path [("data/HAM10000/HAM10000_images_part_1/ISIC_0024306.jpg"%string,
                       PIL.Other);
                      ("data/HAM10000/HAM10000_images_part_2/ISIC_0024306.jpg"%string,
                       PIL.Other)])
         "ISIC_0024306"
  = Some "data/HAM10000/HAM10000_images_part_2/ISIC_0024306.jpg"%string.
Proof. vm_compute. reflexivity. Qed.




(** ** Inference on one image *)

Module InferenceFacts.

Import Numpy.



(** The evaluation cells return when the seven classes have records and
    the pictures are there. *)
Lemma evaluation_total skin_csv fs kernel
      (model : Keras.Sequential [SIZE; SIZE; 3] 7) np_random :
  (forall i, i < 7 ->
     exists c, In c skin_csv /\ Sklearn.transform1 (le skin_csv) (dx c) = Ok i) ->
  images_available fs skin_csv ->
  exists out, evaluation skin_csv fs kernel model np_random = Ok (out, np_random).
Proof.
  intros Hclasses Himages.
  destruct (BalancerFacts.skin_df_balanced_total skin_csv np_random Hclasses)
    as (balanced & Hb).
  pose proof (balanced_label_lt _ _ _ _ Hb) as Hlt.
  destruct (BalancerFacts.skin_df_balanced_inv _ _ _ _ Hb)
    as (df & dfs & Hdf & Hblocks & Hbal).
  pose proof (BalancerFacts.blocks_length df 7 0 dfs Hblocks) as Hlen.
  rewrite <- Hbal in Hlen.
  assert (Hcols : Forall (fun r => In (columns r) skin_csv) balanced).
  { destruct (BalancerFacts.skin_df_total skin_csv) as (df' & Hdf' & Hc & _).
    assert (df' = df) by congruence. subst df'.
    apply Forall_forall. intros r Hr. subst balanced.
    apply In_nth_error in Hr as (p & Hp).
    destruct (BalancerFacts.blocks_nth df 7 0 dfs p r Hblocks Hp) as [Hin _].
    rewrite <- Hc. now apply in_map. }
  destruct (EvaluationFacts.image_column_total fs kernel skin_csv balanced Himages Hcols)
    as (images & Himg & Hil & Hshape).
  pose proof SplitFacts.perm42_range as Hr. rewrite SplitFacts.perm42_split in Hr.
  apply Forall_app in Hr as [Hte _].
  unfold evaluation. rewrite Hb. cbn [bind]. rewrite Himg. cbn [bind].
  rewrite (EvaluationFacts.X_total _ Hshape). cbn [bind].
  rewrite (Y_cat_balanced _ Hlt). cbn [bind].
  rewrite SplitFacts.train_test_split_2800 by (rewrite !length_map; lia).
  cbn [bind].
  rewrite EvaluationFacts.predict_total.
  2:{ apply Forall_forall. intros t Ht. apply EvaluationFacts.take_In in Ht.
      apply in_map_iff in Ht as (a & <- & Ha).
      rewrite Forall_forall in Hshape. exact (Hshape a Ha). }
  cbn [bind]. unfold Sklearn.confusion_matrix.
  replace (length (y_true _) =? length (y_pred_classes _)) with true.
  2:{ symmetry. apply Nat.eqb_eq. unfold y_true, y_pred_classes.
      rewrite !length_map.
      rewrite !SplitFacts.take_length by (rewrite !length_map; rewrite ?Hil, ?Hlen; exact Hte).
      reflexivity. }
  cbn [negb bind]. eauto.
Qed.

Lemma has_backslash_not_In fs p i :
  (forall q, In q (map fst fs) -> Os.rfind backslash q = None) ->
  Os.rfind backslash p = Some i ->
  PIL.read fs p = None.
Proof.
  intros H Hp. apply ImagePathFacts.read_not_In. intros q Hq ->.
  rewrite (H _ Hq) in Hp. discriminate.
Qed.

Lemma predict_skin_cancer_missing fs kernel
      (model : Keras.Sequential [SIZE; SIZE; 3] 7) p :
  PIL.read fs p = None ->
  predict_skin_cancer fs kernel model p = Raise FileNotFoundError.
Proof.
  intros H. unfold predict_skin_cancer, load_and_preprocess_image, PIL.open.
  now rewrite H.
Qed.

End InferenceFacts.


(** X10.  The example usage of lines 160-162 names its image with backslashes.
    On a tree whose paths hold no backslash (directories are separated by
    [/], as in lines 24 and 60) the run never prints a prediction, and
    when the seven classes have records and every picture is there, it
    ends with FileNotFoundError. *)
Theorem example_path_is_not_found (skin_csv : list lesion) (fs : PIL.filesystem)
        (kernel : PIL.Image -> nat * nat -> nat -> nat -> nat -> Z)
        (model : Keras.Sequential [SIZE; SIZE; 3] 7) (np_random : MT19937.state)
  (Hposix : forall p, In p (map fst fs) -> Os.rfind backslash p = None) :
  (forall name, notebook skin_csv fs kernel model np_random <> Ok name)
  /\ ((forall i, i < 7 ->
         exists c, In c skin_csv /\ Sklearn.transform1 (le skin_csv) (dx c) = Ok i) ->
      images_available fs skin_csv ->
      notebook skin_csv fs kernel model np_random = Raise FileNotFoundError).
Proof.
  unfold notebook.
  match goal with
  | |- context [predict_skin_cancer fs kernel model ?p] =>
      assert (Hp : predict_skin_cancer fs kernel model p = Raise FileNotFoundError)
  end.
  { apply InferenceFacts.predict_skin_cancer_missing.
    eapply InferenceFacts.has_backslash_not_In; [exact Hposix|].
    vm_compute. reflexivity. }
  rewrite Hp. split.
  - intros name.
    destruct (evaluation skin_csv fs kernel model np_random) as [[out g]|e];
      cbn [bind]; discriminate.
  - intros Hclasses Himages.
    destruct (InferenceFacts.evaluation_total skin_csv fs kernel model np_random
                Hclasses Himages) as (out & ->).
    reflexivity.
Qed.

(** The example run ends with FileNotFoundError. *)
Lemma example_path_is_not_found_witness :
  notebook ham7 (fs7 (plain_image PIL.RGB (64, 48) Byte.x80)) nearest class0_model
           np_random_seed
  = Raise FileNotFoundError.
Proof.
  refine (proj2 (example_path_is_not_found ham7
                   (fs7 (plain_image PIL.RGB (64, 48) Byte.x80)) nearest
                   class0_model np_random_seed _)
                ExampleFacts.ham7_classes ham7_images_available).
  intros p Hp. cbn in Hp.
  repeat (destruct Hp as [<-|Hp]; [vm_compute; reflexivity|]).
  destruct Hp.
Defined.

(** ** The confusion matrix in general *)

Module CountFacts.

Import Numpy Sklearn.
Local Open Scope Z_scope.

Lemma Zsum_map_add {A : Type} (f g : A -> Z) (l : list A) :
  Zsum (map (fun a => f a + g a) l) = Zsum (map f l) + Zsum (map g l).
Proof.
  unfold Zsum. induction l as [|a l IH]; cbn [map fold_right] in *; [reflexivity | lia].
Qed.

Lemma Zsum_indicator_out (k : nat) (l : list nat) :
  ~ In k l -> Zsum (map (fun a => if (k =? a)%nat then 1 else 0) l) = 0.
Proof.
  unfold Zsum. induction l as [|a l IH]; cbn [map fold_right In] in *; [reflexivity|].
  intros H. destruct (Nat.eqb_spec k a); [exfalso; auto|]. rewrite IH; auto.
Qed.

Lemma Zsum_indicator (k : nat) (l : list nat) :
  NoDup l -> In k l -> Zsum (map (fun a => if (k =? a)%nat then 1 else 0) l) = 1.
Proof.
  induction 1 as [|a l Ha Hnd IH]; cbn [In]; [tauto|].
  change (Zsum (map (fun a => if (k =? a)%nat then 1 else 0) (a :: l)))
    with ((if (k =? a)%nat then 1 else 0)
          + Zsum (map (fun a => if (k =? a)%nat then 1 else 0) l)).
  intros [->|Hin].
  - rewrite Nat.eqb_refl, Zsum_indicator_out by exact Ha. reflexivity.
  - destruct (Nat.eqb_spec k a); [subst; contradiction|].
    rewrite IH by exact Hin. reflexivity.
Qed.

(** Counting the elements by key, over keys that cover them, counts
    every element once. *)
Lemma count_partition {A : Type} (key : A -> nat) (labels : list nat) (l : list A) :
  NoDup labels ->
  Forall (fun e => In (key e) labels) l ->
  Zsum (map (fun a => Z.of_nat (length (filter (fun e => key e =? a)%nat l))) labels)
  = Z.of_nat (length l).
Proof.
  intros Hnd. induction 1 as [|e l He Hall IH].
  - cbn [filter length]. clear Hnd. unfold Zsum.
    induction labels as [|a labels IHl]; [reflexivity|].
    cbn [map fold_right]. rewrite IHl. reflexivity.
  - rewrite (map_ext _ (fun a => (if (key e =? a)%nat then 1 else 0)
                                  + Z.of_nat (length (filter (fun e => key e =? a)%nat l)))).
    + rewrite Zsum_map_add, IH, Zsum_indicator by assumption. cbn [length]. lia.
    + intros a. cbn [filter]. destruct (key e =? a)%nat; cbn [length]; lia.
Qed.

Lemma filter_filter {A : Type} (f g : A -> bool) (l : list A) :
  filter g (filter f l) = filter (fun x => f x && g x) l.
Proof.
  induction l as [|a l IH]; cbn [filter]; [reflexivity|].
  destruct (f a); cbn [filter andb]; [destruct (g a)|]; now rewrite IH.
Qed.

Lemma sorted_lt_NoDup (l : list nat) : StronglySorted lt l -> NoDup l.
Proof.
  induction 1 as [|a l Hs IH Ha]; constructor; [|exact IH].
  intros Hin. rewrite Forall_forall in Ha. specialize (Ha a Hin). lia.
Qed.

Lemma row_sum_labels a labels (pairs : list (nat * nat)) :
  NoDup labels ->
  Forall (fun tp => In (snd tp) labels) pairs ->
  Zsum (map (fun b => count_pairs a b pairs) labels)
  = Z.of_nat (length (filter (fun tp => fst tp =? a)%nat pairs)).
Proof.
  intros Hnd Hall.
  rewrite <- (count_partition snd labels (filter (fun tp => (fst tp =? a)%nat) pairs) Hnd).
  - apply f_equal, map_ext. intros b. unfold count_pairs. now rewrite filter_filter.
  - apply Forall_forall. intros tp Htp. apply filter_In in Htp as [Htp _].
    rewrite Forall_forall in Hall. auto.
Qed.

Lemma trace_labels labels (pairs : list (nat * nat)) :
  NoDup labels ->
  Forall (fun tp => In (fst tp) labels) pairs ->
  Zsum (map (fun a => count_pairs a a pairs) labels)
  = Z.of_nat (length (filter (fun tp => fst tp =? snd tp)%nat pairs)).
Proof.
  intros Hnd Hall.
  rewrite <- (count_partition fst labels (filter (fun tp => (fst tp =? snd tp)%nat) pairs) Hnd).
  - apply f_equal, map_ext. intros a. unfold count_pairs. rewrite filter_filter.
    do 2 f_equal. apply filter_ext. intros [t p]. cbn [fst snd].
    destruct (Nat.eqb_spec t a), (Nat.eqb_spec p a), (Nat.eqb_spec t p);
      try reflexivity; exfalso; congruence.
  - apply Forall_forall. intros tp Htp. apply filter_In in Htp as [Htp _].
    rewrite Forall_forall in Hall. auto.
Qed.

Lemma diag_labels {A : Type} (f : A -> A -> Z) (labels : list A) :
  diag (map (fun a => map (fun b => f a b) labels) labels) = map (fun a => f a a) labels.
Proof.
  unfold diag. rewrite length_map.
  apply (nth_ext _ _ 0 0).
  - now rewrite !length_map, length_seq.
  - intros i Hi. rewrite length_map, length_seq in Hi.
    rewrite EvaluationFacts.nth_map_seq by exact Hi.
    destruct (nth_error labels i) as [a|] eqn:E;
      [|apply nth_error_None in E; lia].
    rewrite (nth_error_nth _ _ _ (map_nth_error (fun a => map (fun b => f a b) labels) _ _ E)).
    rewrite (nth_error_nth _ _ _ (map_nth_error (fun b => f a b) _ _ E)).
    rewrite (nth_error_nth _ _ _ (map_nth_error (fun a => f a a) _ _ E)).
    reflexivity.
Qed.

Lemma combine_map_same {A B C : Type} (f : A -> B) (g : A -> C) (l : list A) :
  combine (map f l) (map g l) = map (fun a => (f a, g a)) l.
Proof. induction l as [|a l IH]; cbn [map combine]; [reflexivity | now rewrite IH]. Qed.

Lemma combine_map_map {A A' B B' : Type} (f : A -> A') (g : B -> B') l : forall l',
  combine (map f l) (map g l') = map (fun tp => (f (fst tp), g (snd tp))) (combine l l').
Proof.
  induction l as [|a l IH]; intros [|b l']; cbn [map combine]; try reflexivity.
  now rewrite IH.
Qed.

Lemma filter_map_length {A B : Type} (f : A -> B) (p : B -> bool) (l : list A) :
  length (filter p (map f l)) = length (filter (fun a => p (f a)) l).
Proof.
  induction l as [|a l IH]; cbn [map filter]; [reflexivity|].
  destruct (p (f a)); cbn [length]; now rewrite IH.
Qed.

Lemma count_true (a : nat) (yt : list nat) :
  In a yt <-> (0 < length (filter (fun t => t =? a)%nat yt))%nat.
Proof.
  split.
  - intros H. assert (Hin : In a (filter (fun t => (t =? a)%nat) yt))
      by (apply filter_In; split; [exact H | apply Nat.eqb_refl]).
    destruct (filter _ yt); [destruct Hin | cbn; lia].
  - intros H. destruct (filter (fun t => (t =? a)%nat) yt) as [|t l] eqn:E;
      [cbn in H; lia|].
    assert (Hin : In t (filter (fun t => (t =? a)%nat) yt)) by (rewrite E; now left).
    apply filter_In in Hin as [Hin Ht]. apply Nat.eqb_eq in Ht. now subst.
Qed.

(** The matrix that [confusion_matrix] returns, its row sums and its
    diagonal, over the labels that occur. *)
Lemma confusion_matrix_inv y_true y_pred cm :
  confusion_matrix y_true y_pred = Ok cm ->
  let labels := unique_labels y_true y_pred in
  let pairs := combine y_true y_pred in
  length y_true = length y_pred
  /\ NoDup labels
  /\ cm = map (fun a => map (fun b => count_pairs a b pairs) labels) labels
  /\ sum_axis1 cm
     = map (fun a => Z.of_nat (length (filter (fun t => t =? a)%nat y_true))) labels
  /\ diag cm = map (fun a => count_pairs a a pairs) labels.
Proof.
  unfold confusion_matrix. destruct (length y_true =? length y_pred)%nat eqn:E;
    cbn [negb]; [|discriminate].
  apply Nat.eqb_eq in E. intros [= <-]. cbn zeta.
  assert (Hnd : NoDup (unique_labels y_true y_pred))
    by apply sorted_lt_NoDup, ConfusionFacts.unique_labels_sorted.
  split; [exact E|]. split; [exact Hnd|]. split; [reflexivity|]. split.
  - unfold sum_axis1. rewrite map_map. apply map_ext. intros a.
    fold (Zsum (map (fun b => count_pairs a b (combine y_true y_pred))
                    (unique_labels y_true y_pred))).
    rewrite row_sum_labels, ConfusionFacts.filter_fst_combine by
      (try assumption; apply Forall_forall; intros [t p] Hin;
       apply in_combine_r in Hin; apply ConfusionFacts.unique_labels_In, in_or_app; now right).
    reflexivity.
  - apply diag_labels.
Qed.

Lemma confusion_matrix_total_trace y_true y_pred cm :
  confusion_matrix y_true y_pred = Ok cm ->
  Zsum (sum_axis1 cm) = Z.of_nat (length y_true)
  /\ Zsum (diag cm) = Z.of_nat (hits y_true y_pred).
Proof.
  intros H. destruct (confusion_matrix_inv _ _ _ H) as (Hlen & Hnd & Hcm & Hs & Hd).
  cbn zeta in *. split.
  - rewrite Hs.
    rewrite (count_partition (fun t => t) (unique_labels y_true y_pred) y_true Hnd);
      [reflexivity|].
    apply Forall_forall. intros t Ht.
    apply ConfusionFacts.unique_labels_In, in_or_app. now left.
  - rewrite Hd. apply trace_labels; [exact Hnd|].
    apply Forall_forall. intros [t p] Hin. apply in_combine_l in Hin.
    apply ConfusionFacts.unique_labels_In, in_or_app. now left.
Qed.

Lemma count_pairs_le_row a b pairs :
  0 <= count_pairs a b pairs
       <= Z.of_nat (length (filter (fun tp : nat * nat => fst tp =? a)%nat pairs)).
Proof.
  unfold count_pairs. split; [lia|]. apply inj_le.
  rewrite <- filter_filter. apply (filter_length_le _ (filter _ pairs)).
Qed.

End CountFacts.

(** X11.  [confusion_matrix] on label lists of equal length, with a sample at
    least, returns a square matrix with one row per label that occurs; its
    entries add up to the number of samples, its diagonal to the number of
    samples predicted right, and its rows to the counts of the true
    labels. *)
Theorem confusion_matrix_counts (y_true y_pred : list nat)
  (Hsome : y_true <> [])
  (Hlen : length y_true = length y_pred) :
  exists cm,
    Sklearn.confusion_matrix y_true y_pred = Ok cm
    /\ length cm = length (Sklearn.unique_labels y_true y_pred)
    /\ Forall (fun row => length row = length cm) cm
    /\ Zsum (sum_axis1 cm) = Z.of_nat (length y_true)
    /\ Zsum (diag cm) = Z.of_nat (hits y_true y_pred)
    /\ sum_axis1 cm
       = map (fun a => Z.of_nat (length (filter (fun t => t =? a) y_true)))
             (Sklearn.unique_labels y_true y_pred).
Proof.
  destruct (Sklearn.confusion_matrix y_true y_pred) as [cm|e] eqn:H.
  2:{ unfold Sklearn.confusion_matrix in H. rewrite Hlen, Nat.eqb_refl in H. discriminate. }
  exists cm. split; [reflexivity|].
  destruct (CountFacts.confusion_matrix_inv _ _ _ H) as (_ & _ & Hcm & Hs & _).
  destruct (CountFacts.confusion_matrix_total_trace _ _ _ H) as [Ht Hd].
  cbn zeta in *.
  assert (Hl : length cm = length (Sklearn.unique_labels y_true y_pred))
    by (rewrite Hcm; apply length_map).
  split; [exact Hl|]. split.
  - rewrite Hl. rewrite Hcm at 1. apply Forall_map, Forall_forall. intros a _. apply length_map.
  - auto.
Qed.

(** Three samples, one predicted right. *)
Lemma confusion_matrix_counts_witness :
  exists cm,
    Sklearn.confusion_matrix [0; 2; 2] [2; 2; 0] = Ok cm
    /\ length cm = 2
    /\ Zsum (sum_axis1 cm) = 3%Z
    /\ Zsum (diag cm) = 1%Z.
Proof.
  destruct (confusion_matrix_counts [0; 2; 2] [2; 2; 0] ltac:(discriminate) eq_refl)
    as (cm & H & Hl & _ & Ht & Hd & _).
  exists cm. exact (conj H (conj Hl (conj Ht Hd))).
Defined.

(** X12.  Entry [i] of the incorrect-prediction fractions belongs to the i-th
    label that occurs: it is not a number when that label occurs among the
    predictions only (its row is empty, 0/0), and lies between 0 and 1
    otherwise. *)
Theorem incorr_fraction_range (y_true y_pred : list nat) (cm : list (list Z))
        (i a : nat)
  (Hcm : Sklearn.confusion_matrix y_true y_pred = Ok cm)
  (Hi : nth_error (Sklearn.unique_labels y_true y_pred) i = Some a) :
  (~ In a y_true -> nth_error (incorr_fraction cm) i = Some None)
  /\ (In a y_true ->
      exists q, nth_error (incorr_fraction cm) i = Some (Some q)
                /\ (0 <= q <= 1)%Q
                /\ (q == 1 - inject_Z (nth i (diag cm) 0%Z)
                           / inject_Z (nth i (sum_axis1 cm) 0%Z))%Q).
Proof.
  destruct (CountFacts.confusion_matrix_inv _ _ _ Hcm) as (Hlen & Hnd & _ & Hs & Hd).
  cbn zeta in *.
  assert (Hnth : nth_error (incorr_fraction cm) i
                 = Some (one_minus
                           (Numpy.true_divide
                              (Sklearn.count_pairs a a (combine y_true y_pred))
                              (Z.of_nat (length (filter (fun t => t =? a) y_true)))))).
  { unfold incorr_fraction. rewrite Hs, Hd, CountFacts.combine_map_same, map_map.
    now rewrite (map_nth_error _ _ _ Hi). }
  assert (Hdi : nth i (diag cm) 0%Z = Sklearn.count_pairs a a (combine y_true y_pred))
    by (rewrite Hd; apply nth_error_nth; now rewrite (map_nth_error _ _ _ Hi)).
  assert (Hsi : nth i (sum_axis1 cm) 0%Z
                = Z.of_nat (length (filter (fun t => t =? a) y_true)))
    by (rewrite Hs; apply nth_error_nth; now rewrite (map_nth_error _ _ _ Hi)).
  rewrite Hnth, Hdi, Hsi.
  pose proof (CountFacts.count_pairs_le_row a a (combine y_true y_pred)) as Hle.
  rewrite ConfusionFacts.filter_fst_combine in Hle by exact Hlen.
  pose proof (CountFacts.count_true a y_true) as Hct.
  set (d := Sklearn.count_pairs a a (combine y_true y_pred)) in *.
  set (s := Z.of_nat (length (filter (fun t => t =? a) y_true))) in *.
  unfold Numpy.true_divide. split.
  - intros Hn. replace (s =? 0)%Z with true; [reflexivity|].
    symmetry. apply Z.eqb_eq.
    destruct (Nat.eq_dec (length (filter (fun t => t =? a) y_true)) 0) as [E|E];
      [unfold s; rewrite E; reflexivity|].
    exfalso. apply Hn, Hct. lia.
  - intros Hin. apply Hct in Hin. assert (Hpos : (0 < s)%Z) by (unfold s; lia).
    destruct (s =? 0)%Z eqn:E; [apply Z.eqb_eq in E; lia|].
    cbn [one_minus]. eexists. split; [reflexivity|]. split.
    + unfold Qle, Qminus, Qplus, Qopp. cbn [Qnum Qden].
      rewrite Z2Pos.id by exact Hpos. split; nia.
    + rewrite (Qmake_Qdiv d (Z.to_pos s)), Z2Pos.id by exact Hpos. reflexivity.
Qed.

(** Label 1 is predicted once and never true; label 0 is true twice and
    predicted right once. *)
Lemma incorr_fraction_range_witness :
  exists cm,
    Sklearn.confusion_matrix [0; 0] [0; 1] = Ok cm
    /\ nth_error (incorr_fraction cm) 1 = Some None
    /\ exists q, nth_error (incorr_fraction cm) 0 = Some (Some q) /\ (0 <= q <= 1)%Q.
Proof.
  exists [[1; 1]; [0; 0]]%Z.
  assert (H : Sklearn.confusion_matrix [0; 0] [0; 1] = Ok [[1; 1]; [0; 0]]%Z)
    by reflexivity.
  split; [exact H|]. split.
  - exact (proj1 (incorr_fraction_range [0; 0] [0; 1] _ 1 1 H eq_refl)
                 ltac:(cbn; intros [E|[E|[]]]; discriminate)).
  - destruct (proj2 (incorr_fraction_range [0; 0] [0; 1] _ 0 0 H eq_refl)
                    ltac:(now left)) as (q & Hq & Hr & _).
    exists q. exact (conj Hq Hr).
Defined.

(** ** The evaluation cells as a whole *)

Module RunFacts.

Import MT19937 NumpyRandom Sklearn Numpy.

Lemma shuffle_split_seeded n test_size seed np_random np_random' :
  shuffle_split n test_size (Some seed) np_random
  = (r <- shuffle_split n test_size (Some seed) np_random' ;;
     Ok (fst r, np_random)).
Proof.
  unfold shuffle_split.
  destruct (validate_shuffle_split n test_size) as [[n_train n_test]|e]; [|reflexivity].
  cbn [bind check_random_state].
  destruct (permutation (RandomState seed) n) as [[p st]|e]; reflexivity.
Qed.

Lemma train_test_split_seeded {A B : Type} (X : list A) (Y : list B) test_size seed
      np_random np_random' :
  train_test_split X Y test_size (Some seed) np_random
  = (r <- train_test_split X Y test_size (Some seed) np_random' ;;
     Ok (fst r, np_random)).
Proof.
  unfold train_test_split.
  destruct (negb (length X =? length Y)); [reflexivity|].
  rewrite (shuffle_split_seeded _ _ _ np_random np_random').
  destruct (shuffle_split (length X) test_size (Some seed) np_random')
    as [[[ind_train ind_test] g]|e]; [|reflexivity].
  cbn [bind fst].
  destruct (safe_indexing X ind_train); [|reflexivity].
  destruct (safe_indexing X ind_test); [|reflexivity].
  destruct (safe_indexing Y ind_train); [|reflexivity].
  destruct (safe_indexing Y ind_test); reflexivity.
Qed.

Lemma skin_df_balanced_seeded skin_csv np_random np_random' :
  skin_df_balanced skin_csv np_random
  = (r <- skin_df_balanced skin_csv np_random' ;; Ok (fst r, np_random)).
Proof.
  unfold skin_df_balanced, df_list.
  destruct (skin_df skin_csv) as [df|e]; [|reflexivity].
  cbn [bind]. rewrite !SeedFacts.resample_classes_seeded.
  destruct (mapM _ (seq 0 7)); reflexivity.
Qed.

Lemma evaluation_seeded skin_csv fs kernel
      (model : Keras.Sequential [SIZE; SIZE; 3] 7) np_random np_random' :
  evaluation skin_csv fs kernel model np_random
  = (r <- evaluation skin_csv fs kernel model np_random' ;; Ok (fst r, np_random)).
Proof.
  unfold evaluation.
  rewrite (skin_df_balanced_seeded skin_csv np_random np_random').
  destruct (skin_df_balanced skin_csv np_random') as [[balanced g]|e]; [|reflexivity].
  cbn [bind fst].
  destruct (image_column fs kernel balanced) as [images|e]; [|reflexivity].
  cbn [bind].
  destruct (X images) as [x|e]; [|reflexivity]. cbn [bind].
  destruct (Y_cat balanced) as [y_cat|e]; [|reflexivity]. cbn [bind].
  rewrite (train_test_split_seeded x y_cat test_size 42 np_random g).
  destruct (train_test_split x y_cat test_size (Some 42%Z) g)
    as [[[[[x_train x_test] y_train] y_test] g']|e]; [|reflexivity].
  cbn [bind fst].
  destruct (Keras.predict model x_test) as [y_pred|e]; [|reflexivity]. cbn [bind].
  destruct (confusion_matrix (y_true y_test) (y_pred_classes y_pred)); reflexivity.
Qed.

Lemma predict_length (model : Keras.Sequential [SIZE; SIZE; 3] 7) batch y_pred :
  Keras.predict model batch = Ok y_pred -> length y_pred = length batch.
Proof.
  unfold Keras.predict. destruct (forallb _ _); [|discriminate].
  intros [= <-]. apply length_map.
Qed.

(** What a run that reached the end of the evaluation cells went
    through. *)
Lemma evaluation_inv skin_csv fs kernel
      (model : Keras.Sequential [SIZE; SIZE; 3] 7) np_random out np_random' :
  evaluation skin_csv fs kernel model np_random = Ok (out, np_random') ->
  exists y_pred,
    length (out_x_test out) = 700
    /\ length (out_y_test out) = 700
    /\ Keras.predict model (out_x_test out) = Ok y_pred
    /\ length y_pred = 700
    /\ confusion_matrix (y_true (out_y_test out)) (y_pred_classes y_pred)
       = Ok (out_cm out)
    /\ out_incorr_fraction out = incorr_fraction (out_cm out).
Proof.
  unfold evaluation. intros H.
  apply bind_Ok in H as ([balanced g] & Hb & H).
  apply bind_Ok in H as (images & Hi & H).
  apply bind_Ok in H as (x & Hx & H).
  apply bind_Ok in H as (y_cat & Hy & H).
  pose proof (balanced_label_lt _ _ _ _ Hb) as Hlt.
  rewrite (Y_cat_balanced _ Hlt) in Hy. injection Hy as <-.
  destruct (BalancerFacts.skin_df_balanced_inv _ _ _ _ Hb)
    as (df & dfs & _ & Hblocks & Hbal).
  pose proof (BalancerFacts.blocks_length df 7 0 dfs Hblocks) as Hlen.
  rewrite <- Hbal in Hlen.
  unfold image_column, path_column in Hi. apply mapM_Forall2, Forall2_length in Hi.
  rewrite length_map in Hi.
  unfold X in Hx. apply bind_Ok in Hx as (a & Ha & Hx). injection Hx as <-.
  apply ImageFacts.stack_inv in Ha. subst a.
  rewrite SplitFacts.train_test_split_2800 in H by (rewrite !length_map; lia).
  cbn [bind] in H.
  apply bind_Ok in H as (y_pred & Hp & H).
  apply bind_Ok in H as (cm & Hcm & H).
  apply (f_equal (fun r => match r with Ok (o, _) => o | Raise _ => out end)) in H.
  cbv beta iota in H. subst out.
  cbn [out_x_test out_y_test out_cm out_incorr_fraction].
  pose proof SplitFacts.perm42_range as Hr. rewrite SplitFacts.perm42_split in Hr.
  apply Forall_app in Hr as [Hte _].
  assert (Lx : length (take (map true_divide_255 images) ind_test42) = 700)
    by (rewrite SplitFacts.take_length; [reflexivity | rewrite length_map; rewrite <- Hi, Hlen; exact Hte]).
  exists y_pred. split; [exact Lx|]. split.
  { rewrite SplitFacts.take_length; [reflexivity | rewrite length_map, Hlen; exact Hte]. }
  split; [exact Hp|]. split.
  { rewrite (predict_length _ _ _ Hp). exact Lx. }
  split; [exact Hcm | reflexivity].
Qed.

Lemma hits_argmax (y y_pred : list (list Q)) :
  length (filter (fun tp => argmax (fst tp) =? argmax (snd tp)) (combine y y_pred))
  = hits (map argmax y) (map argmax y_pred).
Proof.
  unfold hits. rewrite CountFacts.combine_map_map.
  now rewrite CountFacts.filter_map_length.
Qed.

End RunFacts.

(** X13.  Every random draw of the evaluation cells comes from a generator
    seeded on the spot ([random_state=42]): for a given fitted model, the
    values they produce, or the exception, do not depend on the state of
    numpy's global generator that line 21 seeds, and that state is handed
    on untouched. *)
Theorem evaluation_ignores_global_seed (skin_csv : list lesion)
        (fs : PIL.filesystem)
        (kernel : PIL.Image -> nat * nat -> nat -> nat -> nat -> Z)
        (model : Keras.Sequential [SIZE; SIZE; 3] 7)
        (np_random np_random' : MT19937.state) :
  values (evaluation skin_csv fs kernel model np_random)
  = values (evaluation skin_csv fs kernel model np_random')
  /\ notebook skin_csv fs kernel model np_random
     = notebook skin_csv fs kernel model np_random'
  /\ forall out g,
       evaluation skin_csv fs kernel model np_random = Ok (out, g) -> g = np_random.
Proof.
  pose proof (RunFacts.evaluation_seeded skin_csv fs kernel model np_random np_random')
    as H.
  split; [|split].
  - rewrite H. destruct (evaluation skin_csv fs kernel model np_random') as [[out g]|e];
      reflexivity.
  - unfold notebook. rewrite H.
    destruct (evaluation skin_csv fs kernel model np_random') as [[out g]|e];
      reflexivity.
  - intros out g E. rewrite H in E.
    destruct (evaluation skin_csv fs kernel model np_random') as [[out' g']|e];
      cbn [bind fst] in E; [|discriminate].
    now injection E as _ <-.
Qed.

(** X14.  The test accuracy of lines 109-110 and the confusion matrix of line
    130 count the same 700 test samples: the entries of the matrix add up
    to 700, and the accuracy is the sum of its diagonal divided by 700. *)
Theorem test_accuracy_is_trace (skin_csv : list lesion) (fs : PIL.filesystem)
        (kernel : PIL.Image -> nat * nat -> nat -> nat -> nat -> Z)
        (model : Keras.Sequential [SIZE; SIZE; 3] 7)
        (np_random np_random' : MT19937.state) (out : outputs)
  (He : evaluation skin_csv fs kernel model np_random = Ok (out, np_random')) :
  Zsum (sum_axis1 (out_cm out)) = 700%Z
  /\ (0 <= Zsum (diag (out_cm out)) <= 700)%Z
  /\ KerasMetrics.evaluate_acc model (out_x_test out) (out_y_test out)
     = Ok (Qmake (Zsum (diag (out_cm out))) 700).
Proof.
  destruct (RunFacts.evaluation_inv _ _ _ _ _ _ _ He)
    as (y_pred & Lx & Ly & Hp & Lp & Hcm & _).
  destruct (CountFacts.confusion_matrix_total_trace _ _ _ Hcm) as [Ht Hd].
  unfold y_true in Ht. rewrite length_map, Ly in Ht.
  split; [exact Ht|].
  assert (Hh : hits (y_true (out_y_test out)) (y_pred_classes y_pred) <= 700).
  { unfold hits. rewrite filter_length_le, length_combine.
    unfold y_true, y_pred_classes. rewrite !length_map. lia. }
  split; [lia|].
  unfold KerasMetrics.evaluate_acc. rewrite Lx, Ly, Nat.eqb_refl. cbn [negb].
  rewrite Hp. cbn [bind]. rewrite RunFacts.hits_argmax.
  fold (y_true (out_y_test out)). fold (y_pred_classes y_pred).
  rewrite Hd. reflexivity.
Qed.

(** The example run: the model puts every test sample in class 0, and 95
    of the 700 are of class 0. *)
Lemma test_accuracy_is_trace_witness :
  exists out,
    evaluation ham7 (fs7 (plain_image PIL.RGB (64, 48) Byte.x80)) nearest
               class0_model np_random_seed
    = Ok (out, np_random_seed)
    /\ Zsum (sum_axis1 (out_cm out)) = 700%Z
    /\ KerasMetrics.evaluate_acc class0_model (out_x_test out) (out_y_test out)
       = Ok (Qmake (Zsum (diag (out_cm out))) 700).
Proof.
  destruct (InferenceFacts.evaluation_total ham7
              (fs7 (plain_image PIL.RGB (64, 48) Byte.x80)) nearest class0_model
              np_random_seed ExampleFacts.ham7_classes ham7_images_available)
    as (out & He).
  exists out.
  destruct (test_accuracy_is_trace _ _ _ _ _ _ _ He) as (H1 & _ & H3).
  exact (conj He (conj H1 H3)).
Defined.

(** ** The network *)

Module LayerFacts.

Import KerasLayers.

Lemma conv3_shape filters act h w c :
  3 <= h -> 3 <= w ->
  compute_output_shape (Conv2D filters (3, 3) act) [h; w; c]
  = Ok [h - 2; w - 2; filters].
Proof.
  intros Hh Hw. cbn [compute_output_shape].
  apply Nat.leb_le in Hh as Hh', Hw as Hw'. rewrite Hh', Hw'. cbn [Nat.leb andb].
  replace (h - 3 + 1) with (h - 2) by lia.
  replace (w - 3 + 1) with (w - 2) by lia. reflexivity.
Qed.

Lemma pool2_shape h w c :
  2 <= h -> 2 <= w ->
  compute_output_shape (MaxPool2D (2, 2)) [h; w; c] = Ok [h / 2; w / 2; c].
Proof.
  intros Hh Hw. cbn [compute_output_shape].
  apply Nat.leb_le in Hh as Hh', Hw as Hw'. rewrite Hh', Hw'. cbn [Nat.leb andb].
  assert (E : forall n, 2 <= n -> (n - 2) / 2 + 1 = n / 2).
  { intros n Hn. replace n with (n - 2 + 1 * 2) at 2 by lia.
    now rewrite Nat.div_add by lia. }
  now rewrite !E by assumption.
Qed.

Lemma summary_cons l layers s s' :
  compute_output_shape l s = Ok s' ->
  summary (l :: layers) s
  = (rest <- summary layers s' ;; Ok ((s', count_params l s) :: rest)).
Proof. intros H. cbn [summary]. now rewrite H. Qed.

Lemma model_summary_shapes size :
  16 <= size ->
  let h := (size - 4) / 2 in
  let k := (size - 12) / 4 in
  model_summary size
  = Ok [([size - 2; size - 2; 64], 1792%Z);
        ([size - 4; size - 4; 64], 36928%Z);
        ([h; h; 64], 0%Z);
        ([h; h; 64], 256%Z);
        ([h - 2; h - 2; 128], 73856%Z);
        ([h - 4; h - 4; 128], 147584%Z);
        ([k; k; 128], 0%Z);
        ([k; k; 128], 512%Z);
        ([k * k * 128], 0%Z);
        ([256], ((Z.of_nat (k * k * 128) + 1) * 256)%Z);
        ([256], 0%Z);
        ([128], 32896%Z);
        ([128], 0%Z);
        ([7], 903%Z)].
Proof.
  intros Hs h k. unfold model_summary, model_layers.
  assert (Hh : 6 <= h) by (unfold h; apply Nat.div_le_lower_bound; lia).
  assert (Hk : (h - 4) / 2 = k).
  { unfold h, k. replace (size - 4) with (size - 12 + 4 * 2) by lia.
    rewrite Nat.div_add by lia.
    replace ((size - 12) / 2 + 4 - 4) with ((size - 12) / 2) by lia.
    now rewrite Nat.Div0.div_div. }
  rewrite (summary_cons _ _ _ _ (conv3_shape 64 relu size size 3 ltac:(lia) ltac:(lia))).
  rewrite (summary_cons _ _ _ _
             (conv3_shape 64 relu (size - 2) (size - 2) 64 ltac:(lia) ltac:(lia))).
  replace (size - 2 - 2) with (size - 4) by lia.
  rewrite (summary_cons _ _ _ _
             (pool2_shape (size - 4) (size - 4) 64 ltac:(lia) ltac:(lia))).
  fold h.
  rewrite (summary_cons BatchNormalization _ [h; h; 64] [h; h; 64] eq_refl).
  rewrite (summary_cons _ _ _ _ (conv3_shape 128 relu h h 64 ltac:(lia) ltac:(lia))).
  rewrite (summary_cons _ _ _ _
             (conv3_shape 128 relu (h - 2) (h - 2) 128 ltac:(lia) ltac:(lia))).
  replace (h - 2 - 2) with (h - 4) by lia.
  rewrite (summary_cons _ _ _ _
             (pool2_shape (h - 4) (h - 4) 128 ltac:(lia) ltac:(lia))).
  rewrite Hk.
  cbn [summary compute_output_shape bind fold_right removelast app count_params last].
  replace (k * (k * (128 * 1))) with (k * k * 128) by lia.
  reflexivity.
Qed.

End LayerFacts.

(** X15.  The network of lines 80-99 builds on square images of 16 or more
    rows: the two pairs of 3x3 convolutions take 2 rows and columns off
    each time and the two poolings halve them, so that [Flatten] hands
    128 * k * k values to the dense layers, where k = (size - 12) / 4; the
    last layer gives 7 scores, one per column of the label rows; and the
    weights number 32768 * k * k + 294983. *)
Theorem model_builds (size : nat) (Hsize : 16 <= size) :
  exists layers,
    model_summary size = Ok layers
    /\ length layers = 14
    /\ nth_error (map fst layers) 8 = Some [(size - 12) / 4 * ((size - 12) / 4) * 128]
    /\ last (map fst layers) [] = [7]
    /\ Zsum (map snd layers)
       = (32768 * Z.of_nat ((size - 12) / 4 * ((size - 12) / 4)) + 294983)%Z.
Proof.
  eexists. split; [exact (LayerFacts.model_summary_shapes size Hsize)|].
  split; [reflexivity|]. split; [reflexivity|]. split; [reflexivity|].
  unfold Zsum. cbn [map snd fold_right]. lia.
Qed.

(** At [SIZE = 32] the flattened feature map has 3200 values and the
    model has 1,114,183 weights. *)
Lemma model_builds_witness :
  exists layers,
    model_summary SIZE = Ok layers
    /\ map fst layers
       = [[30; 30; 64]; [28; 28; 64]; [14; 14; 64]; [14; 14; 64];
          [12; 12; 128]; [10; 10; 128]; [5; 5; 128]; [5; 5; 128];
          [3200]; [256]; [256]; [128]; [128]; [7]]
    /\ Zsum (map snd layers) = 1114183%Z.
Proof.
  destruct (model_builds SIZE ltac:(unfold SIZE; lia)) as (layers & H & _ & _ & _ & Hp).
  exists layers. split; [exact H|]. split; [|exact Hp].
  assert (E : model_summary SIZE = Ok layers) by exact H.
  vm_compute in E. injection E as <-. reflexivity.
Defined.

Module TrainFacts.

Import MT19937 NumpyRandom Sklearn Numpy.

Lemma ind_train42_counts :
  map (fun i => Z.of_nat (length (filter (fun t => t =? i)
                                         (map (fun i => Z.to_nat i / 400) ind_train42))))
      (seq 0 7)
  = train_counts42.
Proof. vm_compute. reflexivity. Qed.

Lemma ind_train42_length : length ind_train42 = 2100.
Proof. vm_compute. reflexivity. Qed.

(** The training arrays of a run that reached the end of the evaluation
    cells. *)
Lemma evaluation_train_inv skin_csv fs kernel
      (model : Keras.Sequential [SIZE; SIZE; 3] 7) np_random out np_random' :
  evaluation skin_csv fs kernel model np_random = Ok (out, np_random') ->
  length (out_x_train out) = 2100
  /\ length (out_y_train out) = 2100
  /\ map argmax (out_y_train out) = map (fun i => Z.to_nat i / 400) ind_train42.
Proof.
  unfold evaluation. intros H.
  apply bind_Ok in H as ([balanced g] & Hb & H).
  apply bind_Ok in H as (images & Hi & H).
  apply bind_Ok in H as (x & Hx & H).
  apply bind_Ok in H as (y_cat & Hy & H).
  pose proof (balanced_label_lt _ _ _ _ Hb) as Hlt.
  rewrite (Y_cat_balanced _ Hlt) in Hy. injection Hy as <-.
  destruct (BalancerFacts.skin_df_balanced_inv _ _ _ _ Hb)
    as (df & dfs & _ & Hblocks & Hbal).
  pose proof (BalancerFacts.blocks_length df 7 0 dfs Hblocks) as Hlen.
  rewrite <- Hbal in Hlen.
  unfold image_column, path_column in Hi. apply mapM_Forall2, Forall2_length in Hi.
  rewrite length_map in Hi.
  unfold X in Hx. apply bind_Ok in Hx as (a & Ha & Hx). injection Hx as <-.
  apply ImageFacts.stack_inv in Ha. subst a.
  rewrite SplitFacts.train_test_split_2800 in H by (rewrite !length_map; lia).
  cbn [bind] in H.
  apply bind_Ok in H as (y_pred & Hp & H).
  apply bind_Ok in H as (cm & Hcm & H).
  apply (f_equal (fun r => match r with Ok (o, _) => o | Raise _ => out end)) in H.
  cbv beta iota in H. subst out.
  cbn [out_x_train out_y_train].
  pose proof SplitFacts.perm42_range as Hr. rewrite SplitFacts.perm42_split in Hr.
  apply Forall_app in Hr as [_ Htr].
  split.
  { rewrite SplitFacts.take_length;
      [exact ind_train42_length | rewrite length_map; rewrite <- Hi, Hlen; exact Htr]. }
  split.
  { rewrite SplitFacts.take_length;
      [exact ind_train42_length | rewrite length_map, Hlen; exact Htr]. }
  rewrite SplitFacts.take_map, map_map.
  rewrite <- (EvaluationFacts.take_labels_in_range df dfs ind_train42 Hblocks Htr).
  rewrite <- Hbal. apply map_ext_in. intros r Hr.
  apply EvaluationFacts.take_In in Hr. rewrite Forall_forall in Hlt.
  apply EvaluationFacts.argmax_one_hot. exact (Hlt r Hr).
Qed.

End TrainFacts.

(** X16.  The model is fitted on 2100 samples, and the training partition is
    not balanced any more: it holds 305, 290, 303, 292, 300, 300 and 310
    samples of the seven classes (what the 400 of each class leave after
    the test partition took its share). *)
Theorem train_partition_class_counts (skin_csv : list lesion) (fs : PIL.filesystem)
        (kernel : PIL.Image -> nat * nat -> nat -> nat -> nat -> Z)
        (model : Keras.Sequential [SIZE; SIZE; 3] 7)
        (np_random np_random' : MT19937.state) (out : outputs)
  (He : evaluation skin_csv fs kernel model np_random = Ok (out, np_random')) :
  length (out_x_train out) = 2100
  /\ length (out_y_train out) = 2100
  /\ map (fun i => Z.of_nat (length (filter (fun t => t =? i)
                                            (map Numpy.argmax (out_y_train out)))))
         (seq 0 7)
     = train_counts42
  /\ map (fun i => (400 - nth i class_counts42 0)%Z) (seq 0 7) = train_counts42.
Proof.
  destruct (TrainFacts.evaluation_train_inv _ _ _ _ _ _ _ He) as (Hx & Hy & Hl).
  split; [exact Hx|]. split; [exact Hy|]. split; [|reflexivity].
  rewrite Hl. exact TrainFacts.ind_train42_counts.
Qed.

(** The example run. *)
Lemma train_partition_class_counts_witness :
  exists out,
    evaluation ham7 (fs7 (plain_image PIL.RGB (64, 48) Byte.x80)) nearest
               class0_model np_random_seed
    = Ok (out, np_random_seed)
    /\ length (out_x_train out) = 2100
    /\ map (fun i => Z.of_nat (length (filter (fun t => t =? i)
                                              (map Numpy.argmax (out_y_train out)))))
           (seq 0 7)
       = train_counts42.
Proof.
  destruct (InferenceFacts.evaluation_total ham7
              (fs7 (plain_image PIL.RGB (64, 48) Byte.x80)) nearest class0_model
              np_random_seed ExampleFacts.ham7_classes ham7_images_available)
    as (out & He).
  exists out.
  destruct (train_partition_class_counts _ _ _ _ _ _ _ He) as (H1 & _ & H3 & _).
  exact (conj He (conj H1 H3)).
Defined.

(** ** The training history *)

Module HistoryFacts.

Import Os.
Local Open Scope string_scope.

Lemma history_acc validation_data n logs :
  KerasHistory.history metrics validation_data n logs
  = if validation_data
    then [("loss", map (logs "loss") (seq 0 n));
          ("acc", map (logs "acc") (seq 0 n));
          ("val_loss", map (logs "val_loss") (seq 0 n));
          ("val_acc", map (logs "val_acc") (seq 0 n))]
    else [("loss", map (logs "loss") (seq 0 n));
          ("acc", map (logs "acc") (seq 0 n))].
Proof. destruct validation_data; reflexivity. Qed.

Lemma val_eqb_short metric : String.eqb ("val_" ++ metric) "loss" = false
                             /\ String.eqb ("val_" ++ metric) "acc" = false.
Proof. split; reflexivity. Qed.

Lemma val_eqb_long metric s :
  String.eqb ("val_" ++ metric) ("val_" ++ s) = String.eqb metric s.
Proof. reflexivity. Qed.

End HistoryFacts.

(** X17.  The history of the run ([metrics=['acc']], 100 epochs,
    validation data given) has the curves [plot_history] asks for exactly
    for the metrics [loss] and [acc]: for these it draws the training
    curve and then the validation curve, of 100 points each; for every
    other name (the long name [accuracy], say) it raises KeyError; and
    without the [validation_data] argument of [fit] it raises KeyError for
    every metric. *)
Theorem plot_history_metrics (logs : string -> nat -> Q) (metric : string) :
  (metric = "loss"%string \/ metric = "acc"%string ->
   exists fig,
     plot_history (KerasHistory.history metrics true epochs logs) metric = Ok fig
     /\ Pyplot.lines fig
        = [map (logs metric) (seq 0 epochs);
           map (logs ("val_" ++ metric)%string) (seq 0 epochs)]
     /\ Forall (fun curve => length curve = 100) (Pyplot.lines fig)
     /\ Pyplot.title fig = ("model " ++ metric)%string)
  /\ (metric <> "loss"%string -> metric <> "acc"%string ->
      plot_history (KerasHistory.history metrics true epochs logs) metric
      = Raise KeyError)
  /\ plot_history (KerasHistory.history metrics false epochs logs) metric
     = Raise KeyError.
Proof.
  rewrite !HistoryFacts.history_acc. unfold plot_history.
  cbn [Os.get].
  destruct (HistoryFacts.val_eqb_short metric) as [E1 E2]. rewrite E1, E2.
  change "val_loss"%string with ("val_" ++ "loss")%string.
  change "val_acc"%string with ("val_" ++ "acc")%string.
  rewrite !HistoryFacts.val_eqb_long.
  split; [|split].
  - intros [->| ->]; cbn [String.eqb Ascii.eqb Bool.eqb];
      (eexists; split; [reflexivity|]; split; [reflexivity|]; split; [|reflexivity];
       repeat constructor; now rewrite length_map, length_seq).
  - intros H1 H2.
    apply String.eqb_neq in H1, H2. rewrite H1, H2.
    destruct (String.eqb metric ("val_" ++ "loss")); [reflexivity|].
    destruct (String.eqb metric ("val_" ++ "acc")); reflexivity.
  - destruct (String.eqb metric "loss"); [reflexivity|].
    destruct (String.eqb metric "acc"); reflexivity.
Qed.

(** ** The size of the image arrays *)

Module ArrayFacts.

Import Numpy PIL.

Lemma length_flat_map_const {A B : Type} (f : A -> list B) (k : nat) (l : list A) :
  (forall a, In a l -> length (f a) = k) -> length (flat_map f l) = length l * k.
Proof.
  induction l as [|a l IH]; intros H; cbn [flat_map length]; [reflexivity|].
  rewrite length_app, (H a (or_introl eq_refl)), IH by (intros; apply H; now right).
  reflexivity.
Qed.

Lemma asarray_size im : length (flat (asarray im)) = size_of (shape (asarray im)).
Proof.
  unfold asarray. destruct (im_size im) as [w h]. cbn [flat shape].
  rewrite (length_flat_map_const _ (w * bands (im_mode im))).
  - rewrite length_seq. unfold size_of.
    destruct (im_mode im); cbn [fold_right bands]; lia.
  - intros y _. rewrite (length_flat_map_const _ (bands (im_mode im))).
    + now rewrite length_seq.
    + intros x _. now rewrite length_map, length_seq.
Qed.

End ArrayFacts.

(** X18.  Every array of [X] is full: it holds as many values as its shape
    says, rows times columns times bands, which is 3072 values for a
    picture that decodes as RGB; rescaling keeps the shape the resized
    image has. *)
Theorem image_arrays_are_full (fs : PIL.filesystem)
        (kernel : PIL.Image -> nat * nat -> nat -> nat -> nat -> Z)
        (balanced : list row) (images : list (Numpy.ndarray Byte.byte))
        (x : list (Numpy.ndarray Q))
  (Hi : image_column fs kernel balanced = Ok images) (Hx : X images = Ok x) :
  length x = length balanced
  /\ Forall2 (fun a t => Numpy.shape t = Numpy.shape a
                         /\ length (Numpy.flat t) = length (Numpy.flat a)
                         /\ length (Numpy.flat t) = size_of (Numpy.shape t)
                         /\ (Numpy.shape t = [SIZE; SIZE; 3] ->
                             length (Numpy.flat t) = 3072))
             images x.
Proof.
  unfold X in Hx. apply bind_Ok in Hx as (a & Ha & Hx). injection Hx as <-.
  apply ImageFacts.stack_inv in Ha. subst a.
  unfold image_column, path_column in Hi. apply mapM_Forall2 in Hi.
  split.
  { rewrite length_map. apply Forall2_length in Hi. now rewrite length_map in Hi. }
  assert (Hall : Forall (fun a => length (Numpy.flat a) = size_of (Numpy.shape a)) images).
  { clear -Hi. remember (map _ balanced) as paths eqn:E. clear E.
    induction Hi as [|p a paths images Hp Hi IH]; constructor; [|exact IH].
    apply ImageFacts.read_image_inv in Hp as (im & _ & ->).
    apply ArrayFacts.asarray_size. }
  clear Hi. induction Hall as [|a images Ha Hall IH]; cbn [map]; constructor; [|exact IH].
  unfold Numpy.true_divide_255. cbn [Numpy.shape Numpy.flat].
  rewrite length_map. split; [reflexivity|]. split; [reflexivity|].
  split; [exact Ha|]. intros E. rewrite Ha, E. reflexivity.
Qed.

(** The example tree: 2800 arrays of 3072 values. *)
Lemma image_arrays_are_full_witness :
  exists balanced images x,
    skin_df_balanced ham7 np_random_seed = Ok (balanced, np_random_seed)
    /\ image_column (fs7 (plain_image PIL.RGB (64, 48) Byte.x80)) nearest balanced
       = Ok images
    /\ X images = Ok x
    /\ length x = 2800
    /\ Forall (fun t => length (Numpy.flat t) = 3072) x.
Proof.
  destruct (BalancerFacts.skin_df_balanced_total ham7 np_random_seed
              ExampleFacts.ham7_classes) as (balanced & Hb).
  destruct (BalancerFacts.skin_df_balanced_inv _ _ _ _ Hb)
    as (df & dfs & Hdf & Hblocks & Hbal).
  pose proof (BalancerFacts.blocks_length df 7 0 dfs Hblocks) as Hlen.
  rewrite <- Hbal in Hlen.
  assert (Hcols : Forall (fun r => In (columns r) ham7) balanced).
  { destruct (BalancerFacts.skin_df_total ham7) as (df' & Hdf' & Hc & _).
    assert (df' = df) by congruence. subst df'.
    apply Forall_forall. intros r Hr. subst balanced.
    apply In_nth_error in Hr as (p & Hp).
    destruct (BalancerFacts.blocks_nth df 7 0 dfs p r Hblocks Hp) as [Hin _].
    rewrite <- Hc. now apply in_map. }
  destruct (EvaluationFacts.image_column_total _ nearest ham7 balanced
              ham7_images_available Hcols) as (images & Hi & Hil & Hshape).
  pose proof (EvaluationFacts.X_total _ Hshape) as Hx.
  exists balanced, images, (map Numpy.true_divide_255 images).
  destruct (image_arrays_are_full _ _ _ _ _ Hi Hx) as [Hl Hf].
  refine (conj Hb (conj Hi (conj Hx (conj _ _)))).
  - rewrite Hl. exact Hlen.
  - clear -Hf Hshape. remember (map Numpy.true_divide_255 images) as x eqn:E. clear E.
    induction Hf as [|a t images x (Hs & _ & _ & H3072) Hf IH]; constructor.
    + apply H3072. rewrite Hs. now inversion Hshape.
    + apply IH. now inversion Hshape.
Defined.
